(** * Port-logistics assistant: routing state machine

    A shallow embedding of the conversation graph of the repository
    (src/nodes/orchestrator.py, src/nodes/bookingAgent.py,
    src/nodes/capacityAgent.py, src/nodes/guardianAgent.py,
    src/utils/booking_tools.py, src/utils/common_tools.py, api/main.py)
    and the properties of its routing, queueing and permission logic.

    Conventions of the embedding.
    - A Python [str] is a [string] of bytes; [strip], [upper] and [lower]
      act on the ASCII range, which covers every literal the code compares
      against.
    - A Python value of dynamic type (tool arguments, tool results, parsed
      JSON, the UI payload) is a [pyval].
    - [dict.get(k, d)] on the conversation state distinguishes a key that is
      absent from a key bound to [None]; a state field is a [field].
    - A Python exception raised by the node's own code is [None] in
      [option]; the language model, the back-end tools, the JSON parser and
      the prompt templates are the fields of a [World]. *)

From Stdlib Require Import ZArith Ascii String List Bool Lia Sorted Permutation.
From stdpp Require Import base option list strings gmap.
Import ListNotations.
Local Open Scope string_scope.
Set Warnings "-register-all".

(** ** Python strings *)

Module Py.

(** [c.isspace()] on the ASCII range: TAB..CR, FS..US and the space. *)
Definition is_space (c : ascii) : bool :=
  let n := nat_of_ascii c in
  (((9 <=? n) && (n <=? 13)) || ((28 <=? n) && (n <=? 32)))%nat.

Definition upper_char (c : ascii) : ascii :=
  let n := nat_of_ascii c in
  if ((97 <=? n) && (n <=? 122))%nat then ascii_of_nat (n - 32)%nat else c.

Definition lower_char (c : ascii) : ascii :=
  let n := nat_of_ascii c in
  if ((65 <=? n) && (n <=? 90))%nat then ascii_of_nat (n + 32)%nat else c.

Fixpoint map_string (f : ascii -> ascii) (s : string) : string :=
  match s with
  | EmptyString => EmptyString
  | String c s' => String (f c) (map_string f s')
  end.

(** [s.upper()] and [s.lower()]. *)
Definition upper (s : string) : string := map_string upper_char s.
Definition lower (s : string) : string := map_string lower_char s.

(** [s.lstrip()], [s.rstrip()], [s.strip()]. *)
Fixpoint lstrip (s : string) : string :=
  match s with
  | EmptyString => EmptyString
  | String c s' => if is_space c then lstrip s' else s
  end.

Fixpoint rstrip (s : string) : string :=
  match s with
  | EmptyString => EmptyString
  | String c s' =>
      match rstrip s' with
      | EmptyString => if is_space c then EmptyString else String c EmptyString
      | r => String c r
      end
  end.

Definition strip (s : string) : string := rstrip (lstrip s).

(** [s.startswith(p)]. *)
Fixpoint startswith (p s : string) : bool :=
  match p, s with
  | EmptyString, _ => true
  | String _ _, EmptyString => false
  | String a p', String b s' => if Ascii.eqb a b then startswith p' s' else false
  end.

(** [p in s] for two strings: [p] occurs in [s] as a substring. *)
Fixpoint contains (p s : string) : bool :=
  startswith p s ||
  match s with
  | EmptyString => false
  | String _ s' => contains p s'
  end.

(** [x in (a, b, ...)] for a tuple, list or set of strings. *)
Definition str_in (x : string) (l : list string) : bool :=
  existsb (String.eqb x) l.

(** ["sep".join(l)]. *)
Fixpoint join (sep : string) (l : list string) : string :=
  match l with
  | [] => ""
  | [x] => x
  | x :: rest => x ++ sep ++ join sep rest
  end.

(** [l[-n:]] for a list and [n > 0]. *)
Definition last_n {A} (n : nat) (l : list A) : list A :=
  skipn (length l - n)%nat l.

(** [l[-1]]: raises IndexError on the empty list. *)
Definition last_item {A} (l : list A) : option A := last l.

(** Values of dynamic type. A [dict] keeps its keys in insertion order,
    which iteration follows. *)
Inductive pyval :=
  | VNone
  | VBool (b : bool)
  | VInt (n : Z)
  | VStr (s : string)
  | VList (l : list pyval)
  | VDict (d : list (string * pyval)).

Definition dict := list (string * pyval).

(** [d.get(k)] as an option, [d[k] = v], [list(d)]. *)
Fixpoint dict_get (k : string) (d : dict) : option pyval :=
  match d with
  | [] => None
  | (k', v) :: d' => if String.eqb k' k then Some v else dict_get k d'
  end.

Fixpoint dict_set (k : string) (v : pyval) (d : dict) : dict :=
  match d with
  | [] => [(k, v)]
  | (k', v') :: d' =>
      if String.eqb k' k then (k, v) :: d' else (k', v') :: dict_set k v d'
  end.

Definition dict_keys (d : dict) : list string := map fst d.

(** Truth value of a Python object in a condition. *)
Definition truthy (v : pyval) : bool :=
  match v with
  | VNone => false
  | VBool b => b
  | VInt n => negb (n =? 0)%Z
  | VStr s => negb (String.eqb s "")
  | VList l => match l with [] => false | _ => true end
  | VDict d => match d with [] => false | _ => true end
  end.

(** The characters of a string, each as a string of length one. *)
Fixpoint chars (s : string) : list string :=
  match s with
  | EmptyString => []
  | String c s' => String c EmptyString :: chars s'
  end.

(** Truth value of a [str | None]. *)
Definition truthy_str (o : option string) : bool :=
  match o with
  | Some s => negb (String.eqb s "")
  | None => false
  end.

(** [f"{x}"] for a [str | None]. *)
Definition fmt_opt (o : option string) : string :=
  match o with
  | Some s => s
  | None => "None"
  end.

End Py.

Import Py.

(** ** Conversation state (src/state/AgentState.py) *)

(** A tool call requested by the model: [call["name"]], [call["args"]],
    [call["id"]]. *)
Record tool_call := ToolCall {
  tc_name : string;
  tc_args : dict;
  tc_id : string
}.

(** A model completion: [response.content] and [response.tool_calls]. *)
Record ai_reply := AiReply {
  ai_content : string;
  ai_tool_calls : list tool_call
}.

Inductive message :=
  | SystemMessage (content : string)
  | HumanMessage (content : string)
  | AIMessage (r : ai_reply)
  | ToolMessage (content : string) (tool_call_id : string) (name : string).

(** [m.content] and [m.type]. *)
Definition msg_content (m : message) : string :=
  match m with
  | SystemMessage c | HumanMessage c | ToolMessage c _ _ => c
  | AIMessage r => ai_content r
  end.

Definition msg_type (m : message) : string :=
  match m with
  | SystemMessage _ => "system"
  | HumanMessage _ => "human"
  | AIMessage _ => "ai"
  | ToolMessage _ _ _ => "tool"
  end.

(** A key of the state dictionary: absent, or bound to a value. *)
Inductive field (A : Type) :=
  | Missing
  | Present (v : A).
Arguments Missing {A}.
Arguments Present {A} v.

(** [state.get(key, default)] for a key whose value is [A | None]. *)
Definition state_get {A} (f : field (option A)) (default : option A) : option A :=
  match f with
  | Missing => default
  | Present v => v
  end.

Record AgentState := mkState {
  messages : list message;
  current_intent : field (option string);
  language_detected : field (option string);
  draft_response : field (option string);
  route_lock : field (option string);
  pending_intents : field (option (list string));
  user_id : field (option string);
  user_role : field (option string);
  terminal_id : field (option string);
  carrier_id : field (option string);
  thread_id : field (option string);
  ui_payload : field (option pyval)
}.

(** The [update] dictionary of a [Command]: [None] for a key the dictionary
    does not have, [Some v] for a key it binds to [v]. [u_messages] is the
    list under ["messages"] (empty when the key is not there). *)
Record Update := mkUpdate {
  u_messages : list message;
  u_current_intent : option (option string);
  u_language_detected : option (option string);
  u_draft_response : option (option string);
  u_route_lock : option (option string);
  u_pending_intents : option (list string);
  u_ui_payload : option (option pyval)
}.

(** [Command(update=..., goto=...)]. *)
Record Command := mkCommand {
  update : Update;
  goto : string
}.

Definition write {A} (u : option A) (f : field A) : field A :=
  match u with
  | Some v => Present v
  | None => f
  end.

(** How the graph folds an update into the state: ["messages"] has the
    [add_messages] reducer and is appended to, every other key is
    replaced. *)
Definition apply_update (st : AgentState) (u : Update) : AgentState :=
  {| messages := messages st ++ u_messages u;
     current_intent := write (u_current_intent u) (current_intent st);
     language_detected := write (u_language_detected u) (language_detected st);
     draft_response := write (u_draft_response u) (draft_response st);
     route_lock := write (u_route_lock u) (route_lock st);
     pending_intents := write (option_map Some (u_pending_intents u)) (pending_intents st);
     user_id := user_id st;
     user_role := user_role st;
     terminal_id := terminal_id st;
     carrier_id := carrier_id st;
     thread_id := thread_id st;
     ui_payload := write (u_ui_payload u) (ui_payload st) |}.

(** [state.get("pending_intents", []) or []]. *)
Definition pending_of (st : AgentState) : list string :=
  match state_get (pending_intents st) (Some []) with
  | Some l => l
  | None => []
  end.

(** [state.get("user_role", "CARRIER")]. *)
Definition role_of (st : AgentState) : option string :=
  state_get (user_role st) (Some "CARRIER").

(** ** The environment of a turn *)

(** One invocation of a tool, in the order the node performs them. *)
Inductive tool_event :=
  | Invoked (name : string) (args : dict).

(** What the nodes consult and cannot compute themselves: the language
    model behind [llm.invoke] (given the names of the bound tools and the
    input messages), [json.loads] ([None] for JSONDecodeError), the tools
    that query the back end, [get_terminals_map], [str()] of a value that is
    not a string, [json.dumps], the validation of a tool call's arguments
    against the tool's signature that [tool.invoke] performs before the body
    runs ([None] when it raises), the identity look-ups and the fresh thread
    id of api/main.py, and the prompt templates of src/prompts. The model
    and the back end are taken to answer: a call of theirs that fails ends
    the turn with their exception, which no node catches. *)
Record World := mkWorld {
  llm_invoke : list string -> list message -> ai_reply;
  json_loads : string -> option pyval;
  tool_backend : string -> dict -> pyval;
  terminals_map : gmap string string;
  py_repr : pyval -> string;
  orchestrator_prompt : string -> option string -> string -> string;
  booking_prompt : string -> pyval -> string -> gmap string string -> string;
  capacity_prompt : gmap string string -> option string -> string -> string;
  json_dumps : pyval -> string;
  resolve_terminal_id_for_user : string -> option string;
  resolve_carrier_id_for_user : string -> option string;
  uuid4 : string;
  parse_communicate_args : dict -> option (string * bool * option (list string));
  parse_form_args : dict -> option (string * string * string);
  guardian_prompt :
    string -> option string -> option string -> option string -> string;
  guardian_form_prompt :
    string -> option string -> option string -> option string -> pyval -> string
}.

(** [str(v)]. *)
Definition py_str (W : World) (v : pyval) : string :=
  match v with
  | VStr s => s
  | _ => py_repr W v
  end.

(** ** Guardian (src/nodes/guardianAgent.py) *)

Module Guardian.

Record role_config := mkRole {
  allowed_intents : list string;
  can_view_capacity : bool;
  can_view_history : bool;
  label : string
}.

#[export] Instance role_config_inhabited : Inhabited role_config :=
  populate (mkRole [] false false "").

Definition ROLE_PERMISSIONS : gmap string role_config :=
  <["CARRIER" := mkRole ["booking"; "capacity"; "general"] true true "Truck Carrier"]>
  (<["OPERATOR" := mkRole ["booking"; "capacity"; "general"] true true "Terminal Operator"]>
  (<["ADMIN" := mkRole ["booking"; "capacity"; "general"] true true "Port Administrator"]>
   ∅)).

(** [ROLE_PERMISSIONS.get(user_role, d)]; a [None] role is no key of the
    table. *)
Definition permissions_get (user_role : option string) (d : role_config) : role_config :=
  match user_role with
  | Some r => default d (ROLE_PERMISSIONS !! r)
  | None => d
  end.

Definition check_permission (user_role intent : option string) : bool :=
  let role_config := permissions_get user_role (ROLE_PERMISSIONS !!! "CARRIER") in
  match intent with
  | Some i => str_in i (allowed_intents role_config)
  | None => false
  end.

(** [ROLE_PERMISSIONS.get(user_role, {}).get("label", "User")]. *)
Definition role_label (user_role : option string) : string :=
  match user_role with
  | Some r =>
      match ROLE_PERMISSIONS !! r with
      | Some cfg => label cfg
      | None => "User"
      end
  | None => "User"
  end.

Definition blocked_msg (user_role intent : option string) : string :=
  "Access Denied: As a " ++ role_label user_role ++
  ", you do not have permission to access " ++ fmt_opt intent ++
  " data. Please contact your terminal operator for assistance.".

Definition fallback_draft : string :=
  "I'm sorry, I couldn't process your request. Could you rephrase that?".

Definition valid_targets : list string := ["BOOKING"; "CAPACITY"].

Definition guardian_node (W : World) (state : AgentState) : Command :=
  (* A. gather context *)
  let draft := state_get (draft_response state) None in
  let intent := state_get (current_intent state) (Some "general") in
  let language := state_get (language_detected state) (Some "English") in
  let user_role := role_of state in
  let ui_payload := state_get (ui_payload state) None in
  (* B. permission check *)
  if negb (check_permission user_role intent) then
    mkCommand
      {| u_messages := [AIMessage (AiReply (blocked_msg user_role intent) [])];
         u_current_intent := None;
         u_language_detected := None;
         u_draft_response := Some None;
         u_route_lock := None;
         u_pending_intents := None;
         u_ui_payload := Some None |}
      "__end__"
  else
    (* C. empty draft *)
    let draft := if truthy_str draft then fmt_opt draft else fallback_draft in
    (* D. polish and format *)
    let system_prompt :=
      match ui_payload with
      | Some p =>
          if truthy p
          then guardian_form_prompt W draft language user_role intent p
          else guardian_prompt W draft language user_role intent
      | None => guardian_prompt W draft language user_role intent
      end in
    let result := llm_invoke W [] [SystemMessage system_prompt] in
    let final_content := strip (ai_content result) in
    (* E. final state update *)
    let route_lock := state_get (route_lock state) None in
    let update :=
      {| u_messages := [AIMessage (AiReply final_content [])];
         u_current_intent := None;
         u_language_detected := None;
         u_draft_response := Some None;
         u_route_lock := Some route_lock;
         u_pending_intents := None;
         u_ui_payload :=
           Some (match ui_payload with
                 | Some p => if truthy p then Some p else None
                 | None => None
                 end) |} in
    (* G. pending intents *)
    let pending := pending_of state in
    match pending with
    | next_intent :: remaining =>
        if negb (truthy_str route_lock) then
          if str_in next_intent valid_targets then
            mkCommand
              {| u_messages := u_messages update;
                 u_current_intent := Some (Some (lower next_intent));
                 u_language_detected := u_language_detected update;
                 u_draft_response := u_draft_response update;
                 u_route_lock := u_route_lock update;
                 u_pending_intents := Some remaining;
                 u_ui_payload := u_ui_payload update |}
              next_intent
          else
            mkCommand
              {| u_messages := u_messages update;
                 u_current_intent := u_current_intent update;
                 u_language_detected := u_language_detected update;
                 u_draft_response := u_draft_response update;
                 u_route_lock := u_route_lock update;
                 u_pending_intents := Some remaining;
                 u_ui_payload := u_ui_payload update |}
              "__end__"
        else mkCommand update "__end__"
    | [] => mkCommand update "__end__"
    end.

End Guardian.

(** ** Orchestrator (src/nodes/orchestrator.py) *)

Module Orchestrator.

(** The dictionary [classify_intent_and_language] returns: ["intent"],
    ["language"] and, when the model's JSON had it, ["intents"]. *)
Record classification := mkClass {
  c_intent : string;
  c_language : string;
  c_intents : option pyval
}.

(** [parsed.get(key, default).strip()]: [parsed] has to be a dict and the
    value a string, anything else raises. *)
Definition get_stripped (parsed : pyval) (key default : string) : option string :=
  match parsed with
  | VDict d =>
      match dict_get key d with
      | Some (VStr s) => Some (strip s)
      | Some _ => None
      | None => Some (strip default)
      end
  | _ => None
  end.

Definition classify_intent_and_language (W : World)
    (user_msg history_str : string) (active_route : option string)
    (previous_intent : string) : option classification :=
  let system_prompt := orchestrator_prompt W history_str active_route previous_intent in
  let response := llm_invoke W [] [SystemMessage system_prompt; HumanMessage user_msg] in
  let raw := strip (ai_content response) in
  match json_loads W raw with
  | Some parsed =>
      intent ← get_stripped parsed "intent" "CHITCHAT";
      language ← get_stripped parsed "language" "English";
      Some (mkClass (upper intent) language
              (match parsed with VDict d => dict_get "intents" d | _ => None end))
  | None => Some (mkClass (upper raw) "English" None)
  end.

(** The elements a [for i in v] visits, each of which [.strip()] is then
    called on: a list has to hold strings, a string yields its characters, a
    dict its keys, and nothing else can be iterated. *)
Fixpoint as_strs (l : list pyval) : option (list string) :=
  match l with
  | [] => Some []
  | VStr s :: l' => option_map (cons s) (as_strs l')
  | _ :: _ => None
  end.

Definition iter_strs (v : pyval) : option (list string) :=
  match v with
  | VList l => as_strs l
  | VStr s => Some (chars s)
  | VDict d => Some (dict_keys d)
  | _ => None
  end.

(** [[i.strip().upper() for i in intents_list
      if i.strip().upper() in ("BOOKING", "CAPACITY")]]. *)
Definition normalize (l : list string) : list string :=
  filter (fun i => Is_true (str_in i ["BOOKING"; "CAPACITY"]))
         (map (fun i => upper (strip i)) l).

(** The list CASE 0 works with, fallback included. *)
Definition multi_intents (c : classification) : option (list string) :=
  intents_list ← match c_intents c with
                 | Some v => iter_strs v
                 | None => Some ["CAPACITY"; "BOOKING"]
                 end;
  let intents_list := normalize intents_list in
  Some (if (length intents_list <? 2)%nat then ["CAPACITY"; "BOOKING"] else intents_list).

Definition help_text (user_role : option string) : string :=
  let help_lines :=
    (["I'm the **Port Logistics Assistant**. Here's what I can help you with:"; ""] ++
    (if bool_decide (user_role = Some "ADMIN") then
       ["- **Bookings** — View all bookings across every terminal, search by carrier, status, or terminal, and manage booking operations.";
        "- **Capacity** — Check real-time capacity, slot availability, and utilization for any terminal on any date.";
        "- **Terminals** — Get an overview of all terminals in the system."]
     else if bool_decide (user_role = Some "OPERATOR") then
       ["- **Bookings** — View and manage bookings for your terminal.";
        "- **Capacity** — Check slot availability and capacity status for your terminal on any date."]
     else
       ["- **Bookings** — View your bookings, check booking status, or start a new booking.";
        "- **Capacity** — Check available time slots and terminal capacity for any date."]) ++
    [""; "Just ask me a question and I'll take care of the rest!"])%list in
  join (String (ascii_of_nat 10) "") help_lines.

Definition out_of_scope_text : string :=
  "I'm sorry, I can only help with port logistics — bookings, terminal capacity, and scheduling. I can't assist with that topic. Is there anything else I can help you with?".

Definition chitchat_text : string :=
  "Hello! I'm the Port Logistics Assistant. I can help you with bookings, terminal capacity, and scheduling. What would you like to know?".

Definition valid_nodes : list string := ["BOOKING"; "CAPACITY"].

(** An update of the three keys every branch writes, and of
    ["draft_response"] for the branches that go straight to the Guardian. *)
Definition route_update (draft : option (option string)) (intent language : string)
    (pending : list string) : Update :=
  {| u_messages := [];
     u_current_intent := Some (Some intent);
     u_language_detected := Some (Some language);
     u_draft_response := draft;
     u_route_lock := None;
     u_pending_intents := Some pending;
     u_ui_payload := None |}.

(** Step 4 of [orchestrator_node], the routing on a classification. *)
Definition routing_logic (state : AgentState) (c : classification) : option Command :=
  let intent := c_intent c in
  let language := c_language c in
  if contains "MULTI" intent then
    intents_list ← multi_intents c;
    match intents_list with
    | first_intent :: remaining_intents =>
        Some (mkCommand
                (route_update None (lower first_intent) language remaining_intents)
                first_intent)
    | [] => None
    end
  else if contains "BOOKING" intent then
    Some (mkCommand (route_update None "booking" language []) "BOOKING")
  else if contains "CAPACITY" intent then
    Some (mkCommand (route_update None "capacity" language []) "CAPACITY")
  else if contains "HELP" intent then
    Some (mkCommand
            (route_update (Some (Some (help_text (role_of state)))) "general" language [])
            "GUARDIAN")
  else if contains "OUT_OF_SCOPE" intent then
    Some (mkCommand
            (route_update (Some (Some out_of_scope_text)) "general" language [])
            "GUARDIAN")
  else
    Some (mkCommand
            (route_update (Some (Some chitchat_text)) "general" language [])
            "GUARDIAN").

(** Steps 3 and 4: the queue check, then the routing. *)
Definition route (state : AgentState) (c : classification) : option Command :=
  let intent := c_intent c in
  let language := c_language c in
  let pending := pending_of state in
  match pending with
  | next_intent :: remaining =>
      if negb (str_in intent ["MULTI"; "BOOKING"; "CAPACITY"; "CHITCHAT"]) then
        if str_in next_intent valid_nodes then
          Some (mkCommand
                  (route_update None (lower next_intent) language remaining)
                  next_intent)
        else routing_logic state c
      else routing_logic state c
  | [] => routing_logic state c
  end.

(** [f"{m.type.upper()}: {m.content}"] over the last five messages. *)
Definition history_str (state : AgentState) : string :=
  join (String (ascii_of_nat 10) "")
       (map (fun m => upper (msg_type m) ++ ": " ++ msg_content m)
            (last_n 5 (messages state))).

(** [state.get("current_intent", "NONE") or "NONE"]. *)
Definition previous_intent (state : AgentState) : string :=
  match state_get (current_intent state) (Some "NONE") with
  | Some s => if String.eqb s "" then "NONE" else s
  | None => "NONE"
  end.

Definition orchestrator_node (W : World) (state : AgentState) : option Command :=
  let active_route := state_get (route_lock state) (Some "NONE") in
  let previous_intent := previous_intent state in
  user_msg ← msg_content <$> last_item (messages state);
  classification ←
    classify_intent_and_language W user_msg (history_str state) active_route previous_intent;
  route state classification.

End Orchestrator.

(** ** Tools with a body of their own *)

Module Tools.

(** src/utils/common_tools.py, [communicate_with_user]. *)
Definition communicate_with_user (message : string) (needs_followup : bool)
    (missing_fields : option (list string)) : pyval :=
  VDict [("type", VStr "communication");
         ("message", VStr message);
         ("needs_followup", VBool needs_followup);
         ("missing_fields", VList (map VStr (default [] missing_fields)))].

(** src/utils/booking_tools.py, [prepare_booking_form]: the dictionary it
    serialises with [json.dumps], and which the Booking handler gets back
    from [json.loads]. It looks the terminal up with [get_terminals_map]
    first. *)
Definition booking_form (W : World) (date time terminal : string) : pyval :=
  let terminal_id :=
    match terminals_map W !! terminal with
    | Some t => if String.eqb t "" then terminal else t
    | None => terminal
    end in
  VDict [("ui_action", VStr "OPEN_BOOKING_FORM");
         ("prefill", VDict [("date", VStr date);
                            ("time", VStr time);
                            ("terminal", VStr terminal);
                            ("terminal_id", VStr terminal_id)])].

End Tools.

(** What handling the first tool call yields: [result], [ui_signal]
    together with [booking_text] (bound only on the form branch),
    [needs_followup], the call's arguments as the branch leaves them, and the
    tools it invoked. *)
Record dispatched := mkDispatched {
  d_result : pyval;
  d_ui_signal : option (pyval * string);
  d_needs_followup : bool;
  d_args : dict;
  d_events : list tool_event
}.

(** [if ui_signal:] holds for a signal that is bound and not empty. *)
Definition form_signal (d : dispatched) : option (pyval * string) :=
  match d_ui_signal d with
  | Some (ui_signal, text) => if truthy ui_signal then Some (ui_signal, text) else None
  | None => None
  end.

(** A branch that invokes a back-end tool on the call's arguments. *)
Definition fetch (W : World) (name : string) (args : dict) : dispatched :=
  mkDispatched (tool_backend W name args) None false args [Invoked name args].

(** [call["args"].get("needs_followup", False)], as a condition. *)
Definition followup_flag (args : dict) : bool :=
  truthy (default (VBool false) (dict_get "needs_followup" args)).

(** The [communicate_with_user] branch, the same in both handlers. *)
Definition communicate (W : World) (args : dict) : option dispatched :=
  '(message, needs_followup, missing_fields) ← parse_communicate_args W args;
  Some (mkDispatched
          (Tools.communicate_with_user message needs_followup missing_fields)
          None (followup_flag args) args [Invoked "communicate_with_user" args]).

(** [result["message"]], which [draft_response] is set to. *)
Definition result_message (result : pyval) : option string :=
  match result with
  | VDict d =>
      match dict_get "message" d with
      | Some (VStr s) => Some s
      | _ => None
      end
  | _ => None
  end.

(** [[response] + tool_outputs], where [response] holds the first call's
    arguments as the handler left them ([args["user_id"] = ...] writes into
    the dictionary the message refers to). *)
Definition with_first_args (r : ai_reply) (args : dict) : ai_reply :=
  match ai_tool_calls r with
  | call :: rest =>
      AiReply (ai_content r) (ToolCall (tc_name call) args (tc_id call) :: rest)
  | [] => r
  end.

Definition specialist_update (msgs : list message) (draft : string)
    (lock : option string) (ui : option (option pyval)) : Update :=
  {| u_messages := msgs;
     u_current_intent := None;
     u_language_detected := None;
     u_draft_response := Some (Some draft);
     u_route_lock := Some lock;
     u_pending_intents := None;
     u_ui_payload := ui |}.

Definition opt_val (o : option string) : pyval :=
  match o with
  | Some s => VStr s
  | None => VNone
  end.

(** ** Booking handler (src/nodes/bookingAgent.py) *)

Module Booking.

Definition admin_tools : list string :=
  ["get_all_bookings"; "get_bookings_by_terminal_id"; "get_capacity_by_terminal_id";
   "get_terminal_schedule"; "communicate_with_user"].

Definition operator_tools : list string :=
  ["get_bookings_by_terminal_id"; "get_capacity_by_terminal_id";
   "get_terminal_schedule"; "communicate_with_user"].

Definition carrier_tools : list string :=
  ["prepare_booking_form"; "communicate_with_user"; "get_bookings_by_user"].

Definition today_args : dict := [("date", VStr "TODAY")].

(** B. the branch on [user_role]: [tools_to_bind], [system_prompt] and the
    tools invoked to pre-fetch the prompt's context. *)
Definition setup (W : World) (state : AgentState)
    : list string * string * list tool_event :=
  let user_role := role_of state in
  if bool_decide (user_role = Some "ADMIN") then
    let todays_data := tool_backend W "get_terminal_schedule" today_args in
    (admin_tools,
     booking_prompt W "ADMIN" todays_data "" (terminals_map W),
     [Invoked "get_terminal_schedule" today_args; Invoked "get_terminals_map" []])
  else if bool_decide (user_role = Some "OPERATOR") then
    let terminal_id := state_get (terminal_id state) None in
    let operator_terminal_info :=
      if truthy_str terminal_id
      then "YOUR_TERMINAL_ID: " ++ fmt_opt terminal_id
      else "No terminal assigned" in
    let todays_data := tool_backend W "get_terminal_schedule" today_args in
    (operator_tools,
     booking_prompt W "OPERATOR" todays_data operator_terminal_info (terminals_map W),
     [Invoked "get_terminal_schedule" today_args; Invoked "get_terminals_map" []])
  else if bool_decide (user_role = Some "CARRIER") then
    (carrier_tools,
     booking_prompt W "CARRIER" (VStr "") "" (terminals_map W),
     [Invoked "get_terminals_map" []])
  else ([], "", []).

Definition booking_text (W : World) (prefill : dict) : string :=
  let item k := py_str W (default (VStr "N/A") (dict_get k prefill)) in
  let nl := String (ascii_of_nat 10) "" in
  "I've prepared a booking form for you:" ++ nl ++
  "• Date: " ++ item "date" ++ nl ++
  "• Time: " ++ item "time" ++ nl ++
  "• Terminal: " ++ item "terminal" ++ nl ++
  "Please review and confirm in the form below.".

(** D. the [if]/[elif] chain on the name of the first tool call. *)
Definition dispatch (W : World) (state : AgentState) (call : tool_call)
    : option dispatched :=
  let t_name := tc_name call in
  let args := tc_args call in
  if String.eqb t_name "prepare_booking_form" then
    '(date, time, terminal) ← parse_form_args W args;
    let parsed := Tools.booking_form W date time terminal in
    prefill ← match parsed with
              | VDict d =>
                  match default (VDict []) (dict_get "prefill" d) with
                  | VDict prefill => Some prefill
                  | _ => None
                  end
              | _ => None
              end;
    Some (mkDispatched (VStr (json_dumps W parsed))
            (Some (parsed, booking_text W prefill)) false args
            [Invoked "prepare_booking_form" args; Invoked "get_terminals_map" []])
  else if String.eqb t_name "get_terminal_schedule" then
    Some (fetch W "get_terminal_schedule" args)
  else if String.eqb t_name "communicate_with_user" then
    communicate W args
  else if String.eqb t_name "get_bookings_by_user" then
    let args := dict_set "user_id" (opt_val (state_get (user_id state) (Some "guest"))) args in
    let args := dict_set "user_role" (opt_val (role_of state)) args in
    let carrier_id := state_get (carrier_id state) None in
    let args :=
      if truthy_str carrier_id then dict_set "carrier_id" (opt_val carrier_id) args
      else args in
    Some (fetch W "get_bookings_by_user" args)
  else if String.eqb t_name "get_bookings_by_terminal_id" then
    Some (fetch W "get_bookings_by_terminal_id" args)
  else if String.eqb t_name "get_capacity_by_terminal_id" then
    Some (fetch W "get_capacity_by_terminal_id" args)
  else if String.eqb t_name "get_all_bookings" then
    Some (fetch W "get_all_bookings" args)
  else
    Some (mkDispatched (VStr ("Unknown tool: " ++ t_name)) None false args []).

Definition booking_agent_node (W : World) (state : AgentState)
    : option (Command * list tool_event) :=
  (* A. context *)
  user_msg ← msg_content <$> last_item (messages state);
  (* B. role branch *)
  let '(tools_to_bind, system_prompt, prefetched) := setup W state in
  (* C. execution *)
  let context := SystemMessage system_prompt :: messages state in
  let response := llm_invoke W tools_to_bind context in
  (* D. tools: only the first call *)
  match ai_tool_calls response with
  | call :: _ =>
      d ← dispatch W state call;
      let response := with_first_args response (d_args d) in
      let tool_outputs :=
        [ToolMessage (py_str W (d_result d)) (tc_id call) (tc_name call)] in
      let events := (prefetched ++ d_events d)%list in
      match form_signal d with
      | Some (ui_signal, text) =>
          Some (mkCommand
                  (specialist_update (AIMessage response :: tool_outputs) text None
                     (Some (Some ui_signal)))
                  "GUARDIAN", events)
      | None =>
          if d_needs_followup d then
            message ← result_message (d_result d);
            Some (mkCommand
                    (specialist_update (AIMessage response :: tool_outputs) message
                       (Some "BOOKING") None)
                    "GUARDIAN", events)
          else
            let final_response :=
              llm_invoke W tools_to_bind
                (context ++ AIMessage response :: tool_outputs)%list in
            Some (mkCommand
                    (specialist_update
                       (AIMessage response :: tool_outputs ++ [AIMessage final_response])%list
                       (ai_content final_response) None None)
                    "GUARDIAN", events)
      end
  | [] =>
      Some (mkCommand
              (specialist_update [AIMessage response] (ai_content response) None None)
              "GUARDIAN", prefetched)
  end.

End Booking.

(** ** Capacity handler (src/nodes/capacityAgent.py) *)

Module Capacity.

Definition base_tools : list string :=
  ["check_availability"; "get_terminal_details"; "communicate_with_user";
   "get_capacity_summary"].

(** B. [base_tools] after the role's [append], and
    [operator_terminal_info]. *)
Definition setup (state : AgentState) : list string * string :=
  let user_role := role_of state in
  if bool_decide (user_role = Some "ADMIN") then
    ((base_tools ++ ["get_capacity_by_terminal_id"])%list, "")
  else if bool_decide (user_role = Some "OPERATOR") then
    let terminal_id := state_get (terminal_id state) None in
    ((base_tools ++ ["get_capacity_by_terminal_id"])%list,
     if truthy_str terminal_id
     then "Terminal ID: " ++ fmt_opt terminal_id
     else "No terminal assigned")
  else (base_tools, "").

(** D. the [if]/[elif] chain on the name of the first tool call. *)
Definition dispatch (W : World) (call : tool_call) : option dispatched :=
  let t_name := tc_name call in
  let args := tc_args call in
  if String.eqb t_name "get_terminal_details" then
    Some (fetch W "get_terminal_details" args)
  else if String.eqb t_name "get_capacity_summary" then
    Some (fetch W "get_capacity_summary" args)
  else if String.eqb t_name "communicate_with_user" then
    communicate W args
  else if String.eqb t_name "check_availability" then
    Some (fetch W "check_availability" args)
  else if String.eqb t_name "get_capacity_by_terminal_id" then
    Some (fetch W "get_capacity_by_terminal_id" args)
  else
    Some (mkDispatched (VStr ("Unknown tool: " ++ t_name)) None false args []).

Definition capacity_node (W : World) (state : AgentState)
    : option (Command * list tool_event) :=
  let user_role := role_of state in
  let prefetched := [Invoked "get_terminals_map" []] in
  let '(tools, operator_terminal_info) := setup state in
  let system_msg := capacity_prompt W (terminals_map W) user_role operator_terminal_info in
  (* C. first model call *)
  let context := SystemMessage system_msg :: messages state in
  let ai_msg := llm_invoke W tools context in
  (* D. tools: only the first call *)
  match ai_tool_calls ai_msg with
  | call :: _ =>
      d ← dispatch W call;
      let tool_outputs :=
        [ToolMessage (py_str W (d_result d)) (tc_id call) (tc_name call)] in
      let events := (prefetched ++ d_events d)%list in
      if d_needs_followup d then
        message ← result_message (d_result d);
        Some (mkCommand
                (specialist_update (AIMessage ai_msg :: tool_outputs) message
                   (Some "CAPACITY") None)
                "GUARDIAN", events)
      else
        (* E. second model call *)
        let final_response :=
          llm_invoke W tools (context ++ AIMessage ai_msg :: tool_outputs)%list in
        Some (mkCommand
                (specialist_update
                   (AIMessage ai_msg :: tool_outputs ++ [AIMessage final_response])%list
                   (ai_content final_response) None None)
                "GUARDIAN", events)
  | [] =>
      Some (mkCommand
              (specialist_update [AIMessage ai_msg] (ai_content ai_msg) None None)
              "GUARDIAN", prefetched)
  end.

End Capacity.

(** ** The graph (src/graph/graph.py) and the chat endpoint (api/main.py) *)

Module Graph.

(** The node registered under a name, with the tools it invoked. *)
Definition node (W : World) (name : string) (state : AgentState)
    : option (Command * list tool_event) :=
  if String.eqb name "ORCHESTRATOR" then
    cmd ← Orchestrator.orchestrator_node W state; Some (cmd, [])
  else if String.eqb name "BOOKING" then Booking.booking_agent_node W state
  else if String.eqb name "CAPACITY" then Capacity.capacity_node W state
  else if String.eqb name "GUARDIAN" then Some (Guardian.guardian_node W state, [])
  else None.

(** Runs nodes from [name] on, each [Command] updating the state and naming
    the next node, until one names ["__end__"]. [fuel] bounds the number of
    nodes run; the graph library stops a run at its recursion limit with an
    error. *)
Fixpoint run (W : World) (fuel : nat) (name : string) (state : AgentState)
    : option (AgentState * list tool_event) :=
  if String.eqb name "__end__" then Some (state, [])
  else
    match fuel with
    | O => None
    | S fuel' =>
        '(cmd, events) ← node W name state;
        '(final, later) ← run W fuel' (goto cmd) (apply_update state (update cmd));
        Some (final, (events ++ later)%list)
    end.

Definition recursion_limit : nat := 25.

(** [graph.invoke(input_state, ...)]: the entry edge is
    START -> ORCHESTRATOR. *)
Definition invoke (W : World) (state : AgentState)
    : option (AgentState * list tool_event) :=
  run W recursion_limit "ORCHESTRATOR" state.

End Graph.

Module Api.

Record ChatRequest := mkRequest {
  req_message : string;
  req_user_id : option string;
  req_user_role : option string;
  req_thread_id : option string
}.

(** [x or d] for a [str | None]. *)
Definition str_or (x : option string) (d : string) : string :=
  match x with
  | Some s => if String.eqb s "" then d else s
  | None => d
  end.

(** A thread nothing was stored for yet. *)
Definition empty_state : AgentState :=
  mkState [] Missing Missing Missing Missing Missing Missing Missing Missing
          Missing Missing Missing.

(** [input_state] of [chat], folded into the state the checkpointer holds
    for the thread. *)
Definition input_state (W : World) (req : ChatRequest) (stored : AgentState)
    : AgentState :=
  let thread_id := str_or (req_thread_id req) (uuid4 W) in
  let role_upper := upper (str_or (req_user_role req) "") in
  let terminal_id :=
    if String.eqb role_upper "OPERATOR" && truthy_str (req_user_id req)
    then resolve_terminal_id_for_user W (fmt_opt (req_user_id req))
    else None in
  let carrier_id :=
    if String.eqb role_upper "OPERATOR" && truthy_str (req_user_id req) then None
    else if String.eqb role_upper "CARRIER" && truthy_str (req_user_id req)
    then resolve_carrier_id_for_user W (fmt_opt (req_user_id req))
    else None in
  {| messages := messages stored ++ [HumanMessage (req_message req)];
     current_intent := current_intent stored;
     language_detected := language_detected stored;
     draft_response := draft_response stored;
     route_lock := route_lock stored;
     pending_intents := pending_intents stored;
     user_id := Present (Some (str_or (req_user_id req) "guest"));
     user_role := Present (Some (str_or (req_user_role req) "CARRIER"));
     terminal_id := Present terminal_id;
     carrier_id := Present carrier_id;
     thread_id := Present (Some thread_id);
     ui_payload := ui_payload stored |}.

(** One external turn: the state [chat] gets back from the graph, from
    which it reads [ui_payload], [route_lock], [current_intent] and
    [language_detected] for the response. *)
Definition chat (W : World) (req : ChatRequest) (stored : AgentState)
    : option (AgentState * list tool_event) :=
  Graph.invoke W (input_state W req stored).

End Api.

(** ** Date ranges of the booking tools (src/utils/booking_tools.py) *)

Module BookingTools.

(** A [datetime.date] is its proleptic Gregorian ordinal
    ([date.toordinal()], day 1 is 0001-01-01); [d + timedelta(days=n)] is
    [d + n]. *)
Definition civil (ordinal : Z) : Z * Z * Z :=
  let z := (ordinal + 305)%Z in
  let era := (z / 146097)%Z in
  let doe := (z - era * 146097)%Z in
  let yoe := ((doe - doe / 1460 + doe / 36524 - doe / 146096) / 365)%Z in
  let doy := (doe - (365 * yoe + yoe / 4 - yoe / 100))%Z in
  let mp := ((5 * doy + 2) / 153)%Z in
  let d := (doy - (153 * mp + 2) / 5 + 1)%Z in
  let m := (if mp <? 10 then mp + 3 else mp - 9)%Z in
  let y := (yoe + era * 400 + (if m <=? 2 then 1 else 0))%Z in
  (y, m, d).

Definition digit (n : Z) : string :=
  String (ascii_of_nat (48 + Z.to_nat (n mod 10))) "".

Fixpoint digits (width : nat) (n : Z) : string :=
  match width with
  | O => ""
  | S w => digits w (n / 10) ++ digit n
  end.

(** [d.strftime("%Y-%m-%d")], for the years 1000 to 9999. *)
Definition strftime (ordinal : Z) : string :=
  let '(y, m, d) := civil ordinal in
  digits 4 y ++ "-" ++ digits 2 m ++ "-" ++ digits 2 d.

Definition _resolve_date (today : Z) (value : string) : string :=
  let v := upper (strip value) in
  if str_in v ["TODAY"; ""] then strftime today
  else if String.eqb v "TOMORROW" then strftime (today + 1)
  else if String.eqb v "YESTERDAY" then strftime (today - 1)
  else value.

(** The [params] dictionary [get_all_bookings] sends to GET /api/bookings. *)
Definition get_all_bookings_params (today : Z)
    (status terminal_id carrier_id start_date end_date : option string) : dict :=
  let start_date :=
    if truthy_str start_date then _resolve_date today (fmt_opt start_date)
    else strftime today in
  let end_date :=
    if truthy_str end_date then _resolve_date today (fmt_opt end_date)
    else strftime (today + 3) in
  let normalized_status :=
    if truthy_str status then Some (strip (upper (fmt_opt status))) else None in
  let params := [("startDate", VStr start_date); ("endDate", VStr end_date)] in
  let params :=
    if truthy_str normalized_status
    then dict_set "status" (opt_val normalized_status) params else params in
  let params :=
    if truthy_str terminal_id
    then dict_set "terminalId" (opt_val terminal_id) params else params in
  if truthy_str carrier_id
  then dict_set "carrierId" (opt_val carrier_id) params else params.

End BookingTools.

(** ** Vocabulary of the properties *)

(** The model's first completion in each handler, the one whose tool calls
    are looked at. *)
Definition booking_first_response (W : World) (state : AgentState) : ai_reply :=
  let '(tools_to_bind, system_prompt, _) := Booking.setup W state in
  llm_invoke W tools_to_bind (SystemMessage system_prompt :: messages state).

Definition capacity_first_response (W : World) (state : AgentState) : ai_reply :=
  let '(tools, operator_terminal_info) := Capacity.setup state in
  llm_invoke W tools
    (SystemMessage
       (capacity_prompt W (terminals_map W) (role_of state) operator_terminal_info)
     :: messages state).

(** The tools a handler invokes before it consults the model. *)
Definition booking_prefetched (W : World) (state : AgentState) : list tool_event :=
  snd (Booking.setup W state).

Definition capacity_prefetched : list tool_event :=
  [Invoked "get_terminals_map" []].





(** The value of [route_lock] a node reads: [state.get("route_lock", None)]. *)
Definition lock_of (st : AgentState) : option string :=
  state_get (route_lock st) None.

(** The name of [tool] occurs among the invoked tools. *)
Definition invoked (tool : string) (events : list tool_event) : bool :=
  existsb (fun e => match e with Invoked n _ => String.eqb n tool end) events.

(** The MULTI list as the specification words it: restricted to the two
    specialists, deduplicated, and replaced by the default when fewer than
    two entries are left. *)
Fixpoint dedup_strs (l : list string) : list string :=
  match l with
  | [] => []
  | x :: l' => x :: List.filter (fun y => negb (String.eqb x y)) (dedup_strs l')
  end.

Definition spec_multi_intents (l : list string) : list string :=
  let valid := dedup_strs (Orchestrator.normalize l) in
  if (length valid <? 2)%nat then ["CAPACITY"; "BOOKING"] else valid.



(** The nodes a run visits, in order, each with the state it was given:
    [Graph.run] with its states kept. *)
Fixpoint visits (W : World) (fuel : nat) (name : string) (state : AgentState)
    : list (string * AgentState) :=
  if String.eqb name "__end__" then []
  else
    match fuel with
    | O => []
    | S fuel' =>
        (name, state) ::
        match Graph.node W name state with
        | Some (cmd, _) =>
            visits W fuel' (goto cmd) (apply_update state (update cmd))
        | None => []
        end
    end.

(** The Guardian's permission check passes in this state. *)
Definition permitted (st : AgentState) : Prop :=
  Guardian.check_permission (role_of st)
    (state_get (current_intent st) (Some "general")) = true.

(** Every queued intent names a specialist. *)
Definition queue_valid (st : AgentState) : Prop :=
  Forall (fun i => In i ["BOOKING"; "CAPACITY"]) (pending_of st).

(** The handlers return on every state they can be given in a turn: the
    model's tool calls pass the validation of their arguments. *)
Definition specialists_return (W : World) : Prop :=
  (forall st, messages st <> [] -> Booking.booking_agent_node W st <> None) /\
  (forall st, Capacity.capacity_node W st <> None).

(** The classifier's reply to the last message, stripped: the [raw] of
    [classify_intent_and_language] as the orchestrator calls it. *)
Definition classifier_raw (W : World) (st : AgentState) : option string :=
  m ← last_item (messages st);
  Some (strip (ai_content
     (llm_invoke W []
        [SystemMessage
           (orchestrator_prompt W (Orchestrator.history_str st)
              (state_get (route_lock st) (Some "NONE"))
              (Orchestrator.previous_intent st));
         HumanMessage (msg_content m)]))).

(** ** The other booking queries (src/utils/booking_tools.py,
    src/utils/terminal_tools.py) *)

Module BookingQueries.

(** [start_date] and [end_date] as the three booking tools resolve them,
    the default for the end being [days] after today. *)
Definition date_range (today days : Z) (start_date end_date : option string)
    : string * string :=
  (if truthy_str start_date then BookingTools._resolve_date today (fmt_opt start_date)
   else BookingTools.strftime today,
   if truthy_str end_date then BookingTools._resolve_date today (fmt_opt end_date)
   else BookingTools.strftime (today + days)).

(** [status.upper().strip() if status else None]. *)
Definition normalized_status (status : option string) : option string :=
  if truthy_str status then Some (strip (upper (fmt_opt status))) else None.

(** [if value: query[key] = value]. *)
Definition set_if (key : string) (value : option string) (query : dict) : dict :=
  if truthy_str value then dict_set key (opt_val value) query else query.

(** The [query] dictionary [get_bookings_by_user] sends to
    GET /api/bookings. *)
Definition get_bookings_by_user_query (today : Z) (user_role : string)
    (status terminal_id carrier_id start_date end_date : option string) : dict :=
  let '(start_date, end_date) := date_range today 7 start_date end_date in
  let query := [("startDate", VStr start_date); ("endDate", VStr end_date)] in
  let query := set_if "status" (normalized_status status) query in
  if String.eqb user_role "ADMIN" then
    set_if "carrierId" carrier_id (set_if "terminalId" terminal_id query)
  else
    set_if "terminalId" terminal_id (set_if "carrierId" carrier_id query).

(** The [params] dictionary [get_bookings_by_terminal_id] sends to
    GET /api/bookings. *)
Definition get_bookings_by_terminal_id_params (today : Z) (terminal_id : string)
    (status start_date end_date : option string) : dict :=
  let '(start_date, end_date) := date_range today 7 start_date end_date in
  let params :=
    [("terminalId", VStr terminal_id); ("startDate", VStr start_date);
     ("endDate", VStr end_date)] in
  set_if "status" (normalized_status status) params.

End BookingQueries.

(** ** Tokens and the back-end client (src/utils/token_store.py,
    src/utils/api_client.py) *)

Module ApiClient.

(** The token file: not there, there but not readable as JSON, or a JSON
    object of strings. *)
Inductive token_file :=
  | NoFile
  | Unreadable
  | Stored (tokens : gmap string string).

Definition load_tokens (file : token_file) : gmap string string :=
  match file with
  | Stored tokens => tokens
  | NoFile | Unreadable => ∅
  end.

(** [if value: tokens[key] = value]. *)
Definition put_if (key : string) (value : option string)
    (tokens : gmap string string) : gmap string string :=
  match value with
  | Some v => if String.eqb v "" then tokens else <[key := v]> tokens
  | None => tokens
  end.

Definition save_tokens (access_token refresh_token csrf_token : option string)
    (file : token_file) : token_file :=
  let tokens := load_tokens file in
  let tokens := put_if "API_ACCESS_TOKEN" access_token tokens in
  let tokens := put_if "API_REFRESH_TOKEN" refresh_token tokens in
  let tokens := put_if "API_CSRF_TOKEN" csrf_token tokens in
  Stored tokens.


(** The process: the token file and [os.environ]. *)
Record Process := mkProcess {
  file : token_file;
  environ : gmap string string
}.

(** [s.rstrip(c)] for a single character. *)
Fixpoint rstrip_char (c : ascii) (s : string) : string :=
  match s with
  | EmptyString => EmptyString
  | String a s' =>
      match rstrip_char c s' with
      | EmptyString => if Ascii.eqb a c then EmptyString else String a EmptyString
      | r => String a r
      end
  end.

(** [s.endswith(c)] for a single character. *)
Fixpoint ends_with_char (c : ascii) (s : string) : bool :=
  match s with
  | EmptyString => false
  | String a EmptyString => Ascii.eqb a c
  | String _ s' => ends_with_char c s'
  end.

Definition get_base_url (p : Process) : string :=
  let base_url := strip (default "http://10.16.29.94:3000" (environ p !! "API_BASE_URL")) in
  let base_url :=
    if negb (startswith "http://" base_url) && negb (startswith "https://" base_url)
    then "http://" ++ base_url
    else base_url in
  rstrip_char "/" base_url.

(** [(tokens.get(key) or os.getenv(key, "")).strip()]. *)
Definition current_token (p : Process) (key : string) : string :=
  strip (match load_tokens (file p) !! key with
         | Some v => if String.eqb v "" then default "" (environ p !! key) else v
         | None => default "" (environ p !! key)
         end).

(** [if value: d[key] = value] for a string. *)
Definition with_token (key value : string) (d : gmap string string)
    : gmap string string :=
  if String.eqb value "" then d else <[key := value]> d.

(** [(headers, cookies)]. *)
Definition get_auth (p : Process) : gmap string string * gmap string string :=
  let access_token := current_token p "API_ACCESS_TOKEN" in
  let refresh_token := current_token p "API_REFRESH_TOKEN" in
  let csrf_token := current_token p "API_CSRF_TOKEN" in
  let headers := with_token "X-CSRF-Token" csrf_token {["Accept" := "application/json"]} in
  let cookies :=
    with_token "csrf-token" csrf_token
      (with_token "refresh-token" refresh_token
         (with_token "access-token" access_token ∅)) in
  (headers, cookies).

(** A response: its status, its body as [resp.json()] gives it, and the
    cookies it sets. *)
Record response := mkResponse {
  status_code : nat;
  body : pyval;
  cookies_set : gmap string string
}.

(** The network: [requests.get] and [requests.post] on a URL with headers
    and cookies ([None] when they raise a RequestException). *)
Record Network := mkNetwork {
  requests_get :
    string -> gmap string string -> gmap string string -> dict -> option response;
  requests_post :
    string -> gmap string string -> gmap string string -> option response
}.

(** [resp.raise_for_status()] raises on 4xx and 5xx. *)
Definition is_error (r : response) : bool :=
  ((400 <=? status_code r) && (status_code r <? 600))%nat.

(** What went over the network, in order. *)
Inductive request :=
  | Get (url : string) (cookies : gmap string string)
  | PostRefresh (url : string) (cookies : gmap string string).

(** [os.environ[key] = value] when the value is set. *)
Definition export (key : string) (value : option string)
    (environ : gmap string string) : gmap string string :=
  put_if key value environ.

Definition refresh_tokens (N : Network) (p : Process) : bool * Process * list request :=
  let url := get_base_url p ++ "/api/auth/refresh" in
  let '(headers, cookies) := get_auth p in
  let sent := [PostRefresh url cookies] in
  match requests_post N url headers cookies with
  | Some resp =>
      if is_error resp then (false, p, sent)
      else
        let access_token := cookies_set resp !! "access-token" in
        let refresh_token := cookies_set resp !! "refresh-token" in
        let csrf_token := cookies_set resp !! "csrf-token" in
        (true,
         {| file := save_tokens access_token refresh_token csrf_token (file p);
            environ :=
              export "API_CSRF_TOKEN" csrf_token
                (export "API_REFRESH_TOKEN" refresh_token
                   (export "API_ACCESS_TOKEN" access_token (environ p))) |},
         sent)
  | None => (false, p, sent)
  end.

(** [api_get(path, params)]: the response, or [None] when it raises. *)
Definition api_get (N : Network) (p : Process) (path : string) (params : dict)
    : option response * Process * list request :=
  let url := get_base_url p ++ path in
  let '(headers, cookies) := get_auth p in
  match requests_get N url headers cookies params with
  | None => (None, p, [Get url cookies])
  | Some resp =>
      if Nat.eqb (status_code resp) 401 then
        let '(ok, p', posted) := refresh_tokens N p in
        if ok then
          let '(headers', cookies') := get_auth p' in
          let sent := (Get url cookies :: posted ++ [Get url cookies'])%list in
          match requests_get N url headers' cookies' params with
          | None => (None, p', sent)
          | Some resp' => (if is_error resp' then None else Some resp', p', sent)
          end
        else (None, p', (Get url cookies :: posted)%list)
      else (if is_error resp then None else Some resp, p, [Get url cookies])
  end.

End ApiClient.

(** ** Suggestions for the administrator (src/services/suggestion_service.py) *)

Module Suggestions.

(** [d.weekday()]: Monday is 0, Sunday is 6. *)
Definition weekday (ordinal : Z) : Z := ((ordinal + 6) mod 7)%Z.

(** The Monday of today's week, [today - timedelta(days=today.weekday())]. *)
Definition monday_of (today : Z) : Z := (today - weekday today)%Z.

Definition _week_range (today : Z) : string * string :=
  let monday := monday_of today in
  let sunday := (monday + 6)%Z in
  (BookingTools.strftime monday, BookingTools.strftime sunday).

(** [[monday + timedelta(days=i) for i in range(7)]]. *)
Definition week_days (today : Z) : list Z :=
  map (fun i => (monday_of today + i)%Z) [0; 1; 2; 3; 4; 5; 6]%Z.

(** One suggestion as [generate_suggestions] returns it. *)
Record suggestion := mkSuggestion {
  priority : string;
  icon : string;
  category : pyval;
  terminal : pyval;
  advice : pyval
}.

Definition PRIORITY_ICONS : gmap string string :=
  <["high" := "🔴"]> (<["medium" := "🟡"]> (<["low" := "🟢"]> ∅)).

Definition order : gmap string nat :=
  <["high" := 0%nat]> (<["medium" := 1%nat]> (<["low" := 2%nat]> ∅)).

(** The sort key, [order.get(s["priority"], 1)]. *)
Definition rank (s : suggestion) : nat := default 1%nat (order !! priority s).

(** The body of the loop over [raw_items]: [item.get] needs a dict and
    [.lower()] a string. *)
Definition enrich (item : pyval) : option suggestion :=
  match item with
  | VDict d =>
      match default (VStr "medium") (dict_get "priority" d) with
      | VStr p =>
          let priority := lower p in
          Some {| priority := priority;
                  icon := default "🟡" (PRIORITY_ICONS !! priority);
                  category := default (VStr "General") (dict_get "category" d);
                  terminal := default (VStr "—") (dict_get "terminal" d);
                  advice := default (VStr "") (dict_get "suggestion" d) |}
      | _ => None
      end
  | _ => None
  end.

Fixpoint enrich_all (items : list pyval) : option (list suggestion) :=
  match items with
  | [] => Some []
  | item :: rest =>
      s ← enrich item;
      more ← enrich_all rest;
      Some (s :: more)
  end.

(** [suggestions.sort(key=...)]: [list.sort] is stable, entries with equal
    keys keep their order. *)
Fixpoint insert_sorted (s : suggestion) (sorted : list suggestion) : list suggestion :=
  match sorted with
  | [] => [s]
  | t :: rest =>
      if (rank s <=? rank t)%nat then s :: t :: rest
      else t :: insert_sorted s rest
  end.

Fixpoint sort (l : list suggestion) : list suggestion :=
  match l with
  | [] => []
  | s :: rest => insert_sorted s (sort rest)
  end.

(** [_parse_suggestions]; [unfence] is the substitution that removes the
    code fences, [re.sub(r"```(?:json)?\s*", "", raw)]. *)
Definition _parse_suggestions (W : World) (unfence : string -> string)
    (raw : string) : list pyval :=
  let cleaned := ApiClient.rstrip_char "`" (strip (unfence raw)) in
  match json_loads W cleaned with
  | Some (VList parsed) => parsed
  | _ =>
      [VDict [("priority", VStr "medium"); ("category", VStr "General");
              ("terminal", VStr "—"); ("suggestion", VStr (strip raw))]]
  end.

(** The ["suggestions"] of [generate_suggestions] for a reply of the
    model. *)
Definition suggestions_for (W : World) (unfence : string -> string) (raw : string)
    : option (list suggestion) :=
  sort <$> enrich_all (_parse_suggestions W unfence raw).

End Suggestions.

(** ** The response of the chat endpoint (api/main.py) *)

Module ChatEndpoint.

Record ChatResponse := mkChatResponse {
  resp_message : string;
  resp_blocks : list (string * string);
  resp_thread_id : string;
  resp_ui_payload : option pyval;
  resp_route_lock : option string;
  resp_current_intent : option string;
  resp_language_detected : option string
}.

(** [_require_api_key]: the status and detail of the HTTPException it
    raises, if it raises one. *)
Definition _require_api_key (environ : gmap string string)
    (x_api_key : option string) : option (nat * string) :=
  let expected := strip (default "" (environ !! "AGENT_API_KEY")) in
  if String.eqb expected "" then Some (500%nat, "AGENT_API_KEY is not configured")
  else if negb (truthy_str x_api_key) || negb (bool_decide (x_api_key = Some expected))
  then Some (401%nat, "Invalid API key")
  else None.

(** The response built from the state the graph returns, each entry of
    [blocks] a type and a text; [repr] is [str()] of a message. *)
Definition respond (repr : message -> string) (thread : string)
    (result : AgentState) : ChatResponse :=
  let '(assistant_message, blocks) :=
    match last_item (messages result) with
    | Some last_msg =>
        let assistant_message :=
          match last_msg with
          | AIMessage r => ai_content r
          | _ => repr last_msg
          end in
        (assistant_message, [("message", assistant_message)])
    | None => ("", [])
    end in
  {| resp_message := assistant_message;
     resp_blocks := blocks;
     resp_thread_id := thread;
     resp_ui_payload := state_get (ui_payload result) None;
     resp_route_lock := state_get (route_lock result) None;
     resp_current_intent := state_get (current_intent result) None;
     resp_language_detected := state_get (language_detected result) None |}.

(** What a request to /chat comes to: an HTTPException of the key check, an
    exception out of the graph, or the response. *)
Inductive outcome :=
  | Rejected (status_code : nat) (detail : string)
  | Raised
  | Answered (response : ChatResponse).

Definition chat (W : World) (environ : gmap string string) (repr : message -> string)
    (req : Api.ChatRequest) (x_api_key : option string) (stored : AgentState)
    : outcome :=
  match _require_api_key environ x_api_key with
  | Some (status, detail) => Rejected status detail
  | None =>
      let thread := Api.str_or (Api.req_thread_id req) (uuid4 W) in
      match Api.chat W req stored with
      | Some (result, _) => Answered (respond repr thread result)
      | None => Raised
      end
  end.

End ChatEndpoint.

(** ** The day report of [check_availability] (src/utils/booking_tools.py) *)

Module Availability.

(** What the loop over the slots of one day keeps: the two totals, the best
    slot so far and its availability. *)
Record totals := mkTotals {
  total_capacity : Z;
  total_available : Z;
  best_slot : option string;
  best_avail : Z
}.

Definition start : totals := mkTotals 0 0 None 0.

(** [d.get(k1) or d.get(k2, "")], as the f-string prints it. *)
Definition time_of (W : World) (slot : dict) (k1 k2 : string) : string :=
  py_str W
    (match dict_get k1 slot with
     | Some v => if truthy v then v else default (VStr "") (dict_get k2 slot)
     | None => default (VStr "") (dict_get k2 slot)
     end).

(** A count of the back end: an integer (a boolean counts as 0 or 1);
    anything else cannot be added or compared. *)
Definition as_int (v : pyval) : option Z :=
  match v with
  | VInt n => Some n
  | VBool b => Some (if b then 1 else 0)%Z
  | _ => None
  end.

(** [slot.get("availableCapacity", slot.get("available", 0))] and
    [slot.get("capacity", slot.get("maxCapacity", avail))]. *)
Definition avail_of (slot : dict) : pyval :=
  default (default (VInt 0) (dict_get "available" slot))
          (dict_get "availableCapacity" slot).

Definition cap_of (slot : dict) : pyval :=
  default (default (avail_of slot) (dict_get "maxCapacity" slot))
          (dict_get "capacity" slot).

(** [slot.get("isAvailable", True)], as a condition. *)
Definition is_avail (slot : dict) : bool :=
  truthy (default (VBool true) (dict_get "isAvailable" slot)).

(** The label of a slot, [f"{s_time}-{e_time}"]. *)
Definition label (W : World) (slot : dict) : string :=
  time_of W slot "startTime" "start_time" ++ "-" ++
  time_of W slot "endTime" "end_time".

(** One pass of the loop body; [None] when it raises. The availability is
    only compared when [isAvailable] holds. *)
Definition step (W : World) (acc : totals) (slot : pyval) : option totals :=
  match slot with
  | VDict slot =>
      cap ← as_int (cap_of slot);
      if is_avail slot then
        avail ← as_int (avail_of slot);
        let opened := (0 <? avail)%Z in
        let better := opened && (best_avail acc <? avail)%Z in
        Some {| total_capacity := total_capacity acc + cap;
                total_available :=
                  total_available acc + (if opened then avail else 0);
                best_slot := if better then Some (label W slot) else best_slot acc;
                best_avail := if better then avail else best_avail acc |}
      else
        Some {| total_capacity := total_capacity acc + cap;
                total_available := total_available acc;
                best_slot := best_slot acc;
                best_avail := best_avail acc |}
  | _ => None
  end.

Fixpoint scan (W : World) (acc : totals) (slots : list pyval) : option totals :=
  match slots with
  | [] => Some acc
  | slot :: rest =>
      acc' ← step W acc slot;
      scan W acc' rest
  end.

(** The totals of a day. *)
Definition day_totals (W : World) (slots : list pyval) : option totals :=
  scan W start slots.

End Availability.

(** ** The terminals map (src/utils/capacity_tools.py) *)

Module TerminalsMap.

(** [t.get("id")] and [t.get("name") or t.get("code")]. *)
Definition id_of (t : dict) : pyval := default VNone (dict_get "id" t).

Definition name_of (t : dict) : pyval :=
  match dict_get "name" t with
  | Some v => if truthy v then v else default VNone (dict_get "code" t)
  | None => default VNone (dict_get "code" t)
  end.

(** The filter of the comprehension. *)
Definition listed (t : dict) : bool := truthy (id_of t) && truthy (name_of t).

Definition key (W : World) (t : dict) : string := py_str W (name_of t).

(** What one terminal contributes: nothing when the filter drops it, one
    entry otherwise; [None] when [t.get] raises because [t] is no object. *)
Definition entry (W : World) (t : pyval) : option (option (string * string)) :=
  match t with
  | VDict t =>
      Some (if listed t then Some (key W t, py_str W (id_of t)) else None)
  | _ => None
  end.

(** The comprehension: entries are stored in the order of the list, a later
    one replacing an earlier one under the same key. *)
Fixpoint build (W : World) (acc : gmap string string) (terminals : list pyval)
    : option (gmap string string) :=
  match terminals with
  | [] => Some acc
  | t :: rest =>
      e ← entry W t;
      build W (match e with
               | Some (k, v) => <[k := v]> acc
               | None => acc
               end) rest
  end.

(** What [for t in terminals] goes through. *)
Definition iterate (v : pyval) : option (list pyval) :=
  match v with
  | VList l => Some l
  | VStr s => Some (map VStr (chars s))
  | VDict d => Some (map VStr (dict_keys d))
  | _ => None
  end.

(** [fetched] is the JSON body of /api/terminals, [None] when the request or
    the decoding raised; the result is [None] when the function raises. *)
Definition get_terminals_map (W : World) (fetched : option pyval)
    : option (gmap string string) :=
  match fetched with
  | None => Some ∅
  | Some (VDict data) =>
      terminals ← iterate (default (VList []) (dict_get "terminals" data));
      build W ∅ terminals
  | Some _ => Some ∅
  end.

End TerminalsMap.


(** ** Scripted environments *)

Module Scenario.

Definition terminals : gmap string string := {["Terminal A" := "term-a-uuid"]}.

Definition check_communicate (args : dict)
    : option (string * bool * option (list string)) :=
  match dict_get "message" args, dict_get "needs_followup" args with
  | Some (VStr m), Some (VBool b) => Some (m, b, None)
  | _, _ => None
  end.

Definition check_form (args : dict) : option (string * string * string) :=
  match dict_get "date" args, dict_get "time" args, dict_get "terminal" args with
  | Some (VStr d), Some (VStr t), Some (VStr n) => Some (d, t, n)
  | _, _, _ => None
  end.

(** An environment around a given model: replies that are not JSON, tools
    that answer with their own name, prompts that only name their node. *)
Definition world (llm : list string -> list message -> ai_reply) : World :=
  {| llm_invoke := llm;
     json_loads := fun _ => None;
     tool_backend := fun name _ => VStr ("result of " ++ name);
     terminals_map := terminals;
     py_repr := fun _ => "<repr>";
     orchestrator_prompt := fun _ _ _ => "router";
     booking_prompt := fun role _ _ _ => "booking assistant for " ++ role;
     capacity_prompt := fun _ _ _ => "capacity assistant";
     json_dumps := fun _ => "<json>";
     resolve_terminal_id_for_user := fun _ => None;
     resolve_carrier_id_for_user := fun u => Some ("carrier of " ++ u);
     uuid4 := "thread-1";
     parse_communicate_args := check_communicate;
     parse_form_args := check_form;
     guardian_prompt := fun draft _ _ _ => draft;
     guardian_form_prompt := fun draft _ _ _ _ => draft |}.

(** A model that answers every request with the same text and no tool
    call; as a classifier its text is the intent. *)
Definition says (text : string) : list string -> list message -> ai_reply :=
  fun _ _ => AiReply text [].

(** A model that asks for the given tool calls whenever tools are bound. *)
Definition calls (cs : list tool_call) : list string -> list message -> ai_reply :=
  fun tools _ =>
    match tools with
    | [] => AiReply "ok" []
    | _ => AiReply "" cs
    end.

Definition human (text : string) : AgentState :=
  Api.input_state (world (says "")) (Api.mkRequest text (Some "u1") (Some "CARRIER") None)
    Api.empty_state.

(** What every role of the table is allowed. *)
Definition everyone_may : list string := ["booking"; "capacity"; "general"].

(** A turn whose intent the table does not list, with work still queued. *)
Definition history_request : AgentState :=
  mkState [HumanMessage "show the audit log"] (Present (Some "history")) Missing
          (Present (Some "draft")) Missing (Present (Some ["BOOKING"]))
          Missing (Present (Some "OPERATOR")) Missing Missing Missing Missing.

(** A capacity answer is ready and a booking is still queued. *)
Definition queued_booking : AgentState :=
  mkState [HumanMessage "slots tomorrow, then book one"] (Present (Some "capacity"))
          (Present (Some "English")) (Present (Some "Slots are open."))
          (Present None) (Present (Some ["BOOKING"]))
          (Present (Some "u1")) (Present (Some "CARRIER")) (Present None)
          (Present (Some "c1")) (Present (Some "thread-1")) (Present None).

(** The Booking handler asked for the date on the turn before and holds
    the lock; the user now only says thanks. *)
Definition awaiting_booking_answer : AgentState :=
  mkState [HumanMessage "book at terminal B";
           AIMessage (AiReply "Got it, terminal B. What date and time would you like?" []);
           HumanMessage "thanks"]
          (Present (Some "booking")) (Present (Some "English")) (Present None)
          (Present (Some "BOOKING")) (Present (Some []))
          (Present (Some "u1")) (Present (Some "CARRIER")) (Present None)
          (Present (Some "c1")) (Present (Some "thread-1")) (Present None).

(** The same thread with a booking still queued behind the question. *)
Definition side_conversation : AgentState :=
  mkState [HumanMessage "slots tomorrow, then book one";
           AIMessage (AiReply "Which terminal do you mean?" []);
           HumanMessage "hello"]
          (Present (Some "capacity")) (Present (Some "English")) (Present None)
          (Present (Some "CAPACITY")) (Present (Some ["BOOKING"]))
          (Present (Some "u1")) (Present (Some "CARRIER")) (Present None)
          (Present (Some "c1")) (Present (Some "thread-1")) (Present None).

(** A compound classification that names the booking twice. *)
Definition repeated_multi : Orchestrator.classification :=
  Orchestrator.mkClass "MULTI" "English"
    (Some (VList [VStr "BOOKING"; VStr "BOOKING"; VStr "CAPACITY"])).

Definition classified (intent : string) : Orchestrator.classification :=
  Orchestrator.mkClass intent "English" None.





(** A thread of two turns: the carrier books, the form is prepared; the
    carrier then says thanks. The model asks for the form whenever tools are
    bound, classifies "thanks" as CHITCHAT and anything else as BOOKING, and
    words the Guardian's answer. *)
Definition form_call : list tool_call :=
  [ToolCall "prepare_booking_form"
     [("date", VStr "2026-11-04"); ("time", VStr "10:00");
      ("terminal", VStr "Terminal A")] "call_1"].

Definition booking_then_thanks (tools : list string) (msgs : list message) : ai_reply :=
  match tools, msgs with
  | [], [SystemMessage _; HumanMessage text] =>
      AiReply (if String.eqb text "thanks" then "CHITCHAT" else "BOOKING") []
  | [], _ => AiReply "Here you are." []
  | _ :: _, _ => AiReply "" form_call
  end.

Definition booking_request : Api.ChatRequest :=
  Api.mkRequest "book tomorrow 10am terminal A" (Some "u1") (Some "CARRIER")
    (Some "thread-1").

Definition thanks_request : Api.ChatRequest :=
  Api.mkRequest "thanks" (Some "u1") (Some "CARRIER") (Some "thread-1").

Definition prepared_form : pyval :=
  VDict [("ui_action", VStr "OPEN_BOOKING_FORM");
         ("prefill", VDict [("date", VStr "2026-11-04");
                            ("time", VStr "10:00");
                            ("terminal", VStr "Terminal A");
                            ("terminal_id", VStr "term-a-uuid")])].

(** A request whose role is spelled in lower case. *)
Definition lowercase_request : Api.ChatRequest :=
  Api.mkRequest "show my bookings" (Some "u1") (Some "carrier") None.

(** 2026-11-03 as an ordinal. *)
Definition a_tuesday : Z := 739923.

(** A stored state whose intent the table does not list, nothing queued. *)
Definition stale_intent : AgentState :=
  mkState [HumanMessage "show the audit log"] (Present (Some "history")) Missing
          (Present None) (Present None) (Present (Some []))
          Missing (Present (Some "OPERATOR")) Missing Missing Missing Missing.

(** The model asks the user which terminal is meant. *)
Definition ask_call : list tool_call :=
  [ToolCall "communicate_with_user"
     [("message", VStr "Which terminal do you mean?"); ("needs_followup", VBool true)]
     "call_1"].

(** A process configured with a host in full, blanks around it, and an
    expired access token in the token file. *)
Definition configured_process : ApiClient.Process :=
  ApiClient.mkProcess
    (ApiClient.Stored {["API_ACCESS_TOKEN" := "expired"]})
    {["API_BASE_URL" := " https://api.port.example "]}.

(** A back end that rejects the expired token, accepts the fresh one, and
    hands out the fresh one on refresh. *)
Definition expiring_network : ApiClient.Network :=
  ApiClient.mkNetwork
    (fun _ _ cookies _ =>
       Some (ApiClient.mkResponse
               (if bool_decide (cookies !! "access-token" = Some "fresh") then 200 else 401)
               (VDict []) ∅))
    (fun _ _ _ =>
       Some (ApiClient.mkResponse 200 (VDict []) {["access-token" := " fresh "]})).


(** The slots of one day as the back end lists them: one closed slot, two
    open ones and a full one. *)
Definition a_day : list pyval :=
  [ VDict [("startTime", VStr "08:00"); ("endTime", VStr "09:00");
           ("isAvailable", VBool false); ("availableCapacity", VInt 9);
           ("capacity", VInt 10)];
    VDict [("startTime", VStr "09:00"); ("endTime", VStr "10:00");
           ("availableCapacity", VInt 3); ("capacity", VInt 10)];
    VDict [("start_time", VStr "10:00"); ("end_time", VStr "11:00");
           ("available", VInt 7); ("maxCapacity", VInt 10)];
    VDict [("startTime", VStr "11:00"); ("endTime", VStr "12:00");
           ("availableCapacity", VInt 0); ("capacity", VInt 10)] ].




(** The terminals of the back end: two of them share a name, one goes by
    its code, one has no id. *)
Definition terminal_list : list pyval :=
  [ VDict [("id", VStr "t1"); ("name", VStr "Terminal A")];
    VDict [("id", VStr "t2"); ("code", VStr "B")];
    VDict [("id", VStr "t3"); ("name", VStr "Terminal A")];
    VDict [("name", VStr "Terminal C")] ].

End Scenario.

(** * Properties *)

(** ** Strings and lists *)

Lemma str_in_In (x : string) (l : list string) : str_in x l = true <-> In x l.
Proof.
  unfold str_in. rewrite existsb_exists. split.
  - intros [y [Hy He]]. apply String.eqb_eq in He. now subst.
  - intros H. exists x. split; [assumption | apply String.eqb_refl].
Qed.

Lemma truthy_str_false (o : option string) :
  truthy_str o = false <-> o = None \/ o = Some "".
Proof.
  destruct o as [s|]; simpl.
  - rewrite negb_false_iff, String.eqb_eq. split.
    + intros ->. now right.
    + intros [H|H]; congruence.
  - split; [now left | reflexivity].
Qed.

(** ** The permission table *)

Section Permissions.

Import Guardian.

Lemma table_lookup (r : string) (cfg : role_config) :
  ROLE_PERMISSIONS !! r = Some cfg ->
  In r ["CARRIER"; "OPERATOR"; "ADMIN"] /\ allowed_intents cfg = Scenario.everyone_may.
Proof.
  unfold ROLE_PERMISSIONS.
  rewrite !lookup_insert. repeat case_decide; subst; simpl.
  - intros [= <-]. auto.
  - intros [= <-]. auto.
  - intros [= <-]. auto 6.
  - rewrite lookup_empty. discriminate.
Qed.

Lemma allowed_any_role (role : option string) :
  allowed_intents (permissions_get role (ROLE_PERMISSIONS !!! "CARRIER")) = Scenario.everyone_may.
Proof.
  destruct role as [r|]; simpl; [|reflexivity].
  destruct (ROLE_PERMISSIONS !! r) as [cfg|] eqn:E; simpl.
  - now apply table_lookup in E.
  - reflexivity.
Qed.

Lemma check_permission_spec (role intent : option string) :
  check_permission role intent = true <->
  In intent [Some "booking"; Some "capacity"; Some "general"].
Proof.
  unfold check_permission. rewrite allowed_any_role.
  destruct intent as [i|].
  - rewrite str_in_In. unfold Scenario.everyone_may. simpl.
    split; intros H; repeat destruct H as [H|H]; try tauto;
      try (injection H as H); subst; auto.
  - simpl. split; [discriminate|].
    intros H; repeat destruct H as [H|H]; try discriminate; contradiction.
Qed.

End Permissions.

(** ** C6: the permission gate *)

(** C6. [check_permission] depends on the static table only and grants
    exactly the intents booking, capacity and general, whatever the role; a
    role that is no key of the table is checked as CARRIER. When it denies,
    the Guardian answers with the fixed "Access Denied" text that carries the
    label of the role, sets [draft_response] and [ui_payload] to null, writes
    no other key and ends the turn, whatever [pending_intents] holds. *)
Theorem permission_gate (W : World) (st : AgentState) (role intent : option string) :
  (Guardian.check_permission role intent = true <->
     In intent [Some "booking"; Some "capacity"; Some "general"]) /\
  ((forall r, role = Some r -> ~ In r ["CARRIER"; "OPERATOR"; "ADMIN"]) ->
     Guardian.check_permission role intent =
     Guardian.check_permission (Some "CARRIER") intent) /\
  (forall r cfg, role = Some r -> Guardian.ROLE_PERMISSIONS !! r = Some cfg ->
     Guardian.role_label role = Guardian.label cfg) /\
  (role_of st = role ->
   state_get (current_intent st) (Some "general") = intent ->
   Guardian.check_permission role intent = false ->
   Guardian.guardian_node W st =
     mkCommand
       {| u_messages :=
            [AIMessage (AiReply
               ("Access Denied: As a " ++ Guardian.role_label role ++
                ", you do not have permission to access " ++ fmt_opt intent ++
                " data. Please contact your terminal operator for assistance.") [])];
          u_current_intent := None;
          u_language_detected := None;
          u_draft_response := Some None;
          u_route_lock := None;
          u_pending_intents := None;
          u_ui_payload := Some None |}
       "__end__").
Proof.
  split; [apply check_permission_spec|].
  split.
  { intros _.
    destruct (Guardian.check_permission role intent) eqn:E.
    - symmetry. apply check_permission_spec. now apply check_permission_spec in E.
    - destruct (Guardian.check_permission (Some "CARRIER") intent) eqn:E'; [|reflexivity].
      apply check_permission_spec in E'.
      apply (proj2 (check_permission_spec role intent)) in E'.
      congruence. }
  split.
  { intros r cfg -> Hcfg. unfold Guardian.role_label. now rewrite Hcfg. }
  intros Hrole Hintent Hdenied.
  unfold Guardian.guardian_node.
  rewrite Hrole, Hintent, Hdenied. reflexivity.
Qed.

Lemma permission_gate_witness :
  goto (Guardian.guardian_node (Scenario.world (Scenario.says "ok")) Scenario.history_request)
    = "__end__" /\
  u_messages (update (Guardian.guardian_node (Scenario.world (Scenario.says "ok"))
                        Scenario.history_request)) =
    [AIMessage (AiReply "Access Denied: As a Terminal Operator, you do not have permission to access history data. Please contact your terminal operator for assistance." [])].
Proof.
  pose proof (permission_gate (Scenario.world (Scenario.says "ok")) Scenario.history_request
                (Some "OPERATOR") (Some "history")) as [_ [_ [_ H]]].
  rewrite H; [split; reflexivity | reflexivity | reflexivity | reflexivity].
Defined.

(** ** C3: continuation at the Guardian *)

Section Continuation.

Context (W : World).

(** The Guardian past its permission check: the update of step E and the
    destination of step G. *)
Lemma guardian_granted (st : AgentState) :
  Guardian.check_permission (role_of st)
    (state_get (current_intent st) (Some "general")) = true ->
  exists u,
    u_route_lock u = Some (lock_of st) /\
    u_draft_response u = Some None /\
    Guardian.guardian_node W st =
      match pending_of st with
      | next_intent :: remaining =>
          if negb (truthy_str (lock_of st)) then
            if str_in next_intent Guardian.valid_targets then
              mkCommand
                {| u_messages := u_messages u;
                   u_current_intent := Some (Some (lower next_intent));
                   u_language_detected := None;
                   u_draft_response := Some None;
                   u_route_lock := Some (lock_of st);
                   u_pending_intents := Some remaining;
                   u_ui_payload := u_ui_payload u |}
                next_intent
            else
              mkCommand
                {| u_messages := u_messages u;
                   u_current_intent := None;
                   u_language_detected := None;
                   u_draft_response := Some None;
                   u_route_lock := Some (lock_of st);
                   u_pending_intents := Some remaining;
                   u_ui_payload := u_ui_payload u |}
                "__end__"
          else mkCommand u "__end__"
      | [] => mkCommand u "__end__"
      end /\
    u_pending_intents u = None /\ u_current_intent u = None.
Proof.
  intros Hperm. unfold Guardian.guardian_node. rewrite Hperm. cbn [negb].
  eexists. split; [|split; [|split; [reflexivity|]]]; cycle 2.
  - split; reflexivity.
  - reflexivity.
  - reflexivity.
Qed.

Lemma valid_target_not_end (h : string) :
  str_in h Guardian.valid_targets = true -> h <> "__end__".
Proof.
  rewrite str_in_In. simpl. intros [<-|[<-|[]]]; discriminate.
Qed.

(** C3. Past the permission check the Guardian routes back to a specialist
    exactly when the queue is not empty, no lock is set and the head of the
    queue is BOOKING or CAPACITY; the head then leaves the queue and becomes
    [current_intent] in lower case. With a lock set the turn ends and
    [pending_intents] is left as it was; with an invalid head, the head is
    dropped and the turn ends. The lock is null or a name, never the empty
    string. *)
Theorem guardian_continuation (st : AgentState) :
  Guardian.check_permission (role_of st)
    (state_get (current_intent st) (Some "general")) = true ->
  lock_of st <> Some "" ->
  let cmd := Guardian.guardian_node W st in
  (goto cmd <> "__end__" <->
     exists h t, pending_of st = h :: t /\ lock_of st = None /\
                 In h ["BOOKING"; "CAPACITY"]) /\
  (forall h t, pending_of st = h :: t -> lock_of st = None ->
     In h ["BOOKING"; "CAPACITY"] ->
     goto cmd = h /\
     u_pending_intents (update cmd) = Some t /\
     u_current_intent (update cmd) = Some (Some (lower h))) /\
  (lock_of st <> None ->
     goto cmd = "__end__" /\
     pending_intents (apply_update st (update cmd)) = pending_intents st) /\
  (forall h t, pending_of st = h :: t -> lock_of st = None ->
     ~ In h ["BOOKING"; "CAPACITY"] ->
     goto cmd = "__end__" /\ u_pending_intents (update cmd) = Some t).
Proof.
  intros Hperm Hlock cmd.
  destruct (guardian_granted st Hperm) as (u & _ & _ & Hcmd & Hpend & _).
  subst cmd. rewrite Hcmd. clear Hcmd.
  assert (Hset : lock_of st <> None -> truthy_str (lock_of st) = true).
  { intros Hne. destruct (truthy_str (lock_of st)) eqn:E; [reflexivity|].
    apply truthy_str_false in E. tauto. }
  assert (Hunset : lock_of st = None -> truthy_str (lock_of st) = false).
  { intros ->. reflexivity. }
  assert (Hin : forall h, str_in h Guardian.valid_targets = true <->
                          In h ["BOOKING"; "CAPACITY"]).
  { intros h. apply str_in_In. }
  split; [|split; [|split]].
  - split.
    + destruct (pending_of st) as [|h t]; [intros H; now contradict H|].
      destruct (lock_of st) as [l|] eqn:Hl.
      * rewrite Hset by discriminate. intros H. now contradict H.
      * cbn [truthy_str negb].
        destruct (str_in h Guardian.valid_targets) eqn:Hv.
        -- intros _. exists h, t. split; [reflexivity|]. split; [reflexivity|].
           now apply Hin.
        -- intros H. now contradict H.
    + intros (h & t & -> & Hnone & Hv).
      rewrite (Hunset Hnone). apply Hin in Hv. rewrite Hv. cbn [negb goto].
      apply valid_target_not_end. exact Hv.
  - intros h t -> Hnone Hv.
    rewrite (Hunset Hnone). apply Hin in Hv. rewrite Hv. cbn [negb].
    repeat split.
  - intros Hne. rewrite (Hset Hne).
    assert (Hkeep : pending_intents (apply_update st u) = pending_intents st).
    { unfold apply_update. simpl. now rewrite Hpend. }
    destruct (pending_of st); cbn [negb]; split; auto.
  - intros h t -> Hnone Hv.
    rewrite (Hunset Hnone).
    destruct (str_in h Guardian.valid_targets) eqn:E.
    + apply Hin in E. contradiction.
    + cbn [negb]. split; reflexivity.
Qed.

End Continuation.

Lemma guardian_continuation_witness :
  let cmd := Guardian.guardian_node (Scenario.world (Scenario.says "ok"))
               Scenario.queued_booking in
  goto cmd = "BOOKING" /\
  u_pending_intents (update cmd) = Some [] /\
  u_current_intent (update cmd) = Some (Some "booking").
Proof.
  pose proof (guardian_continuation (Scenario.world (Scenario.says "ok"))
                Scenario.queued_booking) as H.
  destruct H as (_ & H & _).
  - reflexivity.
  - discriminate.
  - apply (H "BOOKING" []).
    + reflexivity.
    + reflexivity.
    + simpl. auto.
Defined.

(** ** The lock along a turn *)

(** Every node leaves [route_lock] null or a name: the orchestrator does not
    write it, a specialist writes null or its own name, and the Guardian
    writes back what it read. *)
Lemma orchestrator_keeps_lock (st : AgentState) (c : Orchestrator.classification)
    (cmd : Command) :
  Orchestrator.route st c = Some cmd -> u_route_lock (update cmd) = None.
Proof.
  assert (Hlogic : forall cmd', Orchestrator.routing_logic st c = Some cmd' ->
                                u_route_lock (update cmd') = None).
  { unfold Orchestrator.routing_logic. intros cmd' H.
    destruct (contains "MULTI" (Orchestrator.c_intent c)).
    - destruct (Orchestrator.multi_intents c) as [[|first rest]|];
        simplify_eq/=; reflexivity.
    - repeat match type of H with
             | (if ?b then _ else _) = _ => destruct b
             end; simplify_eq/=; reflexivity. }
  unfold Orchestrator.route. intros H.
  destruct (pending_of st) as [|h t]; [now apply Hlogic|].
  destruct (negb _); [|now apply Hlogic].
  destruct (str_in h Orchestrator.valid_nodes); [|now apply Hlogic].
  simplify_eq/=. reflexivity.
Qed.

Lemma booking_writes_lock (W : World) (st : AgentState) (cmd : Command)
    (events : list tool_event) :
  Booking.booking_agent_node W st = Some (cmd, events) ->
  goto cmd = "GUARDIAN" /\
  (u_route_lock (update cmd) = Some None \/
   u_route_lock (update cmd) = Some (Some "BOOKING")).
Proof.
  unfold Booking.booking_agent_node. intros H.
  destruct (last_item (messages st)); [|discriminate]. simpl in H.
  destruct (Booking.setup W st) as [[tools prompt] pre].
  destruct (ai_tool_calls (llm_invoke W tools (SystemMessage prompt :: messages st)))
    as [|call rest].
  - injection H as <- <-. auto.
  - destruct (Booking.dispatch W st call) as [d|]; [|discriminate]. simpl in H.
    destruct (form_signal d) as [[sig text]|].
    + injection H as <- <-. auto.
    + destruct (d_needs_followup d).
      * destruct (result_message (d_result d)); [|discriminate].
        injection H as <- <-. auto.
      * injection H as <- <-. auto.
Qed.

Lemma capacity_writes_lock (W : World) (st : AgentState) (cmd : Command)
    (events : list tool_event) :
  Capacity.capacity_node W st = Some (cmd, events) ->
  goto cmd = "GUARDIAN" /\
  (u_route_lock (update cmd) = Some None \/
   u_route_lock (update cmd) = Some (Some "CAPACITY")).
Proof.
  unfold Capacity.capacity_node. intros H.
  destruct (Capacity.setup st) as [tools info].
  match type of H with
  | context [ai_tool_calls ?r] => destruct (ai_tool_calls r) as [|call rest]
  end.
  - injection H as <- <-. auto.
  - destruct (Capacity.dispatch W call) as [d|]; [|discriminate]. simpl in H.
    destruct (d_needs_followup d).
    + destruct (result_message (d_result d)); [|discriminate].
      injection H as <- <-. auto.
    + injection H as <- <-. auto.
Qed.

(** ** C1: the lock at the orchestrator *)

Section Lock.

Context (W : World).

(** The orchestrator is its routing applied to the classification the
    model gave for the last message, the lock being part of what the
    classifier is told. *)
Lemma orchestrator_node_route (st : AgentState) (m : message)
    (c : Orchestrator.classification) :
  last_item (messages st) = Some m ->
  Orchestrator.classify_intent_and_language W (msg_content m)
    (Orchestrator.history_str st) (state_get (route_lock st) (Some "NONE"))
    (Orchestrator.previous_intent st) = Some c ->
  Orchestrator.orchestrator_node W st = Orchestrator.route st c.
Proof.
  intros Hm Hc. unfold Orchestrator.orchestrator_node.
  rewrite Hm. simpl. rewrite Hc. reflexivity.
Qed.

(** Every branch stores the language of the classification. *)
Lemma route_language (st : AgentState) (c : Orchestrator.classification)
    (cmd : Command) :
  Orchestrator.route st c = Some cmd ->
  u_language_detected (update cmd) = Some (Some (Orchestrator.c_language c)).
Proof.
  assert (Hlogic : forall cmd', Orchestrator.routing_logic st c = Some cmd' ->
            u_language_detected (update cmd') = Some (Some (Orchestrator.c_language c))).
  { unfold Orchestrator.routing_logic. intros cmd' H.
    destruct (contains "MULTI" (Orchestrator.c_intent c)).
    - destruct (Orchestrator.multi_intents c) as [[|first rest]|];
        simplify_eq/=; reflexivity.
    - repeat match type of H with
             | (if ?b then _ else _) = _ => destruct b
             end; simplify_eq/=; reflexivity. }
  unfold Orchestrator.route. intros H.
  destruct (pending_of st) as [|h t]; [now apply Hlogic|].
  destruct (negb _); [|now apply Hlogic].
  destruct (str_in h Orchestrator.valid_nodes); [|now apply Hlogic].
  simplify_eq/=. reflexivity.
Qed.

(** A classification that is exactly a specialist's name goes to that
    specialist with an empty queue, whatever the state holds. *)
Lemma route_named (st : AgentState) (c : Orchestrator.classification) (name : string) :
  In name ["BOOKING"; "CAPACITY"] ->
  Orchestrator.c_intent c = name ->
  Orchestrator.route st c =
    Some (mkCommand
            (Orchestrator.route_update None (lower name) (Orchestrator.c_language c) [])
            name).
Proof.
  intros Hname Hc. unfold Orchestrator.route, Orchestrator.routing_logic.
  rewrite Hc.
  destruct Hname as [<-|[<-|[]]];
    destruct (pending_of st) as [|h t]; reflexivity.
Qed.

(** C1, as the code has it. With [route_lock] set to a specialist's name the
    orchestrator tells the classifier the lock (as the active route) and
    routes on the intent that comes back: when the intent is the name of the
    locked specialist the turn goes to that specialist, with the language of
    the classification stored and an empty queue. Whatever the intent, the
    orchestrator stores the language and never writes [route_lock]; the lock
    is overwritten by the specialist that runs, with null or with that
    specialist's own name. *)
Theorem lock_routes_through_classifier (st : AgentState) (lock : string)
    (m : message) (c : Orchestrator.classification) :
  In lock ["BOOKING"; "CAPACITY"] ->
  route_lock st = Present (Some lock) ->
  last_item (messages st) = Some m ->
  Orchestrator.classify_intent_and_language W (msg_content m)
    (Orchestrator.history_str st) (Some lock)
    (Orchestrator.previous_intent st) = Some c ->
  (Orchestrator.c_intent c = lock ->
     Orchestrator.orchestrator_node W st =
       Some (mkCommand
               (Orchestrator.route_update None (lower lock)
                  (Orchestrator.c_language c) [])
               lock)) /\
  (forall cmd, Orchestrator.orchestrator_node W st = Some cmd ->
     u_language_detected (update cmd) = Some (Some (Orchestrator.c_language c)) /\
     u_route_lock (update cmd) = None /\
     route_lock (apply_update st (update cmd)) = Present (Some lock)) /\
  (forall st' cmd events, Graph.node W lock st' = Some (cmd, events) ->
     goto cmd = "GUARDIAN" /\
     (u_route_lock (update cmd) = Some None \/
      u_route_lock (update cmd) = Some (Some lock))).
Proof.
  intros Hlock Hst Hm Hc.
  assert (Hnode : Orchestrator.orchestrator_node W st = Orchestrator.route st c).
  { apply (orchestrator_node_route st m c Hm). rewrite Hst. exact Hc. }
  split; [|split].
  - intros Hi. rewrite Hnode. now apply route_named.
  - intros cmd Hcmd. rewrite Hnode in Hcmd.
    pose proof (orchestrator_keeps_lock st c cmd Hcmd) as Hkeep.
    split; [now apply route_language with (st := st)|].
    split; [exact Hkeep|].
    unfold apply_update. simpl. rewrite Hkeep. exact Hst.
  - intros st' cmd events Hrun.
    destruct Hlock as [<-|[<-|[]]]; cbn in Hrun.
    + now apply booking_writes_lock in Hrun.
    + now apply capacity_writes_lock in Hrun.
Qed.

End Lock.

Lemma lock_routes_through_classifier_witness :
  Orchestrator.orchestrator_node (Scenario.world (Scenario.says "BOOKING"))
    Scenario.awaiting_booking_answer =
  Some (mkCommand (Orchestrator.route_update None "booking" "English" []) "BOOKING").
Proof.
  pose proof (lock_routes_through_classifier (Scenario.world (Scenario.says "BOOKING"))
                Scenario.awaiting_booking_answer "BOOKING" (HumanMessage "thanks")
                (Scenario.classified "BOOKING")) as H.
  destruct H as (H & _).
  - simpl. auto.
  - reflexivity.
  - reflexivity.
  - reflexivity.
  - apply H. reflexivity.
Defined.

(** C1, as the specification words it, fails: the lock is BOOKING, the
    classifier answers CHITCHAT, and the turn goes to the Guardian with the
    greeting; at the end of the turn the lock is still BOOKING. *)
Lemma lock_not_forced :
  route_lock Scenario.awaiting_booking_answer = Present (Some "BOOKING") /\
  (exists cmd,
     Orchestrator.orchestrator_node (Scenario.world (Scenario.says "CHITCHAT"))
       Scenario.awaiting_booking_answer = Some cmd /\
     goto cmd = "GUARDIAN" /\ goto cmd <> "BOOKING") /\
  (exists final events,
     Graph.invoke (Scenario.world (Scenario.says "CHITCHAT"))
       Scenario.awaiting_booking_answer = Some (final, events) /\
     events = [] /\
     route_lock final = Present (Some "BOOKING")).
Proof.
  split; [reflexivity|]. split.
  - eexists. split; [reflexivity|]. split; [reflexivity | discriminate].
  - eexists _, _. split; [vm_compute; reflexivity|]. split; reflexivity.
Qed.

(** ** C4: compound requests *)

Lemma as_strs_map (l : list string) : Orchestrator.as_strs (map VStr l) = Some l.
Proof.
  induction l as [|x l IH]; simpl; [reflexivity|]. now rewrite IH.
Qed.

Lemma normalize_valid (l : list string) :
  Forall (fun i => In i ["BOOKING"; "CAPACITY"]) (Orchestrator.normalize l).
Proof.
  unfold Orchestrator.normalize. apply Forall_forall. intros i Hi.
  apply list_elem_of_filter in Hi. destruct Hi as [Hi _].
  apply Is_true_eq_true in Hi. now apply str_in_In.
Qed.

Lemma lower_valid (i : string) :
  In i ["BOOKING"; "CAPACITY"] -> In (lower i) ["booking"; "capacity"].
Proof.
  intros [<-|[<-|[]]]; simpl; auto.
Qed.

(** C4, as the code has it. On a MULTI classification the orchestrator takes
    the returned list (the default when there is none), strips and
    upper-cases its entries and keeps those that are BOOKING or CAPACITY, in
    their order and with their repetitions; fewer than two left, it takes
    [CAPACITY, BOOKING] instead. The first entry becomes [current_intent] in
    lower case and the destination, the others are stored in
    [pending_intents]. *)
Theorem multi_routing (st : AgentState) (c : Orchestrator.classification)
    (l : list string) :
  Orchestrator.c_intent c = "MULTI" ->
  (Orchestrator.c_intents c = Some (VList (map VStr l)) \/
   Orchestrator.c_intents c = None /\ l = ["CAPACITY"; "BOOKING"]) ->
  let valid := Orchestrator.normalize l in
  let intents := if (length valid <? 2)%nat then ["CAPACITY"; "BOOKING"] else valid in
  exists first rest,
    intents = first :: rest /\
    In first ["BOOKING"; "CAPACITY"] /\
    Forall (fun i => In i ["BOOKING"; "CAPACITY"]) rest /\
    In (lower first) ["booking"; "capacity"] /\
    Orchestrator.route st c =
      Some (mkCommand
              (Orchestrator.route_update None (lower first)
                 (Orchestrator.c_language c) rest)
              first).
Proof.
  intros Hi Hl valid intents.
  assert (Hmulti : Orchestrator.multi_intents c = Some intents).
  { unfold Orchestrator.multi_intents.
    destruct Hl as [Hl|[Hl ->]]; rewrite Hl; simpl.
    - rewrite as_strs_map. reflexivity.
    - reflexivity. }
  assert (Hvalid : Forall (fun i => In i ["BOOKING"; "CAPACITY"]) intents).
  { subst intents. destruct (length valid <? 2)%nat.
    - constructor; [simpl; auto|]. constructor; [simpl; auto|]. constructor.
    - apply normalize_valid. }
  assert (Hne : intents <> []).
  { subst intents. destruct (length valid <? 2)%nat eqn:E; [discriminate|].
    apply Nat.ltb_ge in E. destruct valid; simpl in E; [lia | discriminate]. }
  destruct intents as [|first rest] eqn:Hintents; [contradiction|].
  exists first, rest. inversion Hvalid as [|? ? Hfirst Hrest]; subst.
  split; [reflexivity|]. split; [exact Hfirst|]. split; [exact Hrest|].
  split; [now apply lower_valid|].
  assert (Hlogic : Orchestrator.routing_logic st c =
            Some (mkCommand
                    (Orchestrator.route_update None (lower first)
                       (Orchestrator.c_language c) rest) first)).
  { unfold Orchestrator.routing_logic. rewrite Hi. cbn [contains].
    change (contains "MULTI" "MULTI") with true. cbn iota.
    rewrite Hmulti. reflexivity. }
  unfold Orchestrator.route. rewrite Hi.
  destruct (pending_of st); exact Hlogic.
Qed.

Lemma multi_routing_witness :
  Orchestrator.route Scenario.queued_booking
    (Orchestrator.mkClass "MULTI" "French"
       (Some (VList (map VStr [" capacity"; "Booking "; "history"])))) =
  Some (mkCommand (Orchestrator.route_update None "capacity" "French" ["BOOKING"])
          "CAPACITY").
Proof.
  destruct (multi_routing Scenario.queued_booking
              (Orchestrator.mkClass "MULTI" "French"
                 (Some (VList (map VStr [" capacity"; "Booking "; "history"]))))
              [" capacity"; "Booking "; "history"])
    as (first & rest & Hlist & _ & _ & _ & Hroute).
  - reflexivity.
  - left. reflexivity.
  - vm_compute in Hlist. injection Hlist as <- <-. exact Hroute.
Defined.

(** C4, as the specification words it, fails on a list that repeats an
    entry: the code queues the repetition, a deduplicated list would not
    hold it. *)
Lemma multi_not_deduplicated :
  spec_multi_intents ["BOOKING"; "BOOKING"; "CAPACITY"] = ["BOOKING"; "CAPACITY"] /\
  (exists cmd,
     Orchestrator.route Api.empty_state Scenario.repeated_multi = Some cmd /\
     goto cmd = "BOOKING" /\
     u_pending_intents (update cmd) = Some ["BOOKING"; "CAPACITY"] /\
     u_pending_intents (update cmd) <>
       Some (tl (spec_multi_intents ["BOOKING"; "BOOKING"; "CAPACITY"]))).
Proof.
  split; [reflexivity|].
  eexists. split; [reflexivity|].
  split; [reflexivity|]. split; [reflexivity | discriminate].
Qed.

(** ** C5: the queue at the orchestrator *)

(** C5, as the code has it. With a queue whose head is BOOKING or CAPACITY,
    a classification that is none of MULTI, BOOKING, CAPACITY and CHITCHAT
    (HELP or OUT_OF_SCOPE, say) is set aside: the turn goes to the head of
    the queue, which becomes [current_intent] in lower case, and the rest of
    the queue is kept. A CHITCHAT classification is followed instead: the
    turn goes to the Guardian with the greeting and the queue is emptied. *)
Theorem queue_before_classification (st : AgentState)
    (c : Orchestrator.classification) (h : string) (t : list string) :
  pending_of st = h :: t ->
  (~ In (Orchestrator.c_intent c) ["MULTI"; "BOOKING"; "CAPACITY"; "CHITCHAT"] ->
   In h ["BOOKING"; "CAPACITY"] ->
     Orchestrator.route st c =
       Some (mkCommand
               (Orchestrator.route_update None (lower h)
                  (Orchestrator.c_language c) t)
               h)) /\
  (Orchestrator.c_intent c = "CHITCHAT" ->
     Orchestrator.route st c =
       Some (mkCommand
               (Orchestrator.route_update
                  (Some (Some Orchestrator.chitchat_text)) "general"
                  (Orchestrator.c_language c) [])
               "GUARDIAN")).
Proof.
  intros Hq. unfold Orchestrator.route. rewrite Hq. split.
  - intros Hc Hh.
    destruct (str_in (Orchestrator.c_intent c)
                ["MULTI"; "BOOKING"; "CAPACITY"; "CHITCHAT"]) eqn:E.
    + apply str_in_In in E. contradiction.
    + cbn [negb]. apply str_in_In in Hh.
      unfold Orchestrator.valid_nodes. rewrite Hh. reflexivity.
  - intros Hc. unfold Orchestrator.routing_logic. rewrite Hc. reflexivity.
Qed.

Lemma queue_before_classification_witness :
  Orchestrator.route Scenario.side_conversation (Scenario.classified "HELP") =
  Some (mkCommand (Orchestrator.route_update None "booking" "English" []) "BOOKING").
Proof.
  destruct (queue_before_classification Scenario.side_conversation
              (Scenario.classified "HELP") "BOOKING" []) as (H & _).
  - reflexivity.
  - apply H.
    + simpl. intros [E|[E|[E|[E|[]]]]]; discriminate.
    + simpl. auto.
Defined.

(** C5, as the specification words it, fails across a greeting: a booking
    is queued, the classifier answers CHITCHAT, and the orchestrator goes to
    the Guardian and empties the queue, with or without a lock in the state;
    the turn ends with nothing queued and no specialist visited. *)
Lemma queue_lost_on_chitchat :
  pending_of Scenario.queued_booking = ["BOOKING"] /\
  Orchestrator.route Scenario.queued_booking (Scenario.classified "CHITCHAT") =
    Some (mkCommand
            (Orchestrator.route_update (Some (Some Orchestrator.chitchat_text))
               "general" "English" [])
            "GUARDIAN") /\
  pending_of Scenario.side_conversation = ["BOOKING"] /\
  (exists cmd,
     Orchestrator.orchestrator_node (Scenario.world (Scenario.says "CHITCHAT"))
       Scenario.side_conversation = Some cmd /\
     goto cmd = "GUARDIAN" /\ goto cmd <> "BOOKING" /\
     u_pending_intents (update cmd) = Some []) /\
  (exists final,
     Graph.invoke (Scenario.world (Scenario.says "CHITCHAT"))
       Scenario.side_conversation = Some (final, []) /\
     pending_of final = []).
Proof.
  split; [reflexivity|]. split; [reflexivity|].
  split; [reflexivity|]. split.
  - eexists. split; [reflexivity|].
    split; [reflexivity|]. split; [discriminate | reflexivity].
  - eexists. split; [vm_compute; reflexivity | reflexivity].
Qed.

(** ** C2 and C8: the first tool call *)

Section FirstCall.

Context (W : World).





End FirstCall.

Section SingleTool.

Context (W : World).




End SingleTool.


Section UnknownTool.

Context (W : World).

Lemma with_first_args_same (r : ai_reply) (call : tool_call) (rest : list tool_call) :
  ai_tool_calls r = call :: rest -> with_first_args r (tc_args call) = r.
Proof.
  intros H. unfold with_first_args. rewrite H.
  destruct r as [content calls], call. simpl in *. subst. reflexivity.
Qed.




End UnknownTool.



(** ** C7: the form payload across turns *)

(** The Guardian writes back a payload it finds in the state, whichever
    node put it there and on whichever turn. *)
Lemma guardian_keeps_payload (W : World) (st : AgentState) (p : pyval) :
  Guardian.check_permission (role_of st)
    (state_get (current_intent st) (Some "general")) = true ->
  state_get (ui_payload st) None = Some p ->
  truthy p = true ->
  u_ui_payload (update (Guardian.guardian_node W st)) = Some (Some p).
Proof.
  intros Hperm Hp Ht. unfold Guardian.guardian_node.
  rewrite Hperm, Hp, Ht. cbn [negb].
  destruct (pending_of st) as [|h t]; [reflexivity|].
  destruct (negb _); [|reflexivity].
  destruct (str_in h Guardian.valid_targets); reflexivity.
Qed.

(** No branch of the orchestrator writes [ui_payload]. *)
Lemma orchestrator_keeps_payload (st : AgentState) (c : Orchestrator.classification)
    (cmd : Command) :
  Orchestrator.route st c = Some cmd -> u_ui_payload (update cmd) = None.
Proof.
  assert (Hlogic : forall cmd', Orchestrator.routing_logic st c = Some cmd' ->
                                u_ui_payload (update cmd') = None).
  { unfold Orchestrator.routing_logic. intros cmd' H.
    destruct (contains "MULTI" (Orchestrator.c_intent c)).
    - destruct (Orchestrator.multi_intents c) as [[|first rest]|];
        simplify_eq/=; reflexivity.
    - repeat match type of H with
             | (if ?b then _ else _) = _ => destruct b
             end; simplify_eq/=; reflexivity. }
  unfold Orchestrator.route. intros H.
  destruct (pending_of st) as [|h t]; [now apply Hlogic|].
  destruct (negb _); [|now apply Hlogic].
  destruct (str_in h Orchestrator.valid_nodes); [|now apply Hlogic].
  simplify_eq/=. reflexivity.
Qed.

(** One node of a run, and its end. *)
Lemma run_step (W : World) (fuel : nat) (name : string) (st : AgentState)
    (cmd : Command) (events : list tool_event) :
  name <> "__end__" ->
  Graph.node W name st = Some (cmd, events) ->
  Graph.run W (S fuel) name st =
    match Graph.run W fuel (goto cmd) (apply_update st (update cmd)) with
    | Some (final, later) => Some (final, (events ++ later)%list)
    | None => None
    end.
Proof.
  intros Hne Hnode. cbn [Graph.run].
  destruct (String.eqb name "__end__") eqn:E.
  - apply String.eqb_eq in E. contradiction.
  - rewrite Hnode. cbn [mbind option_bind].
    destruct (Graph.run W fuel (goto cmd) (apply_update st (update cmd)))
      as [[final later]|]; reflexivity.
Qed.

Lemma run_end (W : World) (fuel : nat) (st : AgentState) :
  Graph.run W fuel "__end__" st = Some (st, []).
Proof. destruct fuel; reflexivity. Qed.

(** A CHITCHAT classification goes to the Guardian with the greeting and an
    empty queue, whatever the state. *)
Lemma route_chitchat (st : AgentState) (c : Orchestrator.classification) :
  Orchestrator.c_intent c = "CHITCHAT" ->
  Orchestrator.route st c =
    Some (mkCommand
            (Orchestrator.route_update (Some (Some Orchestrator.chitchat_text))
               "general" (Orchestrator.c_language c) [])
            "GUARDIAN").
Proof.
  intros Hc. unfold Orchestrator.route, Orchestrator.routing_logic. rewrite Hc.
  destruct (pending_of st); reflexivity.
Qed.

(** A turn that visits no specialist hands an earlier payload on: in any
    environment, a thread whose state holds a payload and whose new message
    is classified CHITCHAT ends the turn with that payload, no tool run. *)
Lemma payload_survives_greeting (W : World) (st : AgentState) (m : message)
    (c : Orchestrator.classification) (p : pyval) :
  last_item (messages st) = Some m ->
  Orchestrator.classify_intent_and_language W (msg_content m)
    (Orchestrator.history_str st) (state_get (route_lock st) (Some "NONE"))
    (Orchestrator.previous_intent st) = Some c ->
  Orchestrator.c_intent c = "CHITCHAT" ->
  state_get (ui_payload st) None = Some p ->
  truthy p = true ->
  exists final,
    Graph.invoke W st = Some (final, []) /\
    ui_payload final = Present (Some p).
Proof.
  intros Hm Hc Hi Hp Ht.
  pose proof (orchestrator_node_route W st m c Hm Hc) as Hnode.
  rewrite (route_chitchat st c Hi) in Hnode.
  set (u1 := Orchestrator.route_update (Some (Some Orchestrator.chitchat_text))
               "general" (Orchestrator.c_language c) []) in *.
  set (st1 := apply_update st u1).
  assert (Hperm : Guardian.check_permission (role_of st1)
                    (state_get (current_intent st1) (Some "general")) = true).
  { apply check_permission_spec. simpl. auto. }
  assert (Hp1 : state_get (ui_payload st1) None = Some p) by exact Hp.
  pose proof (guardian_keeps_payload W st1 p Hperm Hp1 Ht) as Hkeep.
  destruct (guardian_granted W st1 Hperm) as (u & _ & _ & Hg & _).
  change (pending_of st1) with (@nil string) in Hg.
  exists (apply_update st1 (update (Guardian.guardian_node W st1))). split.
  - unfold Graph.invoke, Graph.recursion_limit.
    rewrite (run_step W _ "ORCHESTRATOR" st (mkCommand u1 "GUARDIAN") []);
      [|discriminate|].
    + cbn [goto update]. fold st1.
      rewrite (run_step W _ "GUARDIAN" st1 (Guardian.guardian_node W st1) []);
        [|discriminate|reflexivity].
      rewrite Hg at 1. cbn [goto]. rewrite run_end. reflexivity.
    + unfold Graph.node. cbn [String.eqb Ascii.eqb Bool.eqb].
      rewrite Hnode. reflexivity.
  - unfold apply_update. cbn [ui_payload]. rewrite Hkeep. reflexivity.
Qed.

(** C7 fails on the code. On the first turn of the thread the Booking
    handler runs [prepare_booking_form] and the turn ends with the form in
    [ui_payload]. On the second turn the user says thanks: no tool is run,
    and the turn ends with the same form in [ui_payload], not null. *)
Theorem stale_form_payload :
  exists st1 events1 st2,
    Api.chat (Scenario.world Scenario.booking_then_thanks)
      Scenario.booking_request Api.empty_state = Some (st1, events1) /\
    invoked "prepare_booking_form" events1 = true /\
    ui_payload st1 = Present (Some Scenario.prepared_form) /\
    Api.chat (Scenario.world Scenario.booking_then_thanks)
      Scenario.thanks_request st1 = Some (st2, []) /\
    invoked "prepare_booking_form" [] = false /\
    ui_payload st2 = Present (Some Scenario.prepared_form) /\
    ui_payload st2 <> Present None.
Proof.
  eexists _, _, _.
  split; [vm_compute; reflexivity|].
  split; [reflexivity|]. split; [reflexivity|].
  split; [vm_compute; reflexivity|].
  split; [reflexivity|]. split; [reflexivity | discriminate].
Qed.

(** ** C9: the default range of [get_all_bookings] *)

Lemma dict_get_set_ne (k k' : string) (v : pyval) (d : dict) :
  k <> k' -> dict_get k (dict_set k' v d) = dict_get k d.
Proof.
  intros Hne. induction d as [|[k0 v0] d IH]; simpl.
  - destruct (String.eqb k' k) eqn:E; [|reflexivity].
    apply String.eqb_eq in E. congruence.
  - destruct (String.eqb k0 k') eqn:E0; simpl.
    + apply String.eqb_eq in E0. subst k0.
      destruct (String.eqb k' k) eqn:E; [|reflexivity].
      apply String.eqb_eq in E. congruence.
    + destruct (String.eqb k0 k); [reflexivity | exact IH].
Qed.

(** C9, as the code has it. Called with no [start_date] and no [end_date],
    [get_all_bookings] asks the back end for the range from today to three
    days after today, whatever the other filters. *)
Theorem all_bookings_default_range (today : Z)
    (status terminal_id carrier_id : option string) :
  let params :=
    BookingTools.get_all_bookings_params today status terminal_id carrier_id
      None None in
  dict_get "startDate" params = Some (VStr (BookingTools.strftime today)) /\
  dict_get "endDate" params = Some (VStr (BookingTools.strftime (today + 3))).
Proof.
  unfold BookingTools.get_all_bookings_params. cbn [truthy_str].
  split;
    repeat match goal with
           | |- context [if ?b then _ else _] => destruct b
           end;
    rewrite ?dict_get_set_ne by discriminate; reflexivity.
Qed.

(** C9, as the specification words it, fails: on 2026-11-03 the default
    range ends on 2026-11-06, not on 2026-11-10. *)
Lemma all_bookings_range_not_seven_days :
  BookingTools.strftime Scenario.a_tuesday = "2026-11-03" /\
  BookingTools.strftime (Scenario.a_tuesday + 7) = "2026-11-10" /\
  dict_get "endDate"
    (BookingTools.get_all_bookings_params Scenario.a_tuesday None None None None None)
    = Some (VStr "2026-11-06") /\
  dict_get "endDate"
    (BookingTools.get_all_bookings_params Scenario.a_tuesday None None None None None)
    <> Some (VStr (BookingTools.strftime (Scenario.a_tuesday + 7))).
Proof.
  split; [reflexivity|]. split; [reflexivity|].
  split; [reflexivity|]. vm_compute. discriminate.
Qed.

(** ** C10: roles are matched as written *)

(** C10. A role that is not exactly ADMIN, OPERATOR or CARRIER makes the
    Booking handler bind no tool and use the empty system prompt, with
    nothing pre-fetched, and the model is consulted that way; the permission
    check treats the same role as CARRIER. The chat endpoint stores the role
    of the request as it is written. *)
Theorem role_dispatch_is_exact (W : World) (st : AgentState) (role : option string) :
  role_of st = role ->
  role <> Some "ADMIN" -> role <> Some "OPERATOR" -> role <> Some "CARRIER" ->
  Booking.setup W st = ([], "", []) /\
  booking_first_response W st = llm_invoke W [] (SystemMessage "" :: messages st) /\
  (forall intent,
     Guardian.check_permission role intent =
     Guardian.check_permission (Some "CARRIER") intent) /\
  (forall req stored r,
     Api.req_user_role req = Some r -> r <> "" ->
     user_role (Api.input_state W req stored) = Present (Some r)).
Proof.
  intros Hrole Ha Ho Hc.
  assert (Hsetup : Booking.setup W st = ([], "", [])).
  { unfold Booking.setup. rewrite Hrole.
    rewrite !bool_decide_eq_false_2 by assumption. reflexivity. }
  split; [exact Hsetup|]. split.
  { unfold booking_first_response. rewrite Hsetup. reflexivity. }
  split.
  { intros intent.
    destruct (Guardian.check_permission role intent) eqn:E.
    - symmetry. apply check_permission_spec. now apply check_permission_spec in E.
    - destruct (Guardian.check_permission (Some "CARRIER") intent) eqn:E';
        [|reflexivity].
      apply check_permission_spec in E'.
      apply (proj2 (check_permission_spec role intent)) in E'. congruence. }
  intros req stored r Hr Hne. unfold Api.input_state. cbn [user_role].
  rewrite Hr. unfold Api.str_or.
  destruct (String.eqb r "") eqn:E; [|reflexivity].
  apply String.eqb_eq in E. contradiction.
Qed.

Lemma role_dispatch_is_exact_witness :
  let W := Scenario.world (Scenario.says "ok") in
  let st := Api.input_state W Scenario.lowercase_request Api.empty_state in
  user_role st = Present (Some "carrier") /\
  Booking.setup W st = ([], "", []) /\
  Guardian.check_permission (Some "carrier") (Some "booking") =
  Guardian.check_permission (Some "CARRIER") (Some "booking").
Proof.
  intros W st.
  destruct (role_dispatch_is_exact W st (Some "carrier"))
    as (Hsetup & _ & Hperm & Hstore).
  - reflexivity.
  - discriminate.
  - discriminate.
  - discriminate.
  - split; [|split; [exact Hsetup | apply Hperm]].
    apply (Hstore Scenario.lowercase_request Api.empty_state "carrier").
    + reflexivity.
    + discriminate.
Defined.

(** * Further properties of the graph *)

(** ** What each node can return *)

Lemma route_cases (st : AgentState) (c : Orchestrator.classification)
    (cmd : Command) :
  Orchestrator.route st c = Some cmd ->
  exists draft intent queue,
    cmd = mkCommand
            (Orchestrator.route_update draft intent (Orchestrator.c_language c) queue)
            (goto cmd) /\
    ((goto cmd = "GUARDIAN" /\ intent = "general" /\ draft <> None /\ queue = []) \/
     (In (goto cmd) ["BOOKING"; "CAPACITY"] /\ intent = lower (goto cmd) /\
      draft = None /\
      (Forall (fun i => In i ["BOOKING"; "CAPACITY"]) queue \/
       exists h, pending_of st = h :: queue))).
Proof.
  assert (Hlogic : forall cmd', Orchestrator.routing_logic st c = Some cmd' ->
    exists draft intent queue,
      cmd' = mkCommand
               (Orchestrator.route_update draft intent (Orchestrator.c_language c) queue)
               (goto cmd') /\
      ((goto cmd' = "GUARDIAN" /\ intent = "general" /\ draft <> None /\ queue = []) \/
       (In (goto cmd') ["BOOKING"; "CAPACITY"] /\ intent = lower (goto cmd') /\
        draft = None /\
        (Forall (fun i => In i ["BOOKING"; "CAPACITY"]) queue \/
         exists h, pending_of st = h :: queue)))).
  { unfold Orchestrator.routing_logic. intros cmd' H.
    destruct (contains "MULTI" (Orchestrator.c_intent c)).
    - destruct (Orchestrator.multi_intents c) as [l|] eqn:Hl; [|discriminate].
      cbn [mbind option_bind] in H.
      destruct l as [|first rest]; [discriminate|]. injection H as <-.
      assert (Hv : Forall (fun i => In i ["BOOKING"; "CAPACITY"]) (first :: rest)).
      { unfold Orchestrator.multi_intents in Hl.
        destruct (match Orchestrator.c_intents c with
                  | Some v => Orchestrator.iter_strs v
                  | None => Some ["CAPACITY"; "BOOKING"]
                  end) as [l0|]; [|discriminate].
        cbn [mbind option_bind] in Hl. injection Hl as Hl.
        destruct (length (Orchestrator.normalize l0) <? 2)%nat.
        - injection Hl as <- <-.
          constructor; [simpl; auto|]. constructor; [simpl; auto|]. constructor.
        - rewrite <- Hl. apply normalize_valid. }
      inversion Hv as [|? ? Hfirst Hrest]; subst.
      eexists _, _, _. split; [reflexivity|]. right. cbn [goto].
      split; [exact Hfirst|]. split; [reflexivity|]. split; [reflexivity|].
      left. exact Hrest.
    - repeat match type of H with
             | (if ?b then _ else _) = _ => destruct b
             end; injection H as <-; eexists _, _, _;
        (split; [reflexivity|]); cbn [goto].
      + right. split; [simpl; auto|]. repeat split. left. constructor.
      + right. split; [simpl; auto|]. repeat split. left. constructor.
      + left. repeat split. discriminate.
      + left. repeat split. discriminate.
      + left. repeat split. discriminate. }
  unfold Orchestrator.route. intros H.
  destruct (pending_of st) as [|h t] eqn:Hq; [now apply Hlogic|].
  destruct (negb _); [|now apply Hlogic].
  destruct (str_in h Orchestrator.valid_nodes) eqn:Hv; [|now apply Hlogic].
  injection H as <-. eexists _, _, _. split; [reflexivity|]. right. cbn [goto].
  apply str_in_In in Hv.
  split; [exact Hv|]. split; [reflexivity|]. split; [reflexivity|].
  right. exists h. reflexivity.
Qed.

Lemma orchestrator_node_cases (W : World) (st : AgentState) (cmd : Command) :
  Orchestrator.orchestrator_node W st = Some cmd ->
  messages st <> [] /\ exists c, Orchestrator.route st c = Some cmd.
Proof.
  unfold Orchestrator.orchestrator_node. intros H.
  destruct (messages st) as [|m ms] eqn:Hm; [discriminate|].
  split; [discriminate|].
  destruct (last_item (m :: ms)) as [x|]; [|discriminate].
  cbn [fmap option_fmap option_map mbind option_bind] in H.
  destruct (Orchestrator.classify_intent_and_language W (msg_content x)
              (Orchestrator.history_str st) (state_get (route_lock st) (Some "NONE"))
              (Orchestrator.previous_intent st)) as [c|]; [|discriminate].
  exists c. exact H.
Qed.

(** A handler's update: messages, draft, lock and perhaps the payload,
    nothing else. *)
Lemma booking_update_shape (W : World) (st : AgentState) (cmd : Command)
    (events : list tool_event) :
  Booking.booking_agent_node W st = Some (cmd, events) ->
  exists msgs draft lock ui,
    cmd = mkCommand (specialist_update msgs draft lock ui) "GUARDIAN".
Proof.
  unfold Booking.booking_agent_node. intros H.
  destruct (last_item (messages st)); [|discriminate].
  cbn [fmap option_fmap option_map mbind option_bind] in H.
  destruct (Booking.setup W st) as [[tools prompt] pre].
  destruct (ai_tool_calls (llm_invoke W tools (SystemMessage prompt :: messages st)))
    as [|call rest].
  - injection H as <- <-. eexists _, _, _, _. reflexivity.
  - destruct (Booking.dispatch W st call) as [d|]; [|discriminate].
    cbn [mbind option_bind] in H.
    destruct (form_signal d) as [[sig text]|].
    + injection H as <- <-. eexists _, _, _, _. reflexivity.
    + destruct (d_needs_followup d).
      * destruct (result_message (d_result d)); [|discriminate].
        injection H as <- <-. eexists _, _, _, _. reflexivity.
      * injection H as <- <-. eexists _, _, _, _. reflexivity.
Qed.

Lemma capacity_update_shape (W : World) (st : AgentState) (cmd : Command)
    (events : list tool_event) :
  Capacity.capacity_node W st = Some (cmd, events) ->
  exists msgs draft lock ui,
    cmd = mkCommand (specialist_update msgs draft lock ui) "GUARDIAN".
Proof.
  unfold Capacity.capacity_node. intros H.
  destruct (Capacity.setup st) as [tools info].
  match type of H with
  | context [ai_tool_calls ?r] => destruct (ai_tool_calls r) as [|call rest]
  end.
  - injection H as <- <-. eexists _, _, _, _. reflexivity.
  - destruct (Capacity.dispatch W call) as [d|]; [|discriminate].
    cbn [mbind option_bind] in H.
    destruct (d_needs_followup d).
    + destruct (result_message (d_result d)); [|discriminate].
      injection H as <- <-. eexists _, _, _, _. reflexivity.
    + injection H as <- <-. eexists _, _, _, _. reflexivity.
Qed.

(** The Guardian's update, whichever way it decides. *)
Lemma guardian_update_shape (W : World) (st : AgentState) :
  (exists text,
     u_messages (update (Guardian.guardian_node W st)) = [AIMessage (AiReply text [])]) /\
  u_draft_response (update (Guardian.guardian_node W st)) = Some None /\
  u_language_detected (update (Guardian.guardian_node W st)) = None.
Proof.
  unfold Guardian.guardian_node.
  destruct (negb (Guardian.check_permission _ _)).
  - split; [eexists; reflexivity|]. split; reflexivity.
  - destruct (pending_of st) as [|h t].
    + split; [eexists; reflexivity|]. split; reflexivity.
    + destruct (negb (truthy_str _)).
      * destruct (str_in h Guardian.valid_targets);
          (split; [eexists; reflexivity|]); split; reflexivity.
      * split; [eexists; reflexivity|]. split; reflexivity.
Qed.

(** The four nodes of the graph and where each can go. *)
Lemma node_cases (W : World) (name : string) (st : AgentState) (cmd : Command)
    (events : list tool_event) :
  Graph.node W name st = Some (cmd, events) ->
  (name = "ORCHESTRATOR" /\ events = [] /\
   Orchestrator.orchestrator_node W st = Some cmd) \/
  (name = "BOOKING" /\ Booking.booking_agent_node W st = Some (cmd, events)) \/
  (name = "CAPACITY" /\ Capacity.capacity_node W st = Some (cmd, events)) \/
  (name = "GUARDIAN" /\ events = [] /\ cmd = Guardian.guardian_node W st).
Proof.
  unfold Graph.node. intros H.
  destruct (String.eqb name "ORCHESTRATOR") eqn:E1.
  { apply String.eqb_eq in E1. left.
    destruct (Orchestrator.orchestrator_node W st); [|discriminate].
    cbn [mbind option_bind] in H. injection H as <- <-. auto. }
  destruct (String.eqb name "BOOKING") eqn:E2.
  { apply String.eqb_eq in E2. right. left. auto. }
  destruct (String.eqb name "CAPACITY") eqn:E3.
  { apply String.eqb_eq in E3. right. right. left. auto. }
  destruct (String.eqb name "GUARDIAN") eqn:E4; [|discriminate].
  apply String.eqb_eq in E4. right. right. right. injection H as <- <-. auto.
Qed.

Lemma only_guardian_ends (W : World) (name : string) (st : AgentState)
    (cmd : Command) (events : list tool_event) :
  Graph.node W name st = Some (cmd, events) ->
  goto cmd = "__end__" ->
  name = "GUARDIAN" /\ cmd = Guardian.guardian_node W st.
Proof.
  intros Hnode Hend.
  destruct (node_cases W name st cmd events Hnode)
    as [(_ & _ & H)|[(_ & H)|[(_ & H)|(Hn & _ & Hc)]]].
  - apply orchestrator_node_cases in H. destruct H as (_ & c & Hr).
    destruct (route_cases st c cmd Hr) as (d & i & q & _ & [(Hg & _)|(Hg & _)]).
    + congruence.
    + rewrite Hend in Hg. simpl in Hg. destruct Hg as [E|[E|[]]]; discriminate.
  - apply booking_update_shape in H. destruct H as (? & ? & ? & ? & ->). discriminate.
  - apply capacity_update_shape in H. destruct H as (? & ? & ? & ? & ->). discriminate.
  - auto.
Qed.

(** ** E: how a turn ends *)

(** A finished turn ends at the Guardian: [draft_response] is null in the
    state that is stored, and the last entry of the history is an assistant
    message of the Guardian's, one without tool calls. This holds from any
    node the run is started at. *)
Theorem turn_ends_at_guardian (W : World) (fuel : nat) (name : string)
    (st final : AgentState) (events : list tool_event) :
  name <> "__end__" ->
  Graph.run W fuel name st = Some (final, events) ->
  draft_response final = Present None /\
  exists text, last (messages final) = Some (AIMessage (AiReply text [])).
Proof.
  revert name st events. induction fuel as [|fuel IH]; intros name st events Hne Hrun.
  - simpl in Hrun. destruct (String.eqb name "__end__") eqn:E; [|discriminate].
    apply String.eqb_eq in E. contradiction.
  - cbn [Graph.run] in Hrun.
    destruct (String.eqb name "__end__") eqn:E.
    { apply String.eqb_eq in E. contradiction. }
    destruct (Graph.node W name st) as [[cmd ev]|] eqn:Hnode; [|discriminate].
    cbn [mbind option_bind] in Hrun.
    destruct (Graph.run W fuel (goto cmd) (apply_update st (update cmd)))
      as [[final' later]|] eqn:Hrest; [|discriminate].
    cbn [mbind option_bind] in Hrun. injection Hrun as <- <-.
    destruct (string_dec (goto cmd) "__end__") as [Hend|Hgo].
    + rewrite Hend, run_end in Hrest. injection Hrest as <- <-.
      destruct (only_guardian_ends W name st cmd ev Hnode Hend) as [_ ->].
      destruct (guardian_update_shape W st) as ((text & Hm) & Hd & _).
      unfold apply_update. cbn [draft_response messages]. rewrite Hd, Hm.
      split; [reflexivity|]. exists text. rewrite last_snoc. reflexivity.
    + exact (IH _ _ _ Hgo Hrest).
Qed.

Lemma turn_ends_at_guardian_witness :
  match Graph.invoke (Scenario.world (Scenario.says "CAPACITY"))
          Scenario.awaiting_booking_answer with
  | Some (final, _) =>
      draft_response final = Present None /\
      exists text, last (messages final) = Some (AIMessage (AiReply text []))
  | None => False
  end.
Proof.
  destruct (Graph.invoke (Scenario.world (Scenario.says "CAPACITY"))
              Scenario.awaiting_booking_answer) as [[final events]|] eqn:H.
  - apply (turn_ends_at_guardian (Scenario.world (Scenario.says "CAPACITY"))
             Graph.recursion_limit "ORCHESTRATOR" Scenario.awaiting_booking_answer
             final events).
    + discriminate.
    + exact H.
  - vm_compute in H. discriminate.
Defined.

(** ** E: the permission check inside a turn *)

Lemma permitted_intent (st : AgentState) (i : string) :
  In i ["booking"; "capacity"; "general"] ->
  current_intent st = Present (Some i) -> permitted st.
Proof.
  intros Hi Hc. unfold permitted. rewrite Hc. apply check_permission_spec.
  cbn [state_get]. destruct Hi as [<-|[<-|[<-|[]]]]; simpl; auto.
Qed.

Lemma orchestrator_permits (st : AgentState) (c : Orchestrator.classification)
    (cmd : Command) :
  Orchestrator.route st c = Some cmd -> permitted (apply_update st (update cmd)).
Proof.
  intros H. destruct (route_cases st c cmd H) as (d & i & q & -> & Hcase).
  cbn [update]. destruct Hcase as [(_ & -> & _)|(Hg & -> & _)].
  - apply permitted_intent with (i := "general"); [simpl; auto | reflexivity].
  - apply permitted_intent with (i := lower (goto cmd)); [|reflexivity].
    cbn [goto] in *. destruct Hg as [<-|[<-|[]]]; simpl; auto.
Qed.

Lemma specialist_keeps_intent (st : AgentState) (msgs : list message)
    (draft : string) (lock : option string) (ui : option (option pyval)) :
  permitted st -> permitted (apply_update st (specialist_update msgs draft lock ui)).
Proof. intros H. exact H. Qed.

Lemma guardian_permits (W : World) (st : AgentState) :
  permitted st -> permitted (apply_update st (update (Guardian.guardian_node W st))).
Proof.
  intros Hp. destruct (guardian_granted W st Hp) as (u & _ & _ & Hg & _ & Hi).
  rewrite Hg. destruct (pending_of st) as [|h t].
  - cbn [update]. unfold permitted, apply_update. cbn [current_intent user_role role_of].
    rewrite Hi. exact Hp.
  - destruct (negb (truthy_str (lock_of st))).
    + destruct (str_in h Guardian.valid_targets) eqn:Hv.
      * apply permitted_intent with (i := lower h); [|reflexivity].
        apply str_in_In in Hv. destruct Hv as [<-|[<-|[]]]; simpl; auto.
      * exact Hp.
    + cbn [update]. unfold permitted, apply_update.
      cbn [current_intent user_role role_of]. rewrite Hi. exact Hp.
Qed.

Lemma visits_permitted (W : World) (fuel : nat) (name : string) (st : AgentState) :
  name = "ORCHESTRATOR" \/ permitted st ->
  forall s, In ("GUARDIAN", s) (visits W fuel name st) -> permitted s.
Proof.
  revert name st. induction fuel as [|fuel IH]; intros name st Hinv s Hin.
  - simpl in Hin. destruct (String.eqb name "__end__"); contradiction.
  - cbn [visits] in Hin. destruct (String.eqb name "__end__"); [contradiction|].
    destruct Hin as [Heq|Hin].
    { injection Heq as -> ->. destruct Hinv as [Ho|Hp]; [discriminate | exact Hp]. }
    destruct (Graph.node W name st) as [[cmd ev]|] eqn:Hnode; [|contradiction].
    apply (IH (goto cmd) (apply_update st (update cmd))); [|exact Hin].
    right.
    destruct (node_cases W name st cmd ev Hnode)
      as [(_ & _ & H)|[(Hn & H)|[(Hn & H)|(Hn & _ & ->)]]].
    + apply orchestrator_node_cases in H. destruct H as (_ & c & Hr).
      now apply orchestrator_permits with (c := c).
    + destruct Hinv as [Ho|Hp]; [congruence|].
      apply booking_update_shape in H. destruct H as (? & ? & ? & ? & ->). exact Hp.
    + destruct Hinv as [Ho|Hp]; [congruence|].
      apply capacity_update_shape in H. destruct H as (? & ? & ? & ? & ->). exact Hp.
    + destruct Hinv as [Ho|Hp]; [congruence|]. now apply guardian_permits.
Qed.

(** In a turn that starts at the orchestrator the Guardian never denies:
    every state it is given in the run passes [check_permission], whatever
    the role, the classification and the queue, because the orchestrator and
    the continuation only ever write booking, capacity or general into
    [current_intent]. *)
Theorem denial_unreachable_in_turn (W : World) (fuel : nat) (st s : AgentState) :
  In ("GUARDIAN", s) (visits W fuel "ORCHESTRATOR" st) ->
  Guardian.check_permission (role_of s)
    (state_get (current_intent s) (Some "general")) = true.
Proof.
  intros Hin. apply (visits_permitted W fuel "ORCHESTRATOR" st); [now left | exact Hin].
Qed.

Lemma denial_unreachable_in_turn_witness :
  match visits (Scenario.world (Scenario.says "HELP")) 2 "ORCHESTRATOR"
          Scenario.stale_intent with
  | [_; (name, s)] =>
      name = "GUARDIAN" /\
      state_get (current_intent s) (Some "general") = Some "general" /\
      Guardian.check_permission (role_of s)
        (state_get (current_intent s) (Some "general")) = true
  | _ => False
  end.
Proof.
  pose proof (denial_unreachable_in_turn (Scenario.world (Scenario.says "HELP")) 2
                Scenario.stale_intent) as H.
  destruct (visits (Scenario.world (Scenario.says "HELP")) 2 "ORCHESTRATOR"
              Scenario.stale_intent) as [|v1 [|[name s] [|v3 vs]]] eqn:E;
    try (vm_compute in E; discriminate).
  assert (Hname : name = "GUARDIAN") by (vm_compute in E; congruence).
  split; [exact Hname|]. split.
  - vm_compute in E. injection E as _ _ <-. reflexivity.
  - apply H. right. left. now rewrite Hname.
Defined.

(** ** E: the queue at the end of a turn *)

Lemma pending_after (st : AgentState) (u : Update) :
  pending_of (apply_update st u) =
  match u_pending_intents u with
  | Some q => q
  | None => pending_of st
  end.
Proof.
  unfold pending_of, apply_update. cbn [pending_intents].
  destruct (u_pending_intents u); reflexivity.
Qed.

Lemma lock_after (st : AgentState) (u : Update) :
  lock_of (apply_update st u) =
  match u_route_lock u with
  | Some l => l
  | None => lock_of st
  end.
Proof.
  unfold lock_of, apply_update. cbn [route_lock].
  destruct (u_route_lock u); reflexivity.
Qed.

Lemma orchestrator_queue_valid (st : AgentState) (c : Orchestrator.classification)
    (cmd : Command) :
  Orchestrator.route st c = Some cmd ->
  queue_valid st -> queue_valid (apply_update st (update cmd)).
Proof.
  intros H Hq. destruct (route_cases st c cmd H) as (d & i & q & -> & Hcase).
  unfold queue_valid. rewrite pending_after. cbn [update Orchestrator.route_update
    u_pending_intents].
  destruct Hcase as [(_ & _ & _ & ->)|(_ & _ & _ & [Hv|[h Hh]])].
  - constructor.
  - exact Hv.
  - unfold queue_valid in Hq. rewrite Hh in Hq. now inversion Hq.
Qed.

Lemma guardian_queue_valid (W : World) (st : AgentState) :
  queue_valid st -> queue_valid (apply_update st (update (Guardian.guardian_node W st))).
Proof.
  unfold queue_valid. intros Hq. rewrite pending_after.
  unfold Guardian.guardian_node.
  destruct (negb (Guardian.check_permission _ _)); [exact Hq|].
  destruct (pending_of st) as [|h t] eqn:Hp; [exact Hq|].
  destruct (negb (truthy_str _)); [|exact Hq].
  destruct (str_in h Guardian.valid_targets); cbn [update u_pending_intents];
    now inversion Hq.
Qed.

Lemma run_rest (W : World) (fuel : nat) (name : string) (st final : AgentState)
    (events : list tool_event) :
  name <> "__end__" ->
  name = "ORCHESTRATOR" \/ permitted st ->
  queue_valid st ->
  Graph.run W fuel name st = Some (final, events) ->
  (pending_of final = [] \/ truthy_str (lock_of final) = true) /\ queue_valid final.
Proof.
  revert name st events.
  induction fuel as [|fuel IH]; intros name st events Hne Hinv Hq Hrun.
  - simpl in Hrun. destruct (String.eqb name "__end__") eqn:E; [|discriminate].
    apply String.eqb_eq in E. contradiction.
  - cbn [Graph.run] in Hrun.
    destruct (String.eqb name "__end__") eqn:E.
    { apply String.eqb_eq in E. contradiction. }
    destruct (Graph.node W name st) as [[cmd ev]|] eqn:Hnode; [|discriminate].
    cbn [mbind option_bind] in Hrun.
    destruct (Graph.run W fuel (goto cmd) (apply_update st (update cmd)))
      as [[final' later]|] eqn:Hrest; [|discriminate].
    cbn [mbind option_bind] in Hrun. injection Hrun as <- <-.
    destruct (string_dec (goto cmd) "__end__") as [Hend|Hgo].
    + rewrite Hend, run_end in Hrest. injection Hrest as <- <-.
      destruct (only_guardian_ends W name st cmd ev Hnode Hend) as [-> ->].
      destruct Hinv as [Ho|Hp]; [discriminate|].
      split; [|now apply guardian_queue_valid].
      destruct (guardian_granted W st Hp) as (u & Hl & _ & Hg & Hpend & _).
      rewrite Hg in Hend |- *. rewrite pending_after, lock_after.
      destruct (pending_of st) as [|h t] eqn:Hpq.
      * left. cbn [update]. now rewrite Hpend.
      * destruct (truthy_str (lock_of st)) eqn:Ht; cbn [negb] in *.
        -- right. cbn [update]. now rewrite Hl.
        -- unfold queue_valid in Hq. rewrite Hpq in Hq. inversion Hq as [|? ? Hh _].
           apply str_in_In in Hh. unfold Guardian.valid_targets in *.
           rewrite Hh in Hend. cbn [goto] in Hend.
           apply valid_target_not_end in Hh. contradiction.
    + apply (IH (goto cmd) (apply_update st (update cmd)) later Hgo); [| |exact Hrest].
      * right.
        destruct (node_cases W name st cmd ev Hnode)
          as [(_ & _ & H)|[(Hn & H)|[(Hn & H)|(Hn & _ & ->)]]].
        -- apply orchestrator_node_cases in H. destruct H as (_ & c & Hr).
           now apply orchestrator_permits with (c := c).
        -- destruct Hinv as [Ho|Hp]; [congruence|].
           apply booking_update_shape in H. destruct H as (? & ? & ? & ? & ->).
           exact Hp.
        -- destruct Hinv as [Ho|Hp]; [congruence|].
           apply capacity_update_shape in H. destruct H as (? & ? & ? & ? & ->).
           exact Hp.
        -- destruct Hinv as [Ho|Hp]; [congruence|]. now apply guardian_permits.
      * destruct (node_cases W name st cmd ev Hnode)
          as [(_ & _ & H)|[(Hn & H)|[(Hn & H)|(Hn & _ & ->)]]].
        -- apply orchestrator_node_cases in H. destruct H as (_ & c & Hr).
           now apply orchestrator_queue_valid with (c := c).
        -- apply booking_update_shape in H. destruct H as (? & ? & ? & ? & ->).
           exact Hq.
        -- apply capacity_update_shape in H. destruct H as (? & ? & ? & ? & ->).
           exact Hq.
        -- now apply guardian_queue_valid.
Qed.

(** When a turn is over, either nothing is queued any more or a specialist
    holds the lock: queued intents are visited within the turn, one after
    the other, unless a handler stopped to ask the user. This holds for a
    stored queue that names specialists only, and the queue the turn leaves
    does so again. *)
Theorem queue_drained_or_locked (W : World) (st final : AgentState)
    (events : list tool_event) :
  Forall (fun i => In i ["BOOKING"; "CAPACITY"]) (pending_of st) ->
  Graph.invoke W st = Some (final, events) ->
  (pending_of final = [] \/ truthy_str (lock_of final) = true) /\
  Forall (fun i => In i ["BOOKING"; "CAPACITY"]) (pending_of final).
Proof.
  intros Hq Hrun.
  apply (run_rest W Graph.recursion_limit "ORCHESTRATOR" st final events);
    [discriminate | now left | exact Hq | exact Hrun].
Qed.

Lemma queue_drained_or_locked_witness :
  match Graph.invoke (Scenario.world (Scenario.says "MULTI"))
          Scenario.awaiting_booking_answer with
  | Some (final, _) =>
      (pending_of final = [] \/ truthy_str (lock_of final) = true) /\
      Forall (fun i => In i ["BOOKING"; "CAPACITY"]) (pending_of final)
  | None => False
  end.
Proof.
  destruct (Graph.invoke (Scenario.world (Scenario.says "MULTI"))
              Scenario.awaiting_booking_answer) as [[final events]|] eqn:H.
  - apply (queue_drained_or_locked (Scenario.world (Scenario.says "MULTI"))
             Scenario.awaiting_booking_answer final events).
    + constructor.
    + exact H.
  - vm_compute in H. discriminate.
Defined.

(** ** E: a turn comes to an end *)

Lemma guardian_goto_cases (W : World) (st : AgentState) :
  goto (Guardian.guardian_node W st) = "__end__" \/
  exists h t,
    pending_of st = h :: t /\
    goto (Guardian.guardian_node W st) = h /\
    In h ["BOOKING"; "CAPACITY"] /\
    u_pending_intents (update (Guardian.guardian_node W st)) = Some t.
Proof.
  unfold Guardian.guardian_node.
  destruct (negb (Guardian.check_permission _ _)); [now left|].
  destruct (pending_of st) as [|h t]; [now left|].
  destruct (negb (truthy_str _)); [|now left].
  destruct (str_in h Guardian.valid_targets) eqn:Hv; [|now left].
  right. exists h, t. apply str_in_In in Hv. repeat split. exact Hv.
Qed.

Lemma guardian_appends (W : World) (st : AgentState) :
  messages (apply_update st (update (Guardian.guardian_node W st))) <> [].
Proof.
  destruct (guardian_update_shape W st) as ((text & Hm) & _).
  unfold apply_update. cbn [messages]. rewrite Hm.
  destruct (messages st); discriminate.
Qed.

Lemma specialist_returns (W : World) (h : string) (st : AgentState) :
  specialists_return W ->
  In h ["BOOKING"; "CAPACITY"] ->
  messages st <> [] ->
  exists msgs draft lock ui events,
    Graph.node W h st =
      Some (mkCommand (specialist_update msgs draft lock ui) "GUARDIAN", events).
Proof.
  intros [Hb Hc] Hh Hm. destruct Hh as [<-|[<-|[]]].
  - change (Graph.node W "BOOKING" st) with (Booking.booking_agent_node W st).
    destruct (Booking.booking_agent_node W st) as [[cmd ev]|] eqn:E.
    + destruct (booking_update_shape W st cmd ev E) as (m & d & l & u & ->).
      now exists m, d, l, u, ev.
    + now apply Hb in E.
  - change (Graph.node W "CAPACITY" st) with (Capacity.capacity_node W st).
    destruct (Capacity.capacity_node W st) as [[cmd ev]|] eqn:E.
    + destruct (capacity_update_shape W st cmd ev E) as (m & d & l & u & ->).
      now exists m, d, l, u, ev.
    + now apply Hc in E.
Qed.

(** From the Guardian on, a queue of [n] intents is worked off in at most
    [2 * n + 1] nodes. *)
Lemma guardian_drains (W : World) (n : nat) :
  specialists_return W ->
  forall (fuel : nat) (st : AgentState),
    (length (pending_of st) <= n)%nat ->
    (2 * n + 1 <= fuel)%nat ->
    exists final events, Graph.run W fuel "GUARDIAN" st = Some (final, events).
Proof.
  intros Hret. induction n as [|n IH]; intros fuel st Hlen Hfuel.
  - destruct fuel as [|fuel]; [lia|].
    rewrite (run_step W fuel "GUARDIAN" st (Guardian.guardian_node W st) []);
      [|discriminate|reflexivity].
    destruct (guardian_goto_cases W st) as [Hend|(h & t & Hp & _)].
    + rewrite Hend, run_end. eauto.
    + rewrite Hp in Hlen. simpl in Hlen. lia.
  - destruct fuel as [|fuel]; [lia|].
    rewrite (run_step W fuel "GUARDIAN" st (Guardian.guardian_node W st) []);
      [|discriminate|reflexivity].
    destruct (guardian_goto_cases W st) as [Hend|(h & t & Hp & Hgo & Hh & Hq)].
    + rewrite Hend, run_end. eauto.
    + rewrite Hgo.
      set (st1 := apply_update st (update (Guardian.guardian_node W st))).
      destruct (specialist_returns W h st1 Hret Hh (guardian_appends W st))
        as (m & d & l & u & ev & Hnode).
      destruct fuel as [|fuel]; [lia|].
      rewrite (run_step W fuel h st1
                 (mkCommand (specialist_update m d l u) "GUARDIAN") ev);
        [| |exact Hnode].
      2:{ destruct Hh as [<-|[<-|[]]]; discriminate. }
      cbn [goto update].
      destruct (IH fuel (apply_update st1 (specialist_update m d l u)))
        as (final & later & Hrun).
      * rewrite pending_after. cbn [specialist_update u_pending_intents].
        subst st1. rewrite pending_after, Hq. rewrite Hp in Hlen. simpl in Hlen. lia.
      * lia.
      * rewrite Hrun. eauto.
Qed.

(** A turn comes to an end. When the handlers return, a turn whose
    orchestrator leaves [n] intents queued is over after at most
    [2 * n + 3] nodes: the orchestrator, then a handler and the Guardian for
    the first intent and for each queued one. *)
Theorem turn_terminates (W : World) (st : AgentState) (cmd : Command)
    (fuel : nat) :
  specialists_return W ->
  Orchestrator.orchestrator_node W st = Some cmd ->
  (2 * length (pending_of (apply_update st (update cmd))) + 3 <= fuel)%nat ->
  exists final events, Graph.run W fuel "ORCHESTRATOR" st = Some (final, events).
Proof.
  intros Hret Horch Hfuel.
  destruct fuel as [|fuel]; [lia|].
  rewrite (run_step W fuel "ORCHESTRATOR" st cmd []); [|discriminate|].
  2:{ unfold Graph.node. cbn [String.eqb Ascii.eqb Bool.eqb]. now rewrite Horch. }
  set (st1 := apply_update st (update cmd)) in *.
  destruct (orchestrator_node_cases W st cmd Horch) as (Hm & c & Hr).
  assert (Hm1 : messages st1 <> []).
  { subst st1. unfold apply_update. cbn [messages]. destruct (messages st);
      [contradiction | discriminate]. }
  destruct (route_cases st c cmd Hr) as (d & i & q & _ & [(Hg & _)|(Hg & _)]).
  - rewrite Hg.
    destruct (guardian_drains W (length (pending_of st1)) Hret fuel st1)
      as (final & later & Hrun); [lia | lia |].
    rewrite Hrun. eauto.
  - destruct (specialist_returns W (goto cmd) st1 Hret Hg Hm1)
      as (m & dr & l & u & ev & Hnode).
    destruct fuel as [|fuel]; [lia|].
    rewrite (run_step W fuel (goto cmd) st1
               (mkCommand (specialist_update m dr l u) "GUARDIAN") ev);
      [| |exact Hnode].
    2:{ destruct Hg as [<-|[<-|[]]]; discriminate. }
    cbn [goto update].
    destruct (guardian_drains W (length (pending_of st1)) Hret fuel
                (apply_update st1 (specialist_update m dr l u)))
      as (final & later & Hrun).
    + rewrite pending_after. cbn [specialist_update u_pending_intents]. lia.
    + lia.
    + rewrite Hrun. eauto.
Qed.

Lemma says_returns (text : string) :
  specialists_return (Scenario.world (Scenario.says text)).
Proof.
  split.
  - intros st Hm. unfold Booking.booking_agent_node.
    destruct (messages st) as [|m ms] eqn:E; [contradiction|].
    destruct (last_item (m :: ms)) eqn:El.
    + cbn [fmap option_fmap option_map mbind option_bind].
      destruct (Booking.setup _ st) as [[tools prompt] pre]. discriminate.
    + apply last_None in El. discriminate.
  - intros st. unfold Capacity.capacity_node.
    destruct (Capacity.setup st) as [tools info]. discriminate.
Qed.

Lemma turn_terminates_witness :
  exists final events,
    Graph.run (Scenario.world (Scenario.says "MULTI")) 5 "ORCHESTRATOR"
      Scenario.awaiting_booking_answer = Some (final, events).
Proof.
  apply (turn_terminates (Scenario.world (Scenario.says "MULTI"))
           Scenario.awaiting_booking_answer
           (mkCommand (Orchestrator.route_update None "capacity" "English" ["BOOKING"])
              "CAPACITY") 5).
  - apply says_returns.
  - reflexivity.
  - vm_compute. lia.
Defined.

(** * Further properties of the handlers *)

Lemma dict_get_set_eq (k : string) (v : pyval) (d : dict) :
  dict_get k (dict_set k v d) = Some v.
Proof.
  induction d as [|[k0 v0] d IH]; simpl.
  - now rewrite String.eqb_refl.
  - destruct (String.eqb k0 k) eqn:E; simpl.
    + now rewrite String.eqb_refl.
    + now rewrite E.
Qed.


(** The clarification outcome. When the first call is
    [communicate_with_user] and its raw [needs_followup] argument is true,
    the handler makes no second model call: the update holds the response
    and the one tool result, [draft_response] is the message of the call,
    [route_lock] names the handler itself, and [ui_payload] is not
    written. *)
Theorem followup_locks_handler (W : World) (st : AgentState) (call : tool_call)
    (rest : list tool_call) (message : string) (flag : bool)
    (fields : option (list string)) :
  tc_name call = "communicate_with_user" ->
  parse_communicate_args W (tc_args call) = Some (message, flag, fields) ->
  followup_flag (tc_args call) = true ->
  (last_item (messages st) <> None ->
   ai_tool_calls (booking_first_response W st) = call :: rest ->
   Booking.booking_agent_node W st =
     Some (mkCommand
             (specialist_update
                [AIMessage (booking_first_response W st);
                 ToolMessage
                   (py_str W (Tools.communicate_with_user message flag fields))
                   (tc_id call) "communicate_with_user"]
                message (Some "BOOKING") None)
             "GUARDIAN",
           (booking_prefetched W st ++
            [Invoked "communicate_with_user" (tc_args call)])%list)) /\
  (ai_tool_calls (capacity_first_response W st) = call :: rest ->
   Capacity.capacity_node W st =
     Some (mkCommand
             (specialist_update
                [AIMessage (capacity_first_response W st);
                 ToolMessage
                   (py_str W (Tools.communicate_with_user message flag fields))
                   (tc_id call) "communicate_with_user"]
                message (Some "CAPACITY") None)
             "GUARDIAN",
           (capacity_prefetched ++
            [Invoked "communicate_with_user" (tc_args call)])%list)).
Proof.
  intros Hname Hparse Hflag.
  assert (Hcomm : communicate W (tc_args call) =
            Some (mkDispatched (Tools.communicate_with_user message flag fields)
                    None true (tc_args call)
                    [Invoked "communicate_with_user" (tc_args call)])).
  { unfold communicate. rewrite Hparse. cbn [mbind option_bind]. now rewrite Hflag. }
  split.
  - intros Hlast Hcalls.
    unfold Booking.booking_agent_node, booking_first_response, booking_prefetched in *.
    destruct (last_item (messages st)) as [m|]; [|contradiction].
    cbn [fmap option_fmap option_map mbind option_bind].
    destruct (Booking.setup W st) as [[tools prompt] pre]. cbn [snd].
    rewrite Hcalls.
    assert (Hd : Booking.dispatch W st call = communicate W (tc_args call)).
    { unfold Booking.dispatch. rewrite Hname. reflexivity. }
    rewrite Hd, Hcomm. cbn [mbind option_bind form_signal d_ui_signal
      d_needs_followup d_result d_args d_events].
    rewrite (with_first_args_same _ _ _ Hcalls), Hname. reflexivity.
  - intros Hcalls.
    unfold Capacity.capacity_node, capacity_first_response, capacity_prefetched in *.
    destruct (Capacity.setup st) as [tools info].
    rewrite Hcalls.
    assert (Hd : Capacity.dispatch W call = communicate W (tc_args call)).
    { unfold Capacity.dispatch. rewrite Hname. reflexivity. }
    rewrite Hd, Hcomm. cbn [mbind option_bind d_needs_followup d_result d_events].
    rewrite Hname. reflexivity.
Qed.

Lemma followup_locks_handler_witness :
  Capacity.capacity_node (Scenario.world (Scenario.calls Scenario.ask_call))
    (Scenario.human "is there a slot tomorrow?") =
  Some (mkCommand
          (specialist_update
             [AIMessage (AiReply "" Scenario.ask_call);
              ToolMessage "<repr>" "call_1" "communicate_with_user"]
             "Which terminal do you mean?" (Some "CAPACITY") None)
          "GUARDIAN",
        [Invoked "get_terminals_map" [];
         Invoked "communicate_with_user"
           [("message", VStr "Which terminal do you mean?");
            ("needs_followup", VBool true)]]).
Proof.
  destruct (followup_locks_handler (Scenario.world (Scenario.calls Scenario.ask_call))
              (Scenario.human "is there a slot tomorrow?")
              (ToolCall "communicate_with_user"
                 [("message", VStr "Which terminal do you mean?");
                  ("needs_followup", VBool true)] "call_1")
              [] "Which terminal do you mean?" true None) as [_ H].
  - reflexivity.
  - reflexivity.
  - reflexivity.
  - apply H. reflexivity.
Defined.

(** The form outcome. When the first call is [prepare_booking_form] with a
    date, a time and a terminal, the Booking handler makes no second model
    call: [ui_payload] is the form (the terminal's id looked up in the
    terminals map, the terminal's name itself when the map has none),
    [draft_response] is the confirmation text with the three values, the
    lock is cleared; and the Guardian that runs next, permission granted,
    writes the same form into [ui_payload]. *)
Theorem form_outcome (W : World) (st : AgentState) (call : tool_call)
    (rest : list tool_call) (date time terminal : string) :
  tc_name call = "prepare_booking_form" ->
  parse_form_args W (tc_args call) = Some (date, time, terminal) ->
  last_item (messages st) <> None ->
  ai_tool_calls (booking_first_response W st) = call :: rest ->
  let terminal_id :=
    match terminals_map W !! terminal with
    | Some t => if String.eqb t "" then terminal else t
    | None => terminal
    end in
  let form :=
    VDict [("ui_action", VStr "OPEN_BOOKING_FORM");
           ("prefill", VDict [("date", VStr date); ("time", VStr time);
                              ("terminal", VStr terminal);
                              ("terminal_id", VStr terminal_id)])] in
  let nl := String (ascii_of_nat 10) "" in
  let cmd :=
    mkCommand
      (specialist_update
         [AIMessage (booking_first_response W st);
          ToolMessage (json_dumps W form) (tc_id call) "prepare_booking_form"]
         ("I've prepared a booking form for you:" ++ nl ++
          "• Date: " ++ date ++ nl ++
          "• Time: " ++ time ++ nl ++
          "• Terminal: " ++ terminal ++ nl ++
          "Please review and confirm in the form below.")
         None (Some (Some form)))
      "GUARDIAN" in
  Booking.booking_agent_node W st =
    Some (cmd,
          (booking_prefetched W st ++
           [Invoked "prepare_booking_form" (tc_args call);
            Invoked "get_terminals_map" []])%list) /\
  (permitted (apply_update st (update cmd)) ->
   u_ui_payload (update (Guardian.guardian_node W (apply_update st (update cmd)))) =
     Some (Some form)).
Proof.
  intros Hname Hparse Hlast Hcalls terminal_id form nl cmd. split.
  - unfold Booking.booking_agent_node, booking_first_response, booking_prefetched in *.
    destruct (last_item (messages st)) as [m|]; [|contradiction].
    cbn [fmap option_fmap option_map mbind option_bind].
    destruct (Booking.setup W st) as [[tools prompt] pre]. cbn [snd].
    rewrite Hcalls.
    unfold Booking.dispatch. rewrite Hname. cbn [String.eqb Ascii.eqb Bool.eqb].
    rewrite Hparse. cbn [mbind option_bind]. unfold Tools.booking_form.
    cbn [default from_option id dict_get String.eqb Ascii.eqb Bool.eqb mbind
         option_bind].
    cbn [mbind option_bind form_signal d_ui_signal truthy d_result d_args d_events
         py_str].
    rewrite (with_first_args_same _ _ _ Hcalls). reflexivity.
  - intros Hperm. apply guardian_keeps_payload; [exact Hperm | reflexivity | reflexivity].
Qed.

Lemma form_outcome_witness :
  exists cmd events,
    Booking.booking_agent_node (Scenario.world (Scenario.calls Scenario.form_call))
      (Scenario.human "book tomorrow 10am terminal A") = Some (cmd, events) /\
    u_ui_payload (update cmd) = Some (Some Scenario.prepared_form) /\
    u_route_lock (update cmd) = Some None.
Proof.
  destruct (form_outcome (Scenario.world (Scenario.calls Scenario.form_call))
              (Scenario.human "book tomorrow 10am terminal A")
              (ToolCall "prepare_booking_form"
                 [("date", VStr "2026-11-04"); ("time", VStr "10:00");
                  ("terminal", VStr "Terminal A")] "call_1")
              [] "2026-11-04" "10:00" "Terminal A") as [H _].
  - reflexivity.
  - reflexivity.
  - discriminate.
  - reflexivity.
  - eexists _, _. split; [exact H|]. split; reflexivity.
Defined.

(** * Further properties of the orchestrator *)

(** Where the orchestrator can send a turn, and what it writes. The
    destination is BOOKING, CAPACITY or GUARDIAN; [current_intent] is the
    destination in lower case for a specialist and general for the
    Guardian; a draft is written exactly when the turn goes straight to the
    Guardian, and the queue is then emptied; [pending_intents] is written on
    every path; no message is appended, and [route_lock] and [ui_payload] are
    never written. *)
Theorem orchestrator_destinations (W : World) (st : AgentState) (cmd : Command) :
  Orchestrator.orchestrator_node W st = Some cmd ->
  In (goto cmd) ["BOOKING"; "CAPACITY"; "GUARDIAN"] /\
  u_current_intent (update cmd) =
    Some (Some (if String.eqb (goto cmd) "GUARDIAN" then "general"
                else lower (goto cmd))) /\
  (goto cmd = "GUARDIAN" <-> u_draft_response (update cmd) <> None) /\
  (goto cmd = "GUARDIAN" -> u_pending_intents (update cmd) = Some []) /\
  (exists queue, u_pending_intents (update cmd) = Some queue) /\
  u_messages (update cmd) = [] /\
  u_route_lock (update cmd) = None /\
  u_ui_payload (update cmd) = None.
Proof.
  intros H. apply orchestrator_node_cases in H. destruct H as (_ & c & Hr).
  destruct (route_cases st c cmd Hr) as (d & i & q & -> & Hcase). cbn [goto update] in *.
  destruct Hcase as [(Hg & -> & Hd & ->)|(Hg & -> & -> & _)].
  - rewrite Hg. cbn.
    split; [auto|]. split; [reflexivity|]. split; [tauto|].
    split; [reflexivity|]. split; [eauto|]. auto.
  - assert (Hne : goto cmd <> "GUARDIAN").
    { destruct Hg as [<-|[<-|[]]]; discriminate. }
    split; [simpl in *; tauto|]. split.
    { destruct (String.eqb (goto cmd) "GUARDIAN") eqn:E; [|reflexivity].
      apply String.eqb_eq in E. contradiction. }
    split; [split; [contradiction | intros Hx; now contradict Hx]|].
    split; [contradiction|]. split; [eauto|]. auto.
Qed.

Lemma orchestrator_destinations_witness :
  exists cmd,
    Orchestrator.orchestrator_node (Scenario.world (Scenario.says "OUT_OF_SCOPE"))
      Scenario.side_conversation = Some cmd /\
    goto cmd = "BOOKING" /\
    u_current_intent (update cmd) = Some (Some "booking") /\
    u_route_lock (update cmd) = None.
Proof.
  destruct (Orchestrator.orchestrator_node (Scenario.world (Scenario.says "OUT_OF_SCOPE"))
              Scenario.side_conversation) as [cmd|] eqn:E; [|vm_compute in E; discriminate].
  exists cmd.
  destruct (orchestrator_destinations (Scenario.world (Scenario.says "OUT_OF_SCOPE"))
              Scenario.side_conversation cmd E) as (_ & Hi & _ & _ & _ & _ & Hl & _).
  assert (Hg : goto cmd = "BOOKING") by (vm_compute in E; now injection E as <-).
  rewrite Hg in Hi. split; [reflexivity|]. split; [exact Hg|]. split; [exact Hi | exact Hl].
Defined.

(** ** Replies of the classifier *)

Lemma route_without_intents (st : AgentState) (c : Orchestrator.classification) :
  Orchestrator.c_intents c = None ->
  exists cmd, Orchestrator.route st c = Some cmd.
Proof.
  intros Hc.
  assert (Hlogic : exists cmd, Orchestrator.routing_logic st c = Some cmd).
  { unfold Orchestrator.routing_logic.
    destruct (contains "MULTI" (Orchestrator.c_intent c)).
    - unfold Orchestrator.multi_intents. rewrite Hc. eexists. reflexivity.
    - repeat match goal with
             | |- context [if ?b then _ else _] => destruct b
             end; eexists; reflexivity. }
  unfold Orchestrator.route.
  destruct (pending_of st) as [|h t]; [exact Hlogic|].
  destruct (negb _); [|exact Hlogic].
  destruct (str_in h Orchestrator.valid_nodes); [|exact Hlogic].
  eexists. reflexivity.
Qed.

Lemma orchestrator_node_raw (W : World) (st : AgentState) (raw : string) :
  classifier_raw W st = Some raw ->
  Orchestrator.orchestrator_node W st =
    match json_loads W raw with
    | Some parsed =>
        intent ← Orchestrator.get_stripped parsed "intent" "CHITCHAT";
        language ← Orchestrator.get_stripped parsed "language" "English";
        Orchestrator.route st
          (Orchestrator.mkClass (upper intent) language
             (match parsed with VDict d => dict_get "intents" d | _ => None end))
    | None => Orchestrator.route st (Orchestrator.mkClass (upper raw) "English" None)
    end.
Proof.
  unfold classifier_raw, Orchestrator.orchestrator_node,
    Orchestrator.classify_intent_and_language.
  destruct (last_item (messages st)) as [m|]; [|discriminate].
  cbn [fmap option_fmap option_map mbind option_bind]. intros [= <-].
  destruct (json_loads W _) as [parsed|]; [|reflexivity].
  destruct (Orchestrator.get_stripped parsed "intent" "CHITCHAT"); [|reflexivity].
  cbn [mbind option_bind].
  destruct (Orchestrator.get_stripped parsed "language" "English"); reflexivity.
Qed.

(** Replies of the classifier that are not what the prompt asks for. A
    reply that is not JSON never ends the turn: it is routed on its own
    upper-cased text, with the language English. A reply that is JSON but no
    object, or an object whose intent is not a string, ends the turn with an
    exception: only JSONDecodeError is caught. *)
Theorem classifier_reply_edges (W : World) (st : AgentState) (raw : string) :
  classifier_raw W st = Some raw ->
  (json_loads W raw = None ->
   Orchestrator.orchestrator_node W st =
     Orchestrator.route st (Orchestrator.mkClass (upper raw) "English" None) /\
   exists cmd,
     Orchestrator.orchestrator_node W st = Some cmd /\
     u_language_detected (update cmd) = Some (Some "English")) /\
  (forall v, json_loads W raw = Some v -> (forall d, v <> VDict d) ->
     Orchestrator.orchestrator_node W st = None) /\
  (forall d x, json_loads W raw = Some (VDict d) ->
     dict_get "intent" d = Some x -> (forall s, x <> VStr s) ->
     Orchestrator.orchestrator_node W st = None).
Proof.
  intros Hraw. pose proof (orchestrator_node_raw W st raw Hraw) as Hnode.
  split; [|split].
  - intros Hj. rewrite Hj in Hnode. split; [exact Hnode|].
    destruct (route_without_intents st (Orchestrator.mkClass (upper raw) "English" None)
                eq_refl) as [cmd Hcmd].
    exists cmd. rewrite Hnode. split; [exact Hcmd|].
    now apply route_language in Hcmd.
  - intros v Hj Hv. rewrite Hj in Hnode. rewrite Hnode.
    destruct v; try reflexivity. now contradiction (Hv d).
  - intros d x Hj Hx Hs. rewrite Hj in Hnode. rewrite Hnode.
    assert (Hi : Orchestrator.get_stripped (VDict d) "intent" "CHITCHAT" = None).
    { unfold Orchestrator.get_stripped. rewrite Hx.
      destruct x; try reflexivity. now contradiction (Hs s). }
    rewrite Hi. reflexivity.
Qed.

Lemma classifier_reply_edges_witness :
  exists cmd,
    Orchestrator.orchestrator_node (Scenario.world (Scenario.says " capacity? "))
      Scenario.awaiting_booking_answer = Some cmd /\
    goto cmd = "CAPACITY" /\
    u_language_detected (update cmd) = Some (Some "English").
Proof.
  destruct (classifier_reply_edges (Scenario.world (Scenario.says " capacity? "))
              Scenario.awaiting_booking_answer "capacity?") as ((Hroute & _) & _).
  - reflexivity.
  - reflexivity.
  - eexists. split; [exact Hroute|]. split; reflexivity.
Defined.

(** ** Malformed lists of a compound request *)

Lemma char_not_valid (c : ascii) :
  str_in (upper (strip (String c ""))) ["BOOKING"; "CAPACITY"] = false.
Proof.
  unfold strip. cbn [lstrip]. destruct (is_space c) eqn:E.
  - reflexivity.
  - cbn [rstrip]. rewrite E. cbn [upper map_string str_in existsb String.eqb].
    destruct (Ascii.eqb (upper_char c) "B"), (Ascii.eqb (upper_char c) "C");
      reflexivity.
Qed.

Lemma normalize_chars (s : string) : Orchestrator.normalize (chars s) = [].
Proof.
  unfold Orchestrator.normalize.
  induction s as [|c s IH]; [reflexivity|].
  cbn [chars map]. rewrite filter_cons_False; [exact IH|].
  rewrite char_not_valid. intros [].
Qed.

(** The list of a MULTI classification when it is not a list of strings.
    A string is iterated character by character: no entry is valid and the
    turn takes the default, capacity first and the booking queued. Null, a
    number or a boolean cannot be iterated, and a list with an entry that is
    not a string fails at that entry: the turn ends with an exception. *)
Theorem malformed_multi_list (st : AgentState) (c : Orchestrator.classification) :
  Orchestrator.c_intent c = "MULTI" ->
  (forall s, Orchestrator.c_intents c = Some (VStr s) ->
     Orchestrator.route st c =
       Some (mkCommand
               (Orchestrator.route_update None "capacity"
                  (Orchestrator.c_language c) ["BOOKING"])
               "CAPACITY")) /\
  (Orchestrator.c_intents c = Some VNone \/
   (exists n, Orchestrator.c_intents c = Some (VInt n)) \/
   (exists b, Orchestrator.c_intents c = Some (VBool b)) ->
   Orchestrator.route st c = None) /\
  (forall l v, Orchestrator.c_intents c = Some (VList l) ->
     In v l -> (forall s, v <> VStr s) ->
     Orchestrator.route st c = None).
Proof.
  intros Hi.
  assert (Hroute : Orchestrator.route st c = Orchestrator.routing_logic st c).
  { unfold Orchestrator.route. rewrite Hi. destruct (pending_of st); reflexivity. }
  assert (Hlogic : Orchestrator.routing_logic st c =
            intents_list ← Orchestrator.multi_intents c;
            match intents_list with
            | first_intent :: remaining_intents =>
                Some (mkCommand
                        (Orchestrator.route_update None (lower first_intent)
                           (Orchestrator.c_language c) remaining_intents)
                        first_intent)
            | [] => None
            end).
  { unfold Orchestrator.routing_logic. rewrite Hi. reflexivity. }
  rewrite Hroute, Hlogic. unfold Orchestrator.multi_intents.
  split; [|split].
  - intros s ->. cbn [Orchestrator.iter_strs mbind option_bind].
    rewrite normalize_chars. reflexivity.
  - intros [->|[[n ->]|[b ->]]]; reflexivity.
  - intros l v -> Hin Hv. cbn [Orchestrator.iter_strs].
    assert (Hnone : Orchestrator.as_strs l = None).
    { induction l as [|x l IH]; [contradiction|].
      destruct Hin as [->|Hin].
      - destruct v; try reflexivity. now contradiction (Hv s).
      - destruct x; try reflexivity. simpl. now rewrite (IH Hin). }
    rewrite Hnone. reflexivity.
Qed.

Lemma malformed_multi_list_witness :
  Orchestrator.route Scenario.awaiting_booking_answer
    (Orchestrator.mkClass "MULTI" "English" (Some (VStr "BOOKING"))) =
  Some (mkCommand (Orchestrator.route_update None "capacity" "English" ["BOOKING"])
          "CAPACITY").
Proof.
  destruct (malformed_multi_list Scenario.awaiting_booking_answer
              (Orchestrator.mkClass "MULTI" "English" (Some (VStr "BOOKING"))))
    as (H & _).
  - reflexivity.
  - apply (H "BOOKING"). reflexivity.
Defined.

(** ** The lock the classifier is told *)

(** The state a finished turn leaves is the update of a Guardian that had
    permission and ended the turn. *)
Lemma run_last_guardian (W : World) (fuel : nat) (name : string)
    (st final : AgentState) (events : list tool_event) :
  name <> "__end__" ->
  name = "ORCHESTRATOR" \/ permitted st ->
  Graph.run W fuel name st = Some (final, events) ->
  exists s,
    permitted s /\
    goto (Guardian.guardian_node W s) = "__end__" /\
    final = apply_update s (update (Guardian.guardian_node W s)).
Proof.
  revert name st events.
  induction fuel as [|fuel IH]; intros name st events Hne Hinv Hrun.
  - simpl in Hrun. destruct (String.eqb name "__end__") eqn:E; [|discriminate].
    apply String.eqb_eq in E. contradiction.
  - cbn [Graph.run] in Hrun.
    destruct (String.eqb name "__end__") eqn:E.
    { apply String.eqb_eq in E. contradiction. }
    destruct (Graph.node W name st) as [[cmd ev]|] eqn:Hnode; [|discriminate].
    cbn [mbind option_bind] in Hrun.
    destruct (Graph.run W fuel (goto cmd) (apply_update st (update cmd)))
      as [[final' later]|] eqn:Hrest; [|discriminate].
    cbn [mbind option_bind] in Hrun. injection Hrun as <- <-.
    destruct (string_dec (goto cmd) "__end__") as [Hend|Hgo].
    + rewrite Hend, run_end in Hrest. injection Hrest as <- <-.
      destruct (only_guardian_ends W name st cmd ev Hnode Hend) as [-> ->].
      destruct Hinv as [Ho|Hp]; [discriminate|].
      exists st. auto.
    + apply (IH (goto cmd) (apply_update st (update cmd)) later Hgo); [|exact Hrest].
      right.
      destruct (node_cases W name st cmd ev Hnode)
        as [(_ & _ & H)|[(Hn & H)|[(Hn & H)|(Hn & _ & ->)]]].
      * apply orchestrator_node_cases in H. destruct H as (_ & c & Hr).
        now apply orchestrator_permits with (c := c).
      * destruct Hinv as [Ho|Hp]; [congruence|].
        apply booking_update_shape in H. destruct H as (? & ? & ? & ? & ->).
        exact Hp.
      * destruct Hinv as [Ho|Hp]; [congruence|].
        apply capacity_update_shape in H. destruct H as (? & ? & ? & ? & ->).
        exact Hp.
      * destruct Hinv as [Ho|Hp]; [congruence|]. now apply guardian_permits.
Qed.

(** After a finished turn the keys [route_lock], [ui_payload] and
    [draft_response] are bound in the stored state. The orchestrator's
    default for a missing lock, the string NONE, is therefore used on the
    first turn of a thread only: on every later turn the classifier is told
    the value of the lock itself, null (printed None) when no handler holds
    it. *)
Theorem lock_default_first_turn_only (W : World) (st final : AgentState)
    (events : list tool_event) :
  Graph.invoke W st = Some (final, events) ->
  route_lock final = Present (lock_of final) /\
  state_get (route_lock final) (Some "NONE") = lock_of final /\
  (exists p, ui_payload final = Present p) /\
  state_get (route_lock Api.empty_state) (Some "NONE") = Some "NONE".
Proof.
  intros Hrun.
  destruct (run_last_guardian W Graph.recursion_limit "ORCHESTRATOR" st final events)
    as (s & Hp & _ & ->); [discriminate | now left | exact Hrun |].
  destruct (guardian_granted W s Hp) as (u & Hl & _ & Hg & _).
  assert (Hlock : u_route_lock (update (Guardian.guardian_node W s)) = Some (lock_of s)).
  { rewrite Hg. destruct (pending_of s) as [|h t]; [exact Hl|].
    destruct (negb _); [|exact Hl].
    destruct (str_in h Guardian.valid_targets); reflexivity. }
  assert (Hui : exists p, u_ui_payload (update (Guardian.guardian_node W s)) = Some p).
  { unfold Guardian.guardian_node. unfold permitted in Hp. rewrite Hp. cbn [negb].
    destruct (pending_of s) as [|h t]; [eexists; reflexivity|].
    destruct (negb _); [|eexists; reflexivity].
    destruct (str_in h Guardian.valid_targets); eexists; reflexivity. }
  destruct Hui as [p Hui].
  unfold lock_of, apply_update. cbn [route_lock ui_payload]. rewrite Hlock, Hui.
  cbn [write state_get]. split; [reflexivity|]. split; [reflexivity|].
  split; [eauto | reflexivity].
Qed.

Lemma lock_default_first_turn_only_witness :
  match Graph.invoke (Scenario.world (Scenario.says "HELP"))
          (Scenario.human "what can you do?") with
  | Some (final, _) => state_get (route_lock final) (Some "NONE") = None
  | None => False
  end.
Proof.
  destruct (Graph.invoke (Scenario.world (Scenario.says "HELP"))
              (Scenario.human "what can you do?")) as [[final events]|] eqn:H.
  - destruct (lock_default_first_turn_only (Scenario.world (Scenario.says "HELP"))
                (Scenario.human "what can you do?") final events H) as (_ & -> & _).
    vm_compute in H. injection H as <- _. reflexivity.
  - vm_compute in H. discriminate.
Defined.

(** * Properties of the booking queries *)

Lemma dict_get_set (k k' : string) (v : pyval) (d : dict) :
  dict_get k (dict_set k' v d) = if String.eqb k' k then Some v else dict_get k d.
Proof.
  destruct (String.eqb k' k) eqn:E.
  - apply String.eqb_eq in E. subst. apply dict_get_set_eq.
  - apply dict_get_set_ne. intros ->. now rewrite String.eqb_refl in E.
Qed.

Lemma get_set_if (k key : string) (value : option string) (d : dict) :
  dict_get k (BookingQueries.set_if key value d) =
  if truthy_str value && String.eqb key k then Some (opt_val value) else dict_get k d.
Proof.
  unfold BookingQueries.set_if. destruct (truthy_str value); [|reflexivity].
  apply dict_get_set.
Qed.

(** The role changes nothing in what [get_bookings_by_user] asks the back
    end for: under every key the query holds the same value whatever
    [user_role] is (only the order of the two filters differs). In
    particular the carrier filter is there exactly when a [carrier_id] is
    passed, for a carrier as for an administrator. *)
Theorem bookings_query_ignores_role (today : Z) (role role' : string)
    (status terminal_id carrier_id start_date end_date : option string) (k : string) :
  dict_get k
    (BookingQueries.get_bookings_by_user_query today role status terminal_id
       carrier_id start_date end_date) =
  dict_get k
    (BookingQueries.get_bookings_by_user_query today role' status terminal_id
       carrier_id start_date end_date) /\
  dict_get "carrierId"
    (BookingQueries.get_bookings_by_user_query today role status terminal_id
       carrier_id start_date end_date) =
  (if truthy_str carrier_id then Some (opt_val carrier_id) else None).
Proof.
  unfold BookingQueries.get_bookings_by_user_query.
  destruct (BookingQueries.date_range today 7 start_date end_date) as [s e].
  assert (Hcomm : forall q,
            dict_get k (BookingQueries.set_if "carrierId" carrier_id
                          (BookingQueries.set_if "terminalId" terminal_id q)) =
            dict_get k (BookingQueries.set_if "terminalId" terminal_id
                          (BookingQueries.set_if "carrierId" carrier_id q))).
  { intros q. rewrite !get_set_if.
    destruct (truthy_str carrier_id), (truthy_str terminal_id); cbn [andb];
      try reflexivity.
    destruct (String.eqb "carrierId" k) eqn:E1, (String.eqb "terminalId" k) eqn:E2;
      try reflexivity.
    apply String.eqb_eq in E1, E2. congruence. }
  split.
  - destruct (String.eqb role "ADMIN"), (String.eqb role' "ADMIN");
      rewrite ?Hcomm; reflexivity.
  - destruct (String.eqb role "ADMIN"); rewrite ?Hcomm, !get_set_if;
      destruct (truthy_str carrier_id), (truthy_str terminal_id),
        (truthy_str (BookingQueries.normalized_status status)); reflexivity.
Qed.

(** Called without dates, [get_bookings_by_user] and
    [get_bookings_by_terminal_id] ask for the seven days from today on,
    whatever the other filters; the terminal filter of the second is always
    there. *)
Theorem sibling_queries_default_range (today : Z) (role terminal : string)
    (status terminal_id carrier_id : option string) :
  let by_user :=
    BookingQueries.get_bookings_by_user_query today role status terminal_id
      carrier_id None None in
  let by_terminal :=
    BookingQueries.get_bookings_by_terminal_id_params today terminal status
      None None in
  dict_get "startDate" by_user = Some (VStr (BookingTools.strftime today)) /\
  dict_get "endDate" by_user = Some (VStr (BookingTools.strftime (today + 7))) /\
  dict_get "startDate" by_terminal = Some (VStr (BookingTools.strftime today)) /\
  dict_get "endDate" by_terminal = Some (VStr (BookingTools.strftime (today + 7))) /\
  dict_get "terminalId" by_terminal = Some (VStr terminal).
Proof.
  unfold BookingQueries.get_bookings_by_user_query,
    BookingQueries.get_bookings_by_terminal_id_params, BookingQueries.date_range.
  cbn [truthy_str].
  repeat split;
    try (destruct (String.eqb role "ADMIN"));
    rewrite !get_set_if;
    repeat match goal with
           | |- context [truthy_str ?x] => destruct (truthy_str x)
           end; reflexivity.
Qed.

(** ** Relative dates *)

Lemma strftime_head (ordinal : Z) :
  exists k rest, (k < 10)%nat /\
    BookingTools.strftime ordinal = String (ascii_of_nat (48 + k)) rest.
Proof.
  unfold BookingTools.strftime. destruct (BookingTools.civil ordinal) as [[y m] d].
  exists (Z.to_nat ((y / 10 / 10 / 10) mod 10)). eexists. split.
  - pose proof (Z.mod_pos_bound (y / 10 / 10 / 10) 10 ltac:(lia)). lia.
  - reflexivity.
Qed.

Lemma resolve_date_digit (today : Z) (k : nat) (rest : string) :
  (k < 10)%nat ->
  BookingTools._resolve_date today (String (ascii_of_nat (48 + k)) rest) =
  String (ascii_of_nat (48 + k)) rest.
Proof.
  intros Hk. unfold BookingTools._resolve_date, strip.
  do 10 (destruct k as [|k];
         [simpl; destruct (rstrip rest); reflexivity|]).
  lia.
Qed.

(** [_resolve_date] either turns one of the words TODAY, TOMORROW and
    YESTERDAY (in any case, with blanks around, or the empty string for
    today) into that date, or returns its argument exactly as given; and a
    date it has resolved is left alone when resolved again. *)
Theorem resolve_date_idempotent (today : Z) (value : string) :
  (BookingTools._resolve_date today value = value \/
   BookingTools._resolve_date today value = BookingTools.strftime today \/
   BookingTools._resolve_date today value = BookingTools.strftime (today + 1) \/
   BookingTools._resolve_date today value = BookingTools.strftime (today - 1)) /\
  BookingTools._resolve_date today (BookingTools._resolve_date today value) =
  BookingTools._resolve_date today value.
Proof.
  assert (Hfix : forall d, BookingTools._resolve_date today (BookingTools.strftime d) =
                           BookingTools.strftime d).
  { intros d. destruct (strftime_head d) as (k & rest & Hk & ->).
    now apply resolve_date_digit. }
  assert (Hcases :
    (exists d, BookingTools._resolve_date today value = BookingTools.strftime d /\
               (d = today \/ d = today + 1 \/ d = today - 1)%Z) \/
    (BookingTools._resolve_date today value = value /\
     forall v, upper (strip v) = upper (strip value) ->
               BookingTools._resolve_date today v = v)).
  { unfold BookingTools._resolve_date.
    destruct (str_in (upper (strip value)) ["TODAY"; ""]) eqn:E1;
      [left; eexists; split; [reflexivity | lia]|].
    destruct (String.eqb (upper (strip value)) "TOMORROW") eqn:E2;
      [left; eexists; split; [reflexivity | lia]|].
    destruct (String.eqb (upper (strip value)) "YESTERDAY") eqn:E3;
      [left; eexists; split; [reflexivity | lia]|].
    right. split; [reflexivity|]. intros v ->. now rewrite E1, E2, E3. }
  destruct Hcases as [(d & Hd & Hwhich)|(Hsame & Hstable)].
  - rewrite Hd. split; [|apply Hfix].
    destruct Hwhich as [-> | [-> | ->]]; auto.
  - rewrite Hsame. split; [auto|]. now apply Hstable.
Qed.

(** * Properties of the token store and the back-end client *)

Import ApiClient.

Lemma lookup_put_if (key k : string) (value : option string)
    (tokens : gmap string string) :
  put_if key value tokens !! k =
  if truthy_str value && String.eqb key k then value else tokens !! k.
Proof.
  unfold put_if, truthy_str. destruct value as [v|]; [|reflexivity].
  destruct (String.eqb v "") eqn:Ev; cbn [negb andb]; [reflexivity|].
  destruct (String.eqb key k) eqn:Ek.
  - apply String.eqb_eq in Ek. subst. apply lookup_insert_eq.
  - apply lookup_insert_ne. intros ->. now rewrite String.eqb_refl in Ek.
Qed.


(** ** The base URL *)

Lemma rstrip_char_ends (c : ascii) (s : string) :
  ends_with_char c (rstrip_char c s) = false.
Proof.
  induction s as [|a s IH]; [reflexivity|]. cbn [rstrip_char].
  destruct (rstrip_char c s) as [|b r] eqn:E.
  - destruct (Ascii.eqb a c) eqn:Ea; [reflexivity|]. simpl. exact Ea.
  - exact IH.
Qed.

Lemma rstrip_char_id (c : ascii) (s : string) :
  ends_with_char c s = false -> rstrip_char c s = s.
Proof.
  induction s as [|a s IH]; [reflexivity|]. intros H. cbn [rstrip_char].
  destruct s as [|b s'].
  - simpl in H. simpl. now rewrite H.
  - rewrite IH by exact H. reflexivity.
Qed.

Lemma rstrip_char_prefix (c : ascii) (pre s : string) :
  contains (String c "") pre = false ->
  startswith pre s = true -> startswith pre (rstrip_char c s) = true.
Proof.
  revert s. induction pre as [|a pre IH]; intros s Hc Hs; [reflexivity|].
  destruct s as [|b s]; [discriminate|]. cbn [startswith] in Hs.
  destruct (Ascii.eqb a b) eqn:Eab; [|discriminate].
  apply Ascii.eqb_eq in Eab. subst b.
  cbn [contains startswith] in Hc. apply orb_false_iff in Hc. destruct Hc as [Hh Ht].
  assert (Hac : Ascii.eqb a c = false).
  { destruct (Ascii.eqb c a) eqn:E; [discriminate|].
    rewrite Ascii.eqb_sym. exact E. }
  specialize (IH s Ht Hs). cbn [rstrip_char].
  destruct (rstrip_char c s) as [|b r] eqn:E.
  - rewrite Hac. cbn [startswith]. rewrite Ascii.eqb_refl.
    destruct pre; [reflexivity | discriminate].
  - cbn [startswith]. rewrite Ascii.eqb_refl. exact IH.
Qed.

Lemma startswith_app (pre s : string) : startswith pre (pre ++ s) = true.
Proof.
  induction pre as [|a pre IH]; [reflexivity|].
  simpl. now rewrite Ascii.eqb_refl.
Qed.

Lemma startswith_trans (a b s : string) :
  startswith a b = true -> startswith b s = true -> startswith a s = true.
Proof.
  revert b s. induction a as [|x a IH]; intros b s Hab Hbs; [reflexivity|].
  destruct b as [|y b]; [discriminate|]. destruct s as [|z s]; [discriminate|].
  cbn [startswith] in *.
  destruct (Ascii.eqb x y) eqn:Exy; [|discriminate].
  destruct (Ascii.eqb y z) eqn:Eyz; [|discriminate].
  apply Ascii.eqb_eq in Exy, Eyz. subst. rewrite Ascii.eqb_refl. eauto.
Qed.

(** The base URL never ends in a slash, so that a path appended to it is
    separated from the host by its own slash only; it always begins with
    the scheme http: or https:, which is put in front of a host given
    without one; and a configured URL that has a scheme and no trailing
    slash is used as it is, blanks around it removed. *)
Theorem base_url_normalised (p : Process) :
  ends_with_char "/" (get_base_url p) = false /\
  (startswith "http:" (get_base_url p) = true \/
   startswith "https:" (get_base_url p) = true) /\
  (forall configured,
     environ p !! "API_BASE_URL" = Some configured ->
     (startswith "http://" (strip configured) = true \/
      startswith "https://" (strip configured) = true) ->
     ends_with_char "/" (strip configured) = false ->
     get_base_url p = strip configured).
Proof.
  unfold get_base_url.
  set (base := strip (default "http://10.16.29.94:3000" (environ p !! "API_BASE_URL"))).
  split; [apply rstrip_char_ends|]. split.
  - destruct (startswith "http://" base) eqn:E1; cbn [negb andb].
    + left. apply rstrip_char_prefix; [reflexivity|].
      now apply startswith_trans with (b := "http://").
    + destruct (startswith "https://" base) eqn:E2; cbn [negb].
      * right. apply rstrip_char_prefix; [reflexivity|].
        now apply startswith_trans with (b := "https://").
      * left. apply rstrip_char_prefix; [reflexivity|].
        apply startswith_trans with (b := "http://"); [reflexivity|].
        apply startswith_app.
  - intros configured Hc Hscheme Hend. subst base. rewrite Hc.
    change (default "http://10.16.29.94:3000" (Some configured)) with configured.
    assert (Hsame : (if negb (startswith "http://" (strip configured)) &&
                        negb (startswith "https://" (strip configured))
                     then "http://" ++ strip configured else strip configured) =
                    strip configured).
    { destruct Hscheme as [-> | ->]; [reflexivity|].
      destruct (startswith "http://" (strip configured)); reflexivity. }
    rewrite Hsame. now apply rstrip_char_id.
Qed.

Lemma base_url_normalised_witness :
  get_base_url Scenario.configured_process = "https://api.port.example".
Proof.
  destruct (base_url_normalised Scenario.configured_process) as (_ & _ & H).
  apply (H " https://api.port.example ").
  - reflexivity.
  - right. reflexivity.
  - reflexivity.
Defined.

(** ** One retry after a refresh *)

Lemma cookies_access (p : Process) :
  snd (get_auth p) !! "access-token" =
  if String.eqb (current_token p "API_ACCESS_TOKEN") "" then None
  else Some (current_token p "API_ACCESS_TOKEN").
Proof.
  unfold get_auth. cbn [snd]. unfold with_token.
  destruct (String.eqb (current_token p "API_CSRF_TOKEN") "");
    destruct (String.eqb (current_token p "API_REFRESH_TOKEN") "");
    destruct (String.eqb (current_token p "API_ACCESS_TOKEN") "");
    rewrite ?lookup_insert_ne by discriminate;
    first [apply lookup_insert_eq | apply lookup_empty].
Qed.

(** [api_get] sends the request once; only on a 401 it refreshes the
    tokens, once, and only after a refresh that succeeded it sends the
    request a second time, to the same URL with the cookies read anew.
    Nothing else goes over the network, the process is left as it was unless
    the refresh succeeded, and a response is returned only if its status is
    no 4xx or 5xx. *)
Theorem api_get_retries_once (N : Network) (p : Process) (path : string)
    (params : dict) :
  let url := get_base_url p ++ path in
  let first := requests_get N url (fst (get_auth p)) (snd (get_auth p)) params in
  let result := fst (fst (api_get N p path params)) in
  let p' := snd (fst (api_get N p path params)) in
  let sent := snd (api_get N p path params) in
  let refresh := PostRefresh (get_base_url p ++ "/api/auth/refresh") (snd (get_auth p)) in
  ((forall r, first = Some r -> status_code r <> 401) ->
     sent = [Get url (snd (get_auth p))] /\ p' = p) /\
  (forall r, first = Some r -> status_code r = 401 ->
     (fst (fst (refresh_tokens N p)) = false ->
        sent = [Get url (snd (get_auth p)); refresh] /\ p' = p /\ result = None) /\
     (fst (fst (refresh_tokens N p)) = true ->
        sent = [Get url (snd (get_auth p)); refresh; Get url (snd (get_auth p'))] /\
        p' = snd (fst (refresh_tokens N p)) /\
        result =
          match requests_get N url (fst (get_auth p')) (snd (get_auth p')) params with
          | Some r' => if is_error r' then None else Some r'
          | None => None
          end)) /\
  (forall r, result = Some r -> is_error r = false).
Proof.
  intros url first result p' sent refresh.
  subst url first result p' sent refresh.
  unfold api_get.
  assert (Hposted : snd (refresh_tokens N p) =
            [PostRefresh (get_base_url p ++ "/api/auth/refresh") (snd (get_auth p))]).
  { unfold refresh_tokens. destruct (get_auth p) as [h c]. cbn [snd].
    destruct (requests_post N _ h c) as [resp|]; [|reflexivity].
    destruct (is_error resp); reflexivity. }
  assert (Hfail : fst (fst (refresh_tokens N p)) = false ->
            snd (fst (refresh_tokens N p)) = p).
  { unfold refresh_tokens. destruct (get_auth p) as [h c].
    destruct (requests_post N _ h c) as [resp|]; [|reflexivity].
    destruct (is_error resp); [reflexivity | discriminate]. }
  destruct (get_auth p) as [h c] eqn:Hauth. cbn [fst snd] in *.
  destruct (requests_get N (get_base_url p ++ path) h c params) as [r0|] eqn:Hget.
  - destruct (Nat.eqb (status_code r0) 401) eqn:E401.
    + apply Nat.eqb_eq in E401.
      destruct (refresh_tokens N p) as [[ok q] posted] eqn:Href. cbn [fst snd] in *.
      subst posted. destruct ok.
      * destruct (get_auth q) as [h' c'] eqn:Hauth'.
        destruct (requests_get N (get_base_url p ++ path) h' c' params) as [r1|] eqn:Hget';
          cbn [fst snd].
        -- split; [intros H; now contradiction (H r0 eq_refl)|]. split.
           ++ intros r [= <-] _. split; [discriminate|]. intros _.
              rewrite Hauth'. cbn [fst snd]. rewrite Hget'. auto.
           ++ destruct (is_error r1) eqn:Ee; [discriminate|]. now intros r [= <-].
        -- split; [intros H; now contradiction (H r0 eq_refl)|]. split.
           ++ intros r [= <-] _. split; [discriminate|]. intros _.
              rewrite Hauth'. cbn [fst snd]. rewrite Hget'. auto.
           ++ discriminate.
      * cbn [fst snd]. rewrite (Hfail eq_refl).
        split; [intros H; now contradiction (H r0 eq_refl)|]. split.
        -- intros r [= <-] _. split; [auto | discriminate].
        -- discriminate.
    + apply Nat.eqb_neq in E401. cbn [fst snd]. split; [auto|]. split.
      * intros r [= <-] H. contradiction.
      * destruct (is_error r0) eqn:Ee; [discriminate|]. now intros r [= <-].
  - cbn [fst snd]. split; [auto|]. split; [discriminate | discriminate].
Qed.

Lemma api_get_retries_once_witness :
  let outcome :=
    api_get Scenario.expiring_network Scenario.configured_process "/api/bookings" [] in
  snd outcome =
    [Get "https://api.port.example/api/bookings" {["access-token" := "expired"]};
     PostRefresh "https://api.port.example/api/auth/refresh"
       {["access-token" := "expired"]};
     Get "https://api.port.example/api/bookings" {["access-token" := "fresh"]}] /\
  fst (fst outcome) = Some (mkResponse 200 (VDict []) ∅).
Proof.
  intros outcome. subst outcome.
  destruct (api_get_retries_once Scenario.expiring_network Scenario.configured_process
              "/api/bookings" []) as (_ & H & _).
  destruct (H (mkResponse 401 (VDict []) ∅) eq_refl eq_refl) as [_ Hretry].
  destruct (Hretry eq_refl) as (Hsent & Hp & Hres).
  split.
  - rewrite Hsent, Hp. reflexivity.
  - rewrite Hres, Hp. reflexivity.
Defined.

Lemma access_token_after_save (f : token_file) (env : gmap string string)
    (access_token refresh_token csrf_token : option string) :
  current_token
    (mkProcess (save_tokens access_token refresh_token csrf_token f)
       (export "API_CSRF_TOKEN" csrf_token
          (export "API_REFRESH_TOKEN" refresh_token
             (export "API_ACCESS_TOKEN" access_token env))))
    "API_ACCESS_TOKEN" =
  if truthy_str access_token then strip (fmt_opt access_token)
  else current_token (mkProcess f env) "API_ACCESS_TOKEN".
Proof.
  unfold current_token, save_tokens, export. cbn [file environ load_tokens].
  rewrite !lookup_put_if. cbn [String.eqb Ascii.eqb Bool.eqb].
  rewrite !andb_false_r, !andb_true_r.
  destruct access_token as [t|]; cbn [truthy_str]; [|reflexivity].
  destruct (String.eqb t "") eqn:E; cbn [negb fmt_opt]; [reflexivity|].
  now rewrite E.
Qed.

(** The retry carries the refreshed token. After a refresh that succeeded,
    the access-token cookie read anew is the token the refresh response set,
    blanks removed, when it set one that is not blank; when the response set
    none, the cookie is what it was before. *)
Theorem retry_carries_refreshed_token (N : Network) (p : Process) (resp : response) :
  requests_post N (get_base_url p ++ "/api/auth/refresh")
    (fst (get_auth p)) (snd (get_auth p)) = Some resp ->
  is_error resp = false ->
  let p' := snd (fst (refresh_tokens N p)) in
  fst (fst (refresh_tokens N p)) = true /\
  (forall token, cookies_set resp !! "access-token" = Some token ->
     strip token <> "" ->
     snd (get_auth p') !! "access-token" = Some (strip token)) /\
  (cookies_set resp !! "access-token" = None ->
     snd (get_auth p') !! "access-token" = snd (get_auth p) !! "access-token").
Proof.
  intros Hpost Hok p'. subst p'. unfold refresh_tokens.
  destruct (get_auth p) as [h c] eqn:Hauth. cbn [fst snd] in Hpost.
  rewrite Hpost, Hok. cbn [fst snd].
  split; [reflexivity|].
  assert (Hc : c = snd (get_auth p)) by now rewrite Hauth.
  rewrite Hc, !cookies_access, access_token_after_save.
  destruct p as [f env]. cbn [file environ]. split.
  - intros token Ht Hne. rewrite Ht.
    assert (Htok : String.eqb token "" = false).
    { destruct token; [now contradiction Hne | reflexivity]. }
    cbn [truthy_str fmt_opt]. rewrite Htok. cbn [negb].
    destruct (String.eqb (strip token) "") eqn:E; [|reflexivity].
    apply String.eqb_eq in E. contradiction.
  - intros ->. reflexivity.
Qed.

Lemma retry_carries_refreshed_token_witness :
  snd (get_auth (snd (fst (refresh_tokens Scenario.expiring_network
                             Scenario.configured_process)))) !! "access-token" =
  Some "fresh".
Proof.
  destruct (retry_carries_refreshed_token Scenario.expiring_network
              Scenario.configured_process
              (mkResponse 200 (VDict []) {["access-token" := " fresh "]}))
    as (_ & H & _).
  - reflexivity.
  - reflexivity.
  - apply (H " fresh ").
    + reflexivity.
    + discriminate.
Defined.

(** * Properties of the suggestion service *)

(** The week the suggestions look at runs from a Monday to the Sunday six
    days later and contains today; of its seven days exactly one is today,
    the one labelled TODAY in the snapshot. *)
Theorem week_range_contains_today (today : Z) :
  let monday := Suggestions.monday_of today in
  Suggestions._week_range today =
    (BookingTools.strftime monday, BookingTools.strftime (monday + 6)) /\
  (monday <= today <= monday + 6)%Z /\
  Suggestions.weekday monday = 0%Z /\
  Suggestions.weekday (monday + 6) = 6%Z /\
  List.filter (Z.eqb today) (Suggestions.week_days today) = [today].
Proof.
  intros monday. subst monday.
  unfold Suggestions._week_range, Suggestions.week_days, Suggestions.monday_of,
    Suggestions.weekday.
  split; [reflexivity|].
  pose proof (Z.mod_pos_bound (today + 6) 7 ltac:(lia)) as Hb.
  set (w := ((today + 6) mod 7)%Z) in *.
  assert (Hw : ((today + 6) = 7 * ((today + 6) / 7) + w)%Z).
  { subst w. apply Z.div_mod. lia. }
  split; [lia|]. split.
  { replace (today - w + 6)%Z with (0 + ((today + 6) / 7) * 7)%Z by lia.
    now rewrite Z.mod_add by lia. }
  split.
  { replace (today - w + 6 + 6)%Z with (6 + ((today + 6) / 7) * 7)%Z by lia.
    now rewrite Z.mod_add by lia. }
  cbn [map List.filter].
  assert (Hcase : (w = 0 \/ w = 1 \/ w = 2 \/ w = 3 \/ w = 4 \/ w = 5 \/ w = 6)%Z) by lia.
  destruct Hcase as [E | [E | [E | [E | [E | [E | E] ] ] ] ] ]; rewrite E;
    repeat match goal with
           | |- context [Z.eqb today ?x] =>
               first [ replace x with today by lia; rewrite Z.eqb_refl
                     | rewrite (proj2 (Z.eqb_neq today x)) by lia ]
           end; reflexivity.
Qed.

(** ** The order of the suggestions *)

Lemma insert_sorted_perm (s : Suggestions.suggestion) (l : list Suggestions.suggestion) :
  Permutation (s :: l) (Suggestions.insert_sorted s l).
Proof.
  induction l as [|t l IH]; simpl; [reflexivity|].
  destruct (Suggestions.rank s <=? Suggestions.rank t)%nat; [reflexivity|].
  rewrite perm_swap. now apply perm_skip.
Qed.

Lemma insert_sorted_sorted (s : Suggestions.suggestion)
    (l : list Suggestions.suggestion) :
  StronglySorted (fun a b => (Suggestions.rank a <= Suggestions.rank b)%nat) l ->
  StronglySorted (fun a b => (Suggestions.rank a <= Suggestions.rank b)%nat)
    (Suggestions.insert_sorted s l).
Proof.
  induction l as [|t l IH]; intros Hs; simpl.
  - constructor; [constructor | constructor].
  - inversion Hs as [|? ? Hl Ht]; subst.
    destruct (Suggestions.rank s <=? Suggestions.rank t)%nat eqn:E.
    + apply Nat.leb_le in E. constructor; [exact Hs|].
      constructor; [exact E|].
      eapply Forall_impl; [exact Ht|]. intros a Ha. simpl in *. lia.
    + apply Nat.leb_gt in E. constructor; [now apply IH|].
      rewrite <- (insert_sorted_perm s l).
      constructor; [lia | exact Ht].
Qed.

Lemma insert_sorted_stable (k : nat) (s : Suggestions.suggestion)
    (l : list Suggestions.suggestion) :
  StronglySorted (fun a b => (Suggestions.rank a <= Suggestions.rank b)%nat) l ->
  List.filter (fun a => Nat.eqb (Suggestions.rank a) k) (Suggestions.insert_sorted s l) =
  List.filter (fun a => Nat.eqb (Suggestions.rank a) k) (s :: l).
Proof.
  induction l as [|t l IH]; intros Hs; [reflexivity|].
  cbn [Suggestions.insert_sorted].
  destruct (Suggestions.rank s <=? Suggestions.rank t)%nat eqn:E; [reflexivity|].
  apply Nat.leb_gt in E. inversion Hs as [|? ? Hl Ht]; subst.
  cbn [List.filter]. rewrite (IH Hl). cbn [List.filter].
  destruct (Nat.eqb (Suggestions.rank t) k) eqn:Et;
    destruct (Nat.eqb (Suggestions.rank s) k) eqn:Es; try reflexivity.
  apply Nat.eqb_eq in Et, Es. lia.
Qed.

Lemma sort_sorted (l : list Suggestions.suggestion) :
  StronglySorted (fun a b => (Suggestions.rank a <= Suggestions.rank b)%nat)
    (Suggestions.sort l).
Proof.
  induction l as [|s l IH]; simpl; [constructor|]. now apply insert_sorted_sorted.
Qed.

Lemma rank_cases (s : Suggestions.suggestion) :
  Suggestions.rank s =
  if String.eqb (Suggestions.priority s) "high" then 0%nat
  else if String.eqb (Suggestions.priority s) "low" then 2%nat
  else 1%nat.
Proof.
  unfold Suggestions.rank, Suggestions.order.
  rewrite !lookup_insert. rewrite lookup_empty.
  destruct (String.eqb (Suggestions.priority s) "high") eqn:E1.
  { apply String.eqb_eq in E1. rewrite E1. reflexivity. }
  destruct (String.eqb (Suggestions.priority s) "low") eqn:E2.
  { apply String.eqb_eq in E2. rewrite E2. reflexivity. }
  repeat case_decide; try reflexivity; subst;
    match goal with
    | H : _ = Suggestions.priority s |- _ => rewrite <- H in *; discriminate
    end.
Qed.

(** The suggestions come back ordered by priority: the high ones first,
    then the medium ones together with those of any other priority, then
    the low ones. Nothing is added or lost, and suggestions of the same rank
    keep the order the model gave them. *)
Theorem suggestions_ordered (l : list Suggestions.suggestion) :
  StronglySorted (fun a b => (Suggestions.rank a <= Suggestions.rank b)%nat)
    (Suggestions.sort l) /\
  Permutation l (Suggestions.sort l) /\
  (forall k,
     List.filter (fun a => Nat.eqb (Suggestions.rank a) k) (Suggestions.sort l) =
     List.filter (fun a => Nat.eqb (Suggestions.rank a) k) l) /\
  (forall s,
     Suggestions.rank s =
     if String.eqb (Suggestions.priority s) "high" then 0%nat
     else if String.eqb (Suggestions.priority s) "low" then 2%nat
     else 1%nat).
Proof.
  split; [apply sort_sorted|]. split; [|split; [|apply rank_cases]].
  - induction l as [|s l IH]; simpl; [reflexivity|].
    rewrite <- insert_sorted_perm. now apply perm_skip.
  - intros k. induction l as [|s l IH]; [reflexivity|].
    cbn [Suggestions.sort]. rewrite insert_sorted_stable by apply sort_sorted.
    cbn [List.filter]. now rewrite IH.
Qed.

(** ** Replies that are no list of suggestions *)

(** A reply of the model that is not a JSON array (not JSON at all, or JSON
    of another shape) is not an error: it comes back as one suggestion of
    medium priority, category General, that carries the reply itself,
    blanks around it removed. An array whose entry is no object, or whose
    priority is no string, ends the request with an exception. *)
Theorem suggestions_fallback (W : World) (unfence : string -> string) (raw : string) :
  let cleaned := ApiClient.rstrip_char "`" (strip (unfence raw)) in
  ((forall items, json_loads W cleaned <> Some (VList items)) ->
   Suggestions.suggestions_for W unfence raw =
     Some [Suggestions.mkSuggestion "medium" "🟡" (VStr "General") (VStr "—")
             (VStr (strip raw))]) /\
  (forall items item,
     json_loads W cleaned = Some (VList items) ->
     In item items ->
     Suggestions.enrich item = None ->
     Suggestions.suggestions_for W unfence raw = None) /\
  (forall item,
     (forall d, item <> VDict d) -> Suggestions.enrich item = None).
Proof.
  intros cleaned. subst cleaned. unfold Suggestions.suggestions_for,
    Suggestions._parse_suggestions.
  split; [|split].
  - intros Hno.
    destruct (json_loads W _) as [v|]; [|reflexivity].
    destruct v; try reflexivity. now contradiction (Hno l).
  - intros items item -> Hin Hbad.
    assert (Hall : Suggestions.enrich_all items = None).
    { induction items as [|x items IH]; [contradiction|].
      cbn [Suggestions.enrich_all]. destruct Hin as [->|Hin].
      - now rewrite Hbad.
      - destruct (Suggestions.enrich x); [|reflexivity].
        cbn [mbind option_bind]. now rewrite (IH Hin). }
    now rewrite Hall.
  - intros item Hd. destruct item; try reflexivity. now contradiction (Hd d).
Qed.

Lemma suggestions_fallback_witness :
  Suggestions.suggestions_for (Scenario.world (Scenario.says "")) (fun s => s)
    " Terminal A is full on Monday. " =
  Some [Suggestions.mkSuggestion "medium" "🟡" (VStr "General") (VStr "—")
          (VStr "Terminal A is full on Monday.")].
Proof.
  destruct (suggestions_fallback (Scenario.world (Scenario.says "")) (fun s => s)
              " Terminal A is full on Monday. ") as (H & _).
  apply H. intros items. discriminate.
Defined.

(** * Properties of the chat endpoint *)

(** What /chat answers. Without a configured key every request is refused
    with status 500, and with one every request whose header is not exactly
    that key with status 401, before anything else is done. A request that
    is answered carries the text of the Guardian's last message, the one the
    turn ended with, as [message] and as its single block; the thread id is
    the one of the request, or a fresh one; the lock and the payload are
    those of the state the turn left. The [str()] of a message that is no
    assistant message never reaches the user. *)
Theorem chat_answers_with_guardian_text (W : World) (environ : gmap string string)
    (repr : message -> string) (req : Api.ChatRequest) (x_api_key : option string)
    (stored : AgentState) :
  (strip (default "" (environ !! "AGENT_API_KEY")) = "" ->
   ChatEndpoint.chat W environ repr req x_api_key stored =
     ChatEndpoint.Rejected 500 "AGENT_API_KEY is not configured") /\
  (strip (default "" (environ !! "AGENT_API_KEY")) <> "" ->
   x_api_key <> Some (strip (default "" (environ !! "AGENT_API_KEY"))) ->
   ChatEndpoint.chat W environ repr req x_api_key stored =
     ChatEndpoint.Rejected 401 "Invalid API key") /\
  (forall r,
     ChatEndpoint.chat W environ repr req x_api_key stored = ChatEndpoint.Answered r ->
     x_api_key = Some (strip (default "" (environ !! "AGENT_API_KEY"))) /\
     exists final events text,
       Api.chat W req stored = Some (final, events) /\
       last (messages final) = Some (AIMessage (AiReply text [])) /\
       ChatEndpoint.resp_message r = text /\
       ChatEndpoint.resp_blocks r = [("message", text)] /\
       ChatEndpoint.resp_thread_id r = Api.str_or (Api.req_thread_id req) (uuid4 W) /\
       ChatEndpoint.resp_route_lock r = lock_of final /\
       ChatEndpoint.resp_ui_payload r = state_get (ui_payload final) None).
Proof.
  unfold ChatEndpoint.chat, ChatEndpoint._require_api_key.
  set (expected := strip (default "" (environ !! "AGENT_API_KEY"))).
  split; [|split].
  - intros ->. reflexivity.
  - intros Hconf Hkey.
    destruct (String.eqb expected "") eqn:E; [apply String.eqb_eq in E; contradiction|].
    rewrite (bool_decide_eq_false_2 _ Hkey). cbn [negb]. rewrite orb_true_r. reflexivity.
  - intros r Hr.
    destruct (String.eqb expected "") eqn:E; [discriminate|].
    destruct (negb (truthy_str x_api_key) || negb (bool_decide (x_api_key = Some expected)))
      eqn:Ek; [discriminate|].
    apply orb_false_iff in Ek. destruct Ek as [_ Ek].
    apply negb_false_iff, bool_decide_eq_true_1 in Ek.
    split; [exact Ek|].
    destruct (Api.chat W req stored) as [[final events]|] eqn:Hchat; [|discriminate].
    injection Hr as <-.
    destruct (run_last_guardian W Graph.recursion_limit "ORCHESTRATOR"
                (Api.input_state W req stored) final events)
      as (s & _ & _ & Hfinal); [discriminate | now left | exact Hchat |].
    destruct (guardian_update_shape W s) as ((text & Hm) & _).
    assert (Hlast : last (messages final) = Some (AIMessage (AiReply text []))).
    { rewrite Hfinal. unfold apply_update. cbn [messages]. rewrite Hm.
      apply last_snoc. }
    exists final, events, text. split; [reflexivity|]. split; [exact Hlast|].
    unfold ChatEndpoint.respond, last_item. rewrite Hlast.
    repeat split.
Qed.

Lemma chat_answers_with_guardian_text_witness :
  match ChatEndpoint.chat (Scenario.world (Scenario.says " HELP "))
          {["AGENT_API_KEY" := " secret "]} (fun _ => "<message>")
          Scenario.lowercase_request (Some "secret") Api.empty_state with
  | ChatEndpoint.Answered r =>
      ChatEndpoint.resp_message r = "HELP" /\
      ChatEndpoint.resp_blocks r = [("message", "HELP")] /\
      ChatEndpoint.resp_thread_id r = "thread-1"
  | _ => False
  end.
Proof.
  destruct (ChatEndpoint.chat (Scenario.world (Scenario.says " HELP "))
              {["AGENT_API_KEY" := " secret "]} (fun _ => "<message>")
              Scenario.lowercase_request (Some "secret") Api.empty_state)
    as [status detail| |r] eqn:E; try (vm_compute in E; discriminate).
  destruct (chat_answers_with_guardian_text (Scenario.world (Scenario.says " HELP "))
              {["AGENT_API_KEY" := " secret "]} (fun _ => "<message>")
              Scenario.lowercase_request (Some "secret") Api.empty_state)
    as (_ & _ & H).
  destruct (H r E) as (_ & final & events & text & Hchat & Hlast & Hm & Hb & Ht & _).
  assert (Htext : text = "HELP").
  { vm_compute in Hchat. injection Hchat as <- _. vm_compute in Hlast. congruence. }
  rewrite Hm, Hb, Ht, Htext. repeat split.
Defined.

(** * Properties of the availability report *)

Lemma scan_best (W : World) (slots : list pyval) :
  forall acc t,
    Availability.scan W acc slots = Some t ->
    (0 <= Availability.best_avail acc <= Availability.total_available acc)%Z ->
    (Availability.best_slot acc = None <-> Availability.best_avail acc = 0%Z) ->
    (Availability.best_avail acc = 0%Z -> Availability.total_available acc = 0%Z) ->
    (0 <= Availability.best_avail t <= Availability.total_available t)%Z /\
    (Availability.best_slot t = None <-> Availability.best_avail t = 0%Z) /\
    (Availability.best_avail t = 0%Z -> Availability.total_available t = 0%Z) /\
    (Availability.best_avail acc <= Availability.best_avail t)%Z /\
    (forall d n, In (VDict d) slots -> Availability.is_avail d = true ->
       Availability.as_int (Availability.avail_of d) = Some n ->
       (n <= Availability.best_avail t)%Z) /\
    ((Availability.best_slot t = Availability.best_slot acc /\
      Availability.best_avail t = Availability.best_avail acc) \/
     exists d,
       In (VDict d) slots /\ Availability.is_avail d = true /\
       Availability.as_int (Availability.avail_of d) = Some (Availability.best_avail t) /\
       Availability.best_slot t = Some (Availability.label W d)).
Proof.
  induction slots as [|slot slots IH]; intros acc t Hscan Hb Hn Hz.
  - injection Hscan as <-.
    split; [exact Hb|]. split; [exact Hn|]. split; [exact Hz|].
    split; [lia|]. split; [intros d n []|now left].
  - cbn [Availability.scan] in Hscan.
    destruct (Availability.step W acc slot) as [acc'|] eqn:Hstep; [|discriminate].
    cbn [mbind option_bind] in Hscan.
    unfold Availability.step in Hstep.
    destruct slot as [| | | | |d]; try discriminate.
    destruct (Availability.as_int (Availability.cap_of d)) as [cap|]; [|discriminate].
    cbn [mbind option_bind] in Hstep.
    destruct (Availability.is_avail d) eqn:Hopen.
    + destruct (Availability.as_int (Availability.avail_of d)) as [avail|] eqn:Havail;
        [|discriminate].
      cbn [mbind option_bind] in Hstep. injection Hstep as <-.
      destruct (0 <? avail)%Z eqn:Hpos; cbn [andb] in *.
      * apply Z.ltb_lt in Hpos.
        destruct (Availability.best_avail acc <? avail)%Z eqn:Hbetter.
        -- apply Z.ltb_lt in Hbetter.
           destruct (IH _ t Hscan) as (H1 & H2 & H3 & H4 & H5 & H6);
             cbn [Availability.best_avail Availability.total_available
                  Availability.best_slot]; [lia | split; [discriminate | lia] | lia |].
           cbn [Availability.best_avail Availability.best_slot] in *.
           split; [exact H1|]. split; [exact H2|]. split; [exact H3|].
           split; [lia|]. split.
           ++ intros d' n [[= <-]|Hin] Ho Ha; [|eauto].
              rewrite Havail in Ha. injection Ha as <-. lia.
           ++ right. destruct H6 as [[Hs Ha]|(d' & Hin & Ho & Ha & Hs)].
              ** exists d. rewrite Ha. split; [now left|]. auto.
              ** exists d'. split; [now right|]. auto.
        -- apply Z.ltb_ge in Hbetter.
           destruct (IH _ t Hscan) as (H1 & H2 & H3 & H4 & H5 & H6);
             cbn [Availability.best_avail Availability.total_available
                  Availability.best_slot]; [lia | exact Hn | lia |].
           cbn [Availability.best_avail Availability.best_slot] in *.
           split; [exact H1|]. split; [exact H2|]. split; [exact H3|].
           split; [lia|]. split.
           ++ intros d' n [[= <-]|Hin] Ho Ha; [|eauto].
              rewrite Havail in Ha. injection Ha as <-. lia.
           ++ destruct H6 as [?|(d' & Hin & ?)]; [now left|].
              right. exists d'. split; [now right|]. auto.
      * apply Z.ltb_ge in Hpos.
        destruct (IH _ t Hscan) as (H1 & H2 & H3 & H4 & H5 & H6);
          cbn [Availability.best_avail Availability.total_available
               Availability.best_slot]; [lia | exact Hn | lia |].
        cbn [Availability.best_avail Availability.best_slot] in *.
        split; [exact H1|]. split; [exact H2|]. split; [exact H3|].
        split; [lia|]. split.
        -- intros d' n [[= <-]|Hin] Ho Ha; [|eauto].
           rewrite Havail in Ha. injection Ha as <-. lia.
        -- destruct H6 as [?|(d' & Hin & ?)]; [now left|].
           right. exists d'. split; [now right|]. auto.
    + injection Hstep as <-.
      destruct (IH _ t Hscan) as (H1 & H2 & H3 & H4 & H5 & H6);
        cbn [Availability.best_avail Availability.total_available
             Availability.best_slot]; [lia | exact Hn | lia |].
      cbn [Availability.best_avail Availability.best_slot] in *.
      split; [exact H1|]. split; [exact H2|]. split; [exact H3|].
      split; [lia|]. split.
      * intros d' n [[= <-]|Hin] Ho Ha; [congruence | eauto].
      * destruct H6 as [?|(d' & Hin & ?)]; [now left|].
        right. exists d'. split; [now right|]. auto.
Qed.

(** The best slot of a day in the availability report. When the report of
    a day can be computed, the slot it names as best is a slot of that day
    that is open and whose availability no open slot of the day exceeds; a
    best slot is named exactly when something is available that day, and
    its availability is at most the total that is free. *)
Theorem best_slot_is_best (W : World) (slots : list pyval) (t : Availability.totals) :
  Availability.day_totals W slots = Some t ->
  (0 <= Availability.best_avail t <= Availability.total_available t)%Z /\
  (Availability.best_slot t = None <-> Availability.total_available t = 0%Z) /\
  (forall d n, In (VDict d) slots -> Availability.is_avail d = true ->
     Availability.as_int (Availability.avail_of d) = Some n ->
     (n <= Availability.best_avail t)%Z) /\
  (forall name, Availability.best_slot t = Some name ->
     exists d,
       In (VDict d) slots /\ Availability.is_avail d = true /\
       Availability.as_int (Availability.avail_of d) = Some (Availability.best_avail t) /\
       (0 < Availability.best_avail t)%Z /\
       name = Availability.label W d).
Proof.
  intros Hday. unfold Availability.day_totals in Hday.
  destruct (scan_best W slots Availability.start t Hday)
    as (H1 & H2 & H3 & _ & H5 & H6); cbn; try lia; try tauto.
  split; [exact H1|]. split; [|split; [exact H5|]].
  - split; [intros Hnone; apply H3, H2, Hnone | intros Hzero; apply H2; lia].
  - intros name Hname.
    destruct H6 as [[Hs _]|(d & Hin & Ho & Ha & Hs)].
    + rewrite Hs in Hname. discriminate.
    + exists d. rewrite Hs in Hname. injection Hname as <-.
      assert (Availability.best_avail t <> 0%Z).
      { intros Hz. apply H2 in Hz. congruence. }
      repeat split; auto. lia.
Qed.

Lemma best_slot_is_best_witness :
  exists t,
    Availability.day_totals (Scenario.world (Scenario.says "ok")) Scenario.a_day = Some t /\
    Availability.best_slot t = Some "10:00-11:00" /\
    (0 <= Availability.best_avail t <= Availability.total_available t)%Z.
Proof.
  eexists. split; [vm_compute; reflexivity|]. split; [reflexivity|].
  apply (best_slot_is_best (Scenario.world (Scenario.says "ok")) Scenario.a_day).
  vm_compute. reflexivity.
Defined.

(** * The identity a request is served under *)



(** * Properties of the terminals map *)

Lemma build_lookup (W : World) (terminals : list pyval) :
  forall (acc m : gmap string string) (k v : string),
    TerminalsMap.build W acc terminals = Some m ->
    (m !! k = Some v <->
     (exists l1 t l2,
        terminals = (l1 ++ VDict t :: l2)%list /\
        TerminalsMap.listed t = true /\
        k = TerminalsMap.key W t /\
        v = py_str W (TerminalsMap.id_of t) /\
        Forall (fun t' => forall d, t' = VDict d -> TerminalsMap.listed d = true ->
                                    TerminalsMap.key W d <> k) l2) \/
     (Forall (fun t' => forall d, t' = VDict d -> TerminalsMap.listed d = true ->
                                  TerminalsMap.key W d <> k) terminals /\
      acc !! k = Some v)).
Proof.
  induction terminals as [|t rest IH]; intros acc m k v Hbuild.
  - injection Hbuild as <-. split.
    + intros H. right. split; [constructor | exact H].
    + intros [(l1 & t & l2 & Hl & _)|[_ H]]; [|exact H].
      destruct l1; discriminate.
  - cbn [TerminalsMap.build] in Hbuild.
    destruct t as [| | | | |t]; try discriminate.
    cbn [TerminalsMap.entry mbind option_bind] in Hbuild.
    specialize (IH _ m k v Hbuild). rewrite IH. clear IH Hbuild. split.
    + intros [(l1 & t' & l2 & -> & Hl & Hk & Hv & Hrest)|[Hrest Hacc]].
      * left. exists (VDict t :: l1), t', l2. auto.
      * destruct (TerminalsMap.listed t) eqn:Hl.
        -- destruct (decide (TerminalsMap.key W t = k)) as [Heq|Hne].
           ++ left. exists [], t, rest. rewrite Heq, lookup_insert_eq in Hacc.
              injection Hacc as <-. auto.
           ++ right. rewrite lookup_insert_ne in Hacc by exact Hne.
              split; [|exact Hacc]. constructor; [|exact Hrest].
              intros d [= <-] _. exact Hne.
        -- right. split; [|exact Hacc]. constructor; [|exact Hrest].
           intros d [= <-] Hd. congruence.
    + intros [(l1 & t' & l2 & Hsplit & Hl & Hk & Hv & Hrest)|[Hall Hacc]].
      * destruct l1 as [|x l1]; cbn in Hsplit; injection Hsplit as Hx Hr.
        -- subst t' l2. right. split; [exact Hrest|].
           rewrite Hl. subst k v. apply lookup_insert_eq.
        -- left. exists l1, t', l2. auto.
      * right. inversion Hall as [|? ? Ht Hrest]; subst. split; [exact Hrest|].
        destruct (TerminalsMap.listed t) eqn:Hl; [|exact Hacc].
        rewrite lookup_insert_ne; [exact Hacc|]. now apply (Ht t).
Qed.

(** What the terminals map holds. A request that fails, or a body that is no
    object, gives the empty map and no error. For a list of terminals the
    map gives a name exactly the id of the last terminal listed under it,
    among the terminals that have an id and a name or a code; a terminal
    without them leaves no entry. *)
Theorem terminals_map_last_wins (W : World) :
  TerminalsMap.get_terminals_map W None = Some ∅ /\
  (forall data, (forall d, data <> VDict d) ->
     TerminalsMap.get_terminals_map W (Some data) = Some ∅) /\
  (forall data terminals m k v,
     dict_get "terminals" data = Some (VList terminals) ->
     TerminalsMap.get_terminals_map W (Some (VDict data)) = Some m ->
     (m !! k = Some v <->
      exists l1 t l2,
        terminals = (l1 ++ VDict t :: l2)%list /\
        TerminalsMap.listed t = true /\
        k = TerminalsMap.key W t /\
        v = py_str W (TerminalsMap.id_of t) /\
        Forall (fun t' => forall d, t' = VDict d -> TerminalsMap.listed d = true ->
                                    TerminalsMap.key W d <> k) l2)) /\
  (forall data terminals t,
     dict_get "terminals" data = Some (VList terminals) ->
     In t terminals -> (forall d, t <> VDict d) ->
     TerminalsMap.get_terminals_map W (Some (VDict data)) = None).
Proof.
  split; [reflexivity|]. split; [|split].
  - intros data Hd. destruct data as [| | | | |d]; try reflexivity.
    exfalso; apply (Hd d); reflexivity.
  - intros data terminals m k v Hget Hmap.
    unfold TerminalsMap.get_terminals_map in Hmap. rewrite Hget in Hmap.
    cbn in Hmap.
    rewrite (build_lookup W terminals ∅ m k v Hmap). split.
    + intros [H|[_ H]]; [exact H|]. rewrite lookup_empty in H. discriminate.
    + intros H. now left.
  - intros data terminals t Hget Hin Ht.
    unfold TerminalsMap.get_terminals_map. rewrite Hget. cbn. clear Hget.
    generalize (∅ : gmap string string).
    induction terminals as [|x rest IH]; intros acc; [destruct Hin|].
    destruct Hin as [->|Hin].
    + destruct t as [| | | | |d]; try reflexivity. exfalso; apply (Ht d); reflexivity.
    + cbn [TerminalsMap.build]. destruct (TerminalsMap.entry W x); [|reflexivity].
      cbn [mbind option_bind]. apply IH. exact Hin.
Qed.

Lemma terminals_map_last_wins_witness :
  match TerminalsMap.get_terminals_map (Scenario.world (Scenario.says "ok"))
          (Some (VDict [("terminals", VList Scenario.terminal_list)])) with
  | Some m => m !! "Terminal A" = Some "t3" /\ m !! "Terminal C" = None
  | None => False
  end.
Proof.
  destruct (TerminalsMap.get_terminals_map (Scenario.world (Scenario.says "ok"))
              (Some (VDict [("terminals", VList Scenario.terminal_list)])))
    as [m|] eqn:Hm; [|vm_compute in Hm; discriminate].
  destruct (terminals_map_last_wins (Scenario.world (Scenario.says "ok")))
    as (_ & _ & H & _).
  split.
  - apply (H [("terminals", VList Scenario.terminal_list)]
             Scenario.terminal_list m "Terminal A" "t3" eq_refl Hm).
    exists [VDict [("id", VStr "t1"); ("name", VStr "Terminal A")];
            VDict [("id", VStr "t2"); ("code", VStr "B")]],
           [("id", VStr "t3"); ("name", VStr "Terminal A")],
           [VDict [("name", VStr "Terminal C")]].
    repeat split. constructor; [|constructor].
    intros d [= <-] Hd. discriminate Hd.
  - destruct (m !! "Terminal C") as [v|] eqn:Hv; [|reflexivity].
    apply (H [("terminals", VList Scenario.terminal_list)]
             Scenario.terminal_list m "Terminal C" v eq_refl Hm) in Hv.
    destruct Hv as (l1 & t & l2 & Hsplit & Hl & Hk & _).
    exfalso.
    assert (Hin : In (VDict t) Scenario.terminal_list)
      by (rewrite Hsplit; apply in_or_app; right; now left).
    destruct Hin as [Ht|[Ht|[Ht|[Ht|[]]]]]; injection Ht as <-; discriminate.
Defined.
